(** * fakestrava: the GPX synthesis engine of [lib/gpx.ts]

    A shallow embedding of the track generator (legacy path
    [generateTrackPoints], realistic-timing path
    [generateRealisticTimestamps]), of the elevation lookup with its retry
    and fallback, and of the GPX serializer, followed by the properties the
    specification states about them.  The rest of [lib/gpx.ts] (the pace,
    duration and distance utilities, the legacy wrapper), the distance of
    the hook [useRoutes] and the elevation proxy
    [app/api/elevation/route.ts] follow, with further properties of the
    code.

    Conventions of the embedding.
    - A JavaScript number is a mathematical real ([R]): arithmetic is
      exact, and NaN, the infinities and an Invalid Date are outside the
      model.  Where JavaScript would produce one of them (a division by
      zero, say) the model still has a real number, which stands for
      nothing in the source.  Two places of the source reach them on
      inputs a caller can give, and the model says so:
      [addSpeedVariation] is embedded with the special values
      ([Number]), its loop reading the finite value of the result, and
      the haversine formula, whose term [a] can round above 1 for
      positions close to antipodal, comes with the predicate
      [measurable] of the positions it measures.  The theorems on
      speeds, distances and timestamps assume draws and positions for
      which the source computes numbers.
    - A [Date] is its time value, a whole number of milliseconds ([Z]);
      [new Date(x)] truncates [x] to a whole millisecond ([TimeClip]).
    - [Math.random()], the network and the clock are ambient in the source.
      The model reads them from a record [Ambient] that holds one stream of
      draws per call site of [Math.random()] (indexed by the loop index of
      the call) and one response per elevation request.  The draws are
      arbitrary, so every run of the source is the run of the model for
      some [Ambient], and conversely.
    - [await delay(..)] and the [console] calls carry no data and are left
      out. *)

From Stdlib Require Import DecimalString.
From Stdlib Require Import Reals Lra Lia ZArith String Ascii Bool List.
Import ListNotations.

Open Scope R_scope.

(** ** JavaScript built-ins *)

(** [Math.round]: the nearest integer, halves rounded up. *)
Definition Math_round (x : R) : R := IZR (Zfloor (x + 0.5)).

(** [ToIntegerOrInfinity] on a finite number: truncation towards zero. *)
Definition ToInteger (x : R) : Z :=
  if Rle_dec 0 x then Zfloor x else Zceil x.

(** [new Date(x).getTime()] for a finite [x] in the range of dates. *)
Definition TimeClip (x : R) : Z := ToInteger x.

(** [Math.atan2 y x]. *)
Definition Math_atan2 (y x : R) : R :=
  if Rlt_dec 0 x then atan (y / x)
  else if Rlt_dec x 0 then
         (if Rle_dec 0 y then atan (y / x) + PI else atan (y / x) - PI)
  else if Rlt_dec 0 y then PI / 2
  else if Rlt_dec y 0 then - PI / 2
  else 0.

(** [x || d] on an optional number: [undefined] and [0] are falsy. *)
Definition orDefault (x : option R) (d : R) : R :=
  match x with
  | Some v => if Req_dec_T v 0 then d else v
  | None => d
  end.

(** A default parameter or destructuring default: only [undefined] is
    replaced. *)
Definition withDefault {A : Type} (x : option A) (d : A) : A :=
  match x with Some v => v | None => d end.

(** ** Numbers with the special values

    A number of binary64 where the special values matter: finite (an
    exact real), an infinity or NaN, with the arithmetic of IEEE 754 on
    the special values. *)

Inductive Number :=
| Finite (x : R)
| PosInfinity
| NegInfinity
| NaN.

(** The real a finite number is; the other values have none, and the
    model reads 0 for them. *)
Definition Number_value (n : Number) : R :=
  match n with Finite x => x | _ => 0 end.

(** [a * b]. *)
Definition Number_mul (a b : Number) : Number :=
  match a, b with
  | NaN, _ | _, NaN => NaN
  | Finite x, Finite y => Finite (x * y)
  | Finite x, PosInfinity | PosInfinity, Finite x =>
      if Rlt_dec 0 x then PosInfinity
      else if Rlt_dec x 0 then NegInfinity else NaN
  | Finite x, NegInfinity | NegInfinity, Finite x =>
      if Rlt_dec 0 x then NegInfinity
      else if Rlt_dec x 0 then PosInfinity else NaN
  | PosInfinity, PosInfinity | NegInfinity, NegInfinity => PosInfinity
  | PosInfinity, NegInfinity | NegInfinity, PosInfinity => NegInfinity
  end.

(** [a + b]. *)
Definition Number_add (a b : Number) : Number :=
  match a, b with
  | NaN, _ | _, NaN => NaN
  | Finite x, Finite y => Finite (x + y)
  | PosInfinity, NegInfinity | NegInfinity, PosInfinity => NaN
  | PosInfinity, _ | _, PosInfinity => PosInfinity
  | NegInfinity, _ | _, NegInfinity => NegInfinity
  end.

(** [Math.log] of a finite number. *)
Definition Math_log (x : R) : Number :=
  if Rlt_dec x 0 then NaN
  else if Req_dec_T x 0 then NegInfinity
  else Finite (ln x).

(** [Math.sqrt]. *)
Definition Math_sqrt (a : Number) : Number :=
  match a with
  | Finite x => if Rlt_dec x 0 then NaN else Finite (sqrt x)
  | PosInfinity => PosInfinity
  | NegInfinity | NaN => NaN
  end.

(** [Math.min] and [Math.max] of two numbers: NaN if either is. *)
Definition Math_min (a b : Number) : Number :=
  match a, b with
  | NaN, _ | _, NaN => NaN
  | NegInfinity, _ | _, NegInfinity => NegInfinity
  | PosInfinity, n | n, PosInfinity => n
  | Finite x, Finite y => Finite (Rmin x y)
  end.

Definition Math_max (a b : Number) : Number :=
  match a, b with
  | NaN, _ | _, NaN => NaN
  | PosInfinity, _ | _, PosInfinity => PosInfinity
  | NegInfinity, n | n, NegInfinity => n
  | Finite x, Finite y => Finite (Rmax x y)
  end.

(** ** Data model *)

Inductive ActivityType := Run | Bike | Walk.

Inductive ElevationProfile := flat | hilly | mountainous.

Definition ElevationProfile_eqb (a b : ElevationProfile) : bool :=
  match a, b with
  | flat, flat | hilly, hilly | mountainous, mountainous => true
  | _, _ => false
  end.

(** [DEFAULT_SPEEDS], km/h. *)
Definition DEFAULT_SPEEDS (a : ActivityType) : R :=
  match a with Run => 10 | Bike => 25 | Walk => 5 end.

(** [ELEVATION_PROFILES], metres per km: (min, max). *)
Definition ELEVATION_PROFILES (p : ElevationProfile) : R * R :=
  match p with
  | flat => (0, 10)
  | hilly => (20, 50)
  | mountainous => (50, 100)
  end.

(** ** Grade-based speed adjustment *)

Definition calculateSpeedAdjustmentForElevation
    (elevationChange distance : R) : R :=
  if Req_dec_T distance 0 then 1
  else
    let gradient := (elevationChange / 1000) / distance in
    if Rgt_dec gradient 0.05 then 0.6
    else if Rgt_dec gradient 0.02 then 0.8
    else if Rlt_dec gradient (-0.05) then 1.2
    else if Rlt_dec gradient (-0.02) then 1.1
    else 1.

(** ** Stochastic speed variation *)

(** [addSpeedVariation]; [u1] and [u2] are its two [Math.random()] draws,
    in the order the source makes them.  A draw of 0 makes
    [Math.log(u1)] the negative infinity, so the function is embedded
    with the special values. *)
Definition addSpeedVariation (u1 u2 : R) (baseSpeed variationFactor : R)
  : Number :=
  let gaussian :=
    Number_mul (Math_sqrt (Number_mul (Finite (-2)) (Math_log u1)))
               (Finite (cos (2 * PI * u2))) in
  let variation := Number_mul gaussian (Finite variationFactor) in
  let speedWithVariation :=
    Number_mul (Finite baseSpeed) (Number_add (Finite 1) variation) in
  let minSpeed := baseSpeed * 0.2 in
  let maxSpeed := baseSpeed * 1.8 in
  Math_max (Finite minSpeed) (Math_min (Finite maxSpeed) speedWithVariation).

(** ** Pacing curve *)

Record PacingPattern := {
  warmup : R;
  peak : R;
  fatigue : R
}.

Definition patterns (a : ActivityType) : PacingPattern :=
  match a with
  | Run => {| warmup := 0.85; peak := 1.08; fatigue := 0.92 |}
  | Bike => {| warmup := 0.90; peak := 1.05; fatigue := 0.95 |}
  | Walk => {| warmup := 0.95; peak := 1.02; fatigue := 0.98 |}
  end.

(** The body of the loop of [generatePacingCurve]: the multiplier of a
    given progress. *)
Definition pacingMultiplier (pattern : PacingPattern) (progress : R) : R :=
  if Rlt_dec progress 0.2 then
    let warmupProgress := progress / 0.2 in
    warmup pattern + (1 - warmup pattern) * warmupProgress
  else if Rlt_dec progress 0.7 then
    let peakProgress := (progress - 0.2) / 0.5 in
    let sineVariation := sin (peakProgress * PI * 2) * 0.03 in
    peak pattern + sineVariation
  else
    let fatigueProgress := (progress - 0.7) / 0.3 in
    peak pattern - (peak pattern - fatigue pattern) * fatigueProgress.

(** [progress] of index [i] among [pointCount] points. *)
Definition pacingProgress (pointCount i : nat) : R :=
  INR i / (INR pointCount - 1).

Definition generatePacingCurve (pointCount : nat) (activityType : ActivityType)
  : list R :=
  let pattern := patterns activityType in
  map (fun i => pacingMultiplier pattern (pacingProgress pointCount i))
      (seq 0 pointCount).

(** ** Simulated elevation *)

(** [calculateElevation]; [random] is its [Math.random()] draw.  The
    parameters [currentDistance] and [totalDistance] are not read by the
    source either; [baseElevation] has the default 100. *)
Definition calculateElevation (random : R) (pointIndex totalPoints : nat)
    (currentDistance totalDistance totalElevationGain : R)
    (elevationProfile : ElevationProfile) (baseElevation : option R) : R :=
  let baseElevation := withDefault baseElevation 100 in
  let progress := INR pointIndex / (INR totalPoints - 1) in
  let profileSettings := ELEVATION_PROFILES elevationProfile in
  let elevationVariation :=
    fst profileSettings +
    (snd profileSettings - fst profileSettings) * sin (progress * PI * 2) in
  let cumulativeGain := totalElevationGain * progress in
  let noise := (random - 0.5) * 10 in
  Math_round (baseElevation + cumulativeGain + elevationVariation + noise).

(** [calculateRealisticElevation]; [random] is its [Math.random()] draw. *)
Definition calculateRealisticElevation (random : R)
    (currentElevation progressRatio totalElevationGain totalDistance : R) : R :=
  let targetElevation := 100 + (totalElevationGain * progressRatio) in
  let variation := (random - 0.5) * 20 in
  let smoothingFactor := 0.7 in
  let newElevation :=
    currentElevation * smoothingFactor +
    (targetElevation + variation) * (1 - smoothingFactor) in
  Rmax 0 newElevation.

Definition getStartingElevation (random : R) : R := 50 + random * 150.

(** ** Distances *)

(** [haversineDistance], over the reals.  The source computes it in
    binary64, where it returns NaN for some positions that the predicate
    [measurable] below leaves out. *)
Definition haversineDistance (lat1 lng1 lat2 lng2 : R) : R :=
  let R := 6371 in
  let dLat := (lat2 - lat1) * PI / 180 in
  let dLng := (lng2 - lng1) * PI / 180 in
  let a :=
    sin (dLat / 2) * sin (dLat / 2) +
    cos (lat1 * PI / 180) * cos (lat2 * PI / 180) *
    sin (dLng / 2) * sin (dLng / 2) in
  let c := 2 * Math_atan2 (sqrt a) (sqrt (1 - a)) in
  R * c.

Module Point.
Record t := { lat : R; lng : R }.
End Point.

Module PointWithElevation.
Record t := { lat : R; lng : R; ele : R }.
End PointWithElevation.

Module GPXPoint.
Record t := {
  lat : R;
  lng : R;
  elevation : option R;
  time : option Z
}.
End GPXPoint.

Module TimestampedPoint.
Record t := {
  lat : R;
  lng : R;
  time : Z;
  speed : option R;
  elevation : option R
}.
End TimestampedPoint.

(** A coordinate of the routing layer: [[lng, lat]]. *)
Definition Coordinate : Type := R * R.

Definition origin : Point.t := {| Point.lat := 0; Point.lng := 0 |}.

(** [calculateRouteDistance]: the loop adds the segment ending at each
    index from 1 on. *)
Definition calculateRouteDistance (points : list Point.t) : R :=
  fold_left
    (fun totalDistance i =>
       let prev := nth (i - 1) points origin in
       let curr := nth i points origin in
       totalDistance +
       haversineDistance (Point.lat prev) (Point.lng prev)
                         (Point.lat curr) (Point.lng curr))
    (seq 1 (length points - 1)) 0.

(** ** The elevation service *)

Inductive Error :=
| FetchFailed (message : string)
| ProxyError (status : nat) (statusText : string)
| InvalidJson
| InvalidFormat
| CountMismatch (returned expected : nat)
| TypeError.

(** The result of an asynchronous call: a promise resolves or rejects. *)
Inductive Outcome (A : Type) :=
| Resolved (a : A)
| Rejected (e : Error).

Arguments Resolved {A} a.
Arguments Rejected {A} e.

Definition bind {A B : Type} (m : Outcome A) (k : A -> Outcome B) : Outcome B :=
  match m with
  | Resolved a => k a
  | Rejected e => Rejected e
  end.

(** [try { m } catch (error) { h error }]. *)
Definition catch {A : Type} (m : Outcome A) (h : Error -> Outcome A) : Outcome A :=
  match m with
  | Resolved a => Resolved a
  | Rejected e => h e
  end.

Notation "x <- m ;; k" := (bind m (fun x => k))
  (at level 61, m at next level, right associativity).

Fixpoint mapM {A B : Type} (f : A -> Outcome B) (l : list A) : Outcome (list B) :=
  match l with
  | [] => Resolved []
  | a :: l' => b <- f a ;; bs <- mapM f l' ;; Resolved (b :: bs)
  end.

(** What the body of a response parses to: not JSON at all, or an object
    whose [results] is absent or no array ([None]), or an array whose
    entries are [null] ([None]) or carry an [elevation]. *)
Inductive ResponseBody :=
| NotJson
| Json (results : option (list (option R))).

(** What [fetch('/api/elevation', ..)] does: it rejects (transport error,
    the 30 s timeout), or it resolves with a response. *)
Inductive FetchResult :=
| FetchRejects (message : string)
| Response (ok : bool) (status : nat) (statusText : string) (body : ResponseBody).

(** The ambient world of one run: the draws of [Math.random()] by call
    site, the elevation service by batch offset and attempt, the clock. *)
Record Ambient := {
  random_calculateElevation : nat -> R;
  random_variation : nat -> R;
  random_pause : nat -> R;
  random_pauseLength : nat -> R;
  random_startingElevation : R;
  random_u1 : nat -> R;
  random_u2 : nat -> R;
  random_realisticElevation : nat -> R;
  random_fallback : nat -> nat -> R;
  fetch : nat -> nat -> FetchResult;
  now : Z
}.

(** Library functions the source calls and does not define. *)
Record Library := {
  turf_distance : Coordinate -> Coordinate -> R;
  toISOString : Z -> string;
  toFixed : R -> nat -> string;
  Number_toString : R -> string
}.

Definition callOpenElevationAPI (response : FetchResult) (points : list Point.t)
  : Outcome (list PointWithElevation.t) :=
  match response with
  | FetchRejects message => Rejected (FetchFailed message)
  | Response ok status statusText body =>
      if negb ok then Rejected (ProxyError status statusText)
      else
        match body with
        | NotJson => Rejected InvalidJson
        | Json None => Rejected InvalidFormat
        | Json (Some results) =>
            if negb (length results =? length points)%nat then
              Rejected (CountMismatch (length results) (length points))
            else
              mapM (fun '(point, result) =>
                      match result with
                      | None => Rejected TypeError
                      | Some elevation =>
                          Resolved
                            {| PointWithElevation.lat := Point.lat point;
                               PointWithElevation.lng := Point.lng point;
                               PointWithElevation.ele := Math_round elevation |}
                      end)
                   (combine points results)
        end
  end.

(** [generateFallbackElevation]; [random index] is the draw made for the
    point at [index]. *)
Definition generateFallbackElevation (random : nat -> R) (points : list Point.t)
  : list PointWithElevation.t :=
  map (fun '(index, point) =>
         let baseElevation := 100 in
         let latVariation := Rabs (Point.lat point) * 2 in
         let lngVariation := sin (Point.lng point * PI / 180) * 50 in
         let randomVariation := (random index - 0.5) * 100 in
         let routeProgression := INR index * 2 in
         let elevation :=
           Rmax 0 (baseElevation + latVariation + lngVariation +
                   randomVariation + routeProgression) in
         {| PointWithElevation.lat := Point.lat point;
            PointWithElevation.lng := Point.lng point;
            PointWithElevation.ele := Math_round elevation |})
      (combine (seq 0 (length points)) points).

Definition maxRetries : nat := 2.

(** The attempts of [fetchElevationBatch] from [attempt] on, [remaining] of
    them: the first that resolves is returned, a rejection is caught and
    the loop goes on. *)
Fixpoint fetchAttempts (responses : nat -> FetchResult) (points : list Point.t)
    (attempt remaining : nat) : option (list PointWithElevation.t) :=
  match remaining with
  | O => None
  | S remaining' =>
      match callOpenElevationAPI (responses attempt) points with
      | Resolved result => Some result
      | Rejected _ => fetchAttempts responses points (S attempt) remaining'
      end
  end.

Definition fetchElevationBatch (responses : nat -> FetchResult)
    (random : nat -> R) (points : list Point.t)
  : Outcome (list PointWithElevation.t) :=
  match fetchAttempts responses points 0 (maxRetries + 1) with
  | Some result => Resolved result
  | None => Resolved (generateFallbackElevation random points)
  end.

Definition BATCH_SIZE : nat := 100.

(** The batch loop of [addElevationToPoints] from offset [i]; [fuel] bounds
    the number of batches, and running out of it is a rejection of its
    own, which [addElevationToPoints] never meets. *)
Fixpoint addElevationLoop (w : Ambient) (points : list Point.t) (fuel i : nat)
    (enrichedPoints : list PointWithElevation.t)
  : Outcome (list PointWithElevation.t) :=
  if (i <? length points)%nat then
    match fuel with
    | O => Rejected (FetchFailed "out of fuel")
    | S fuel' =>
        let batch := firstn BATCH_SIZE (skipn i points) in
        batchResults <- fetchElevationBatch (fetch w i) (random_fallback w i) batch ;;
        addElevationLoop w points fuel' (i + BATCH_SIZE)
                         (enrichedPoints ++ batchResults)
    end
  else Resolved enrichedPoints.

Definition addElevationToPoints (w : Ambient) (points : list Point.t)
  : Outcome (list PointWithElevation.t) :=
  if (length points =? 0)%nat then Resolved []
  else addElevationLoop w points (length points) 0 [].

(** ** Generation options *)

Module GPXGenerationOptions.
Record t := {
  name : string;
  description : option string;
  activityType : ActivityType;
  coordinates : list Coordinate;
  startTime : option Z;
  averageSpeedKmh : option R;
  averagePaceMinPerKm : option R;
  elevationGain : option R;
  elevationProfile : option ElevationProfile;
  addNoise : option bool;
  pauseDuration : option R;
  useRealisticTiming : option bool;
  samplingRateSeconds : option R;
  speedVariation : option R;
  addElevation : option bool;
  useRealElevation : option bool
}.
End GPXGenerationOptions.

Module RealisticTimestampOptions.
Record t := {
  avgSpeedKmh : R;
  startTime : Z;
  samplingRateSeconds : option R;
  speedVariation : option R;
  activityType : option ActivityType;
  addElevation : option bool;
  elevationGain : option R;
  useRealElevation : option bool
}.
End RealisticTimestampOptions.

(** Truthiness of an optional number: [undefined] and [0] are falsy. *)
Definition truthy (x : option R) : bool :=
  match x with
  | Some v => if Req_dec_T v 0 then false else true
  | None => false
  end.

Definition isDefined {A : Type} (x : option A) : bool :=
  match x with Some _ => true | None => false end.

(** ** Text *)

Definition nl : string := String "010"%char EmptyString.

Definition dq : string := String "034"%char EmptyString.

(** A template literal: its pieces in order. *)
Definition template (pieces : list string) : string :=
  fold_right String.append EmptyString pieces.

(** [parts.join(sep)]. *)
Definition join (sep : string) (parts : list string) : string :=
  String.concat sep parts.

(** [text.replace(/c/g, replacement)] for a one-character pattern. *)
Fixpoint replaceAll (c : ascii) (replacement : string) (text : string) : string :=
  match text with
  | EmptyString => EmptyString
  | String x rest =>
      if Ascii.eqb x c then String.append replacement (replaceAll c replacement rest)
      else String x (replaceAll c replacement rest)
  end.

Definition escapeXml (text : string) : string :=
  replaceAll "'"%char "&apos;"
    (replaceAll "034"%char "&quot;"
       (replaceAll ">"%char "&gt;"
          (replaceAll "<"%char "&lt;"
             (replaceAll "&"%char "&amp;" text)))).

(** [a || b] on an optional string: [undefined] and the empty string are
    falsy. *)
Definition orString (a : option string) (b : string) : string :=
  match a with
  | Some EmptyString | None => b
  | Some s => s
  end.

Definition ActivityType_name (a : ActivityType) : string :=
  match a with Run => "Run" | Bike => "Bike" | Walk => "Walk" end.

Open Scope string_scope.

(** The first two lines of both documents; they differ in the creator. *)
Definition gpxHeader (creator : string) : string :=
  template
    [ "<?xml version="; dq; "1.0"; dq; " encoding="; dq; "UTF-8"; dq; "?>"; nl;
      "<gpx version="; dq; "1.1"; dq; " creator="; dq; creator; dq;
      " xmlns="; dq; "http://www.topografix.com/GPX/1/1"; dq;
      " xmlns:xsi="; dq; "http://www.w3.org/2001/XMLSchema-instance"; dq;
      " xsi:schemaLocation="; dq;
      "http://www.topografix.com/GPX/1/1 http://www.topografix.com/GPX/1/1/gpx.xsd";
      dq; ">"; nl ].

(** The metadata block of both documents. *)
Definition gpxMetadata (name description time : string) : string :=
  template
    [ "  <metadata>"; nl;
      "    <name>"; escapeXml name; "</name>"; nl;
      "    <desc>"; escapeXml description; "</desc>"; nl;
      "    <time>"; time; "</time>"; nl;
      "  </metadata>"; nl ].

(** The document around the track points, from [<metadata>] on. *)
Definition gpxBody (name description time activityType trackPoints : string)
  : string :=
  String.append (gpxMetadata name description time)
    (template
       [ "  <trk>"; nl;
         "    <name>"; escapeXml name; "</name>"; nl;
         "    <type>"; escapeXml activityType; "</type>"; nl;
         "    <trkseg>"; nl;
         trackPoints; nl;
         "    </trkseg>"; nl;
         "  </trk>"; nl;
         "</gpx>" ]).

Close Scope string_scope.

Section Engine.

Variable lib : Library.
Variable w : Ambient.

(** ** The legacy path *)

Definition calculateSegmentDistance (coord1 coord2 : Coordinate) : R :=
  turf_distance lib coord1 coord2.

Definition calculateCoordinatesDistance (coordinates : list Coordinate) : R :=
  fold_left
    (fun total i =>
       total + calculateSegmentDistance (nth i coordinates (0, 0))
                                        (nth (i + 1) coordinates (0, 0)))
    (seq 0 (length coordinates - 1)) 0.

(** The variables the loop of [generateTrackPoints] updates. *)
Record TrackState := {
  points : list GPXPoint.t;
  currentTime : Z;
  totalDistance : R
}.

(** [points[i - 1]?.elevation]. *)
Definition previousElevation (points : list GPXPoint.t) (i : nat) : option R :=
  match i with
  | O => None
  | S j =>
      match nth_error points j with
      | Some p => GPXPoint.elevation p
      | None => None
      end
  end.

(** One turn of the loop of [generateTrackPoints], at index [i]. *)
Definition trackStep (coordinates : list Coordinate) (speedKmh : R)
    (elevationGain : option R) (elevationProfile : ElevationProfile)
    (addNoise : bool) (pauseDuration : R) (totalRouteDistance : R)
    (st : TrackState) (i : nat) : TrackState :=
  let cumulativeElevation := 0 in
  let lng := fst (nth i coordinates (0, 0)) in
  let lat := snd (nth i coordinates (0, 0)) in
  let elevation :=
    if isDefined elevationGain || negb (ElevationProfile_eqb elevationProfile flat)
    then Some (calculateElevation (random_calculateElevation w i)
                 i (length coordinates) (totalDistance st) totalRouteDistance
                 (orDefault elevationGain 0) elevationProfile
                 (Some cumulativeElevation))
    else None in
  let points :=
    points st ++
    [ {| GPXPoint.lat := lat; GPXPoint.lng := lng;
         GPXPoint.elevation := elevation;
         GPXPoint.time := Some (currentTime st) |} ] in
  if (i <? length coordinates - 1)%nat then
    let segmentDistance :=
      calculateSegmentDistance (nth i coordinates (0, 0))
                               (nth (i + 1) coordinates (0, 0)) in
    let totalDistance := totalDistance st + segmentDistance in
    let segmentSpeedKmh := speedKmh in
    let segmentSpeedKmh :=
      if addNoise then
        let variation := 0.8 + random_variation w i * 0.4 in
        let segmentSpeedKmh := segmentSpeedKmh * variation in
        match elevation, previousElevation points i with
        | Some elevation, Some previous =>
            let elevationChange := elevation - previous in
            let elevationFactor :=
              calculateSpeedAdjustmentForElevation elevationChange segmentDistance in
            segmentSpeedKmh * elevationFactor
        | _, _ => segmentSpeedKmh
        end
      else segmentSpeedKmh in
    let segmentTimeHours := segmentDistance / segmentSpeedKmh in
    let segmentTimeMs := segmentTimeHours * 3600 * 1000 in
    let pauseMs :=
      if Rgt_dec pauseDuration 0 then
        if Rlt_dec (random_pause w i) 0.1 then
          pauseDuration * 1000 * (0.5 + random_pauseLength w i * 0.5)
        else 0
      else 0 in
    {| points := points;
       currentTime := TimeClip (IZR (currentTime st) + segmentTimeMs + pauseMs);
       totalDistance := totalDistance |}
  else
    {| points := points;
       currentTime := currentTime st;
       totalDistance := totalDistance st |}.

Definition generateTrackPoints (coordinates : list Coordinate) (startTime : Z)
    (speedKmh : R) (elevationGain : option R)
    (elevationProfile : option ElevationProfile) (addNoise : option bool)
    (pauseDuration : option R) : list GPXPoint.t :=
  let elevationProfile := withDefault elevationProfile flat in
  let addNoise := withDefault addNoise true in
  let pauseDuration := withDefault pauseDuration 0 in
  if (length coordinates <? 2)%nat then
    map (fun '(lng, lat) =>
           {| GPXPoint.lat := lat; GPXPoint.lng := lng;
              GPXPoint.elevation := None;
              GPXPoint.time := Some startTime |})
        coordinates
  else
    let totalRouteDistance := calculateCoordinatesDistance coordinates in
    points
      (fold_left
         (trackStep coordinates speedKmh elevationGain elevationProfile
                    addNoise pauseDuration totalRouteDistance)
         (seq 0 (length coordinates))
         {| points := []; currentTime := startTime; totalDistance := 0 |}).

(** ** The realistic-timing path *)

(** The variables the loop of [generateRealisticTimestamps] updates. *)
Record TimingState := {
  result : list TimestampedPoint.t;
  clock : Z;
  travelled : R;
  cumulativeElevation : R
}.

(** One turn of the loop of [generateRealisticTimestamps], at index [i];
    [clock] is its [currentTime] and [travelled] its [totalDistance].
    [elevationUpdate] pairs the elevation of the point with the value
    [cumulativeElevation] has after the turn. *)
Definition timingStep (points : list Point.t) (avgSpeedKmh : R)
    (samplingRateSeconds speedVariation : R) (addElevation : bool)
    (elevationGain : R) (useRealElevation : bool)
    (pointsWithElevation : list PointWithElevation.t)
    (totalRouteDistance : R) (pacingCurve : list R)
    (st : TimingState) (i : nat) : TimingState :=
  let prevPoint := nth (i - 1) points origin in
  let currentPoint := nth i points origin in
  let segmentDistance :=
    haversineDistance (Point.lat prevPoint) (Point.lng prevPoint)
                      (Point.lat currentPoint) (Point.lng currentPoint) in
  let totalDistance := travelled st + segmentDistance in
  let pacingMultiplier := nth i pacingCurve 0 in
  let baseSpeed := avgSpeedKmh * pacingMultiplier in
  let speedWithVariation :=
    Number_value
      (addSpeedVariation (random_u1 w i) (random_u2 w i) baseSpeed
                         speedVariation) in
  let segmentTimeHours := segmentDistance / speedWithVariation in
  let segmentTimeMs := segmentTimeHours * 3600 * 1000 in
  let minTimeMs := samplingRateSeconds * 1000 in
  let actualTimeMs := Rmax segmentTimeMs minTimeMs in
  let currentTime := TimeClip (IZR (clock st) + actualTimeMs) in
  let elevationUpdate : option R * R :=
    if addElevation then
      if useRealElevation && (0 <? length pointsWithElevation)%nat then
        (Some (orDefault
                 (option_map PointWithElevation.ele
                    (nth_error pointsWithElevation i)) 100),
         cumulativeElevation st)
      else
        let progressRatio := totalDistance / totalRouteDistance in
        let elevation :=
          calculateRealisticElevation (random_realisticElevation w i)
            (cumulativeElevation st) progressRatio elevationGain
            totalRouteDistance in
        (Some elevation, elevation)
    else (None, cumulativeElevation st) in
  let elevation := fst elevationUpdate in
  let cumulativeElevation := snd elevationUpdate in
  {| result :=
       (result st ++
        [ {| TimestampedPoint.lat := Point.lat currentPoint;
             TimestampedPoint.lng := Point.lng currentPoint;
             TimestampedPoint.time := currentTime;
             TimestampedPoint.speed := Some speedWithVariation;
             TimestampedPoint.elevation := elevation |} ])%list;
     clock := currentTime;
     travelled := totalDistance;
     cumulativeElevation := cumulativeElevation |}.

Definition generateRealisticTimestamps (points : list Point.t)
    (options : RealisticTimestampOptions.t)
  : Outcome (list TimestampedPoint.t) :=
  let avgSpeedKmh := RealisticTimestampOptions.avgSpeedKmh options in
  let startTime := RealisticTimestampOptions.startTime options in
  let samplingRateSeconds :=
    withDefault (RealisticTimestampOptions.samplingRateSeconds options) 4 in
  let speedVariation :=
    withDefault (RealisticTimestampOptions.speedVariation options) 0.15 in
  let activityType :=
    withDefault (RealisticTimestampOptions.activityType options) Run in
  let addElevation :=
    withDefault (RealisticTimestampOptions.addElevation options) false in
  let elevationGain :=
    withDefault (RealisticTimestampOptions.elevationGain options) 0 in
  let useRealElevation :=
    withDefault (RealisticTimestampOptions.useRealElevation options) false in
  if (length points <? 2)%nat then
    Resolved
      (map (fun point =>
              {| TimestampedPoint.lat := Point.lat point;
                 TimestampedPoint.lng := Point.lng point;
                 TimestampedPoint.time := startTime;
                 TimestampedPoint.speed := Some avgSpeedKmh;
                 TimestampedPoint.elevation :=
                   if addElevation then Some 100 else None |})
           points)
  else
    pointsWithElevation <-
      (if addElevation && useRealElevation then
         catch (addElevationToPoints w points)
               (fun error =>
                  Resolved
                    (map (fun point =>
                            {| PointWithElevation.lat := Point.lat point;
                               PointWithElevation.lng := Point.lng point;
                               PointWithElevation.ele := 100 |})
                         points))
       else Resolved []) ;;
    let totalRouteDistance := calculateRouteDistance points in
    let pacingCurve := generatePacingCurve (length points) activityType in
    let first :=
      {| TimestampedPoint.lat := Point.lat (nth 0 points origin);
         TimestampedPoint.lng := Point.lng (nth 0 points origin);
         TimestampedPoint.time := startTime;
         TimestampedPoint.speed := Some avgSpeedKmh;
         TimestampedPoint.elevation :=
           if addElevation
           then Some (getStartingElevation (random_startingElevation w))
           else None |} in
    Resolved
      (result
         (fold_left
            (timingStep points avgSpeedKmh samplingRateSeconds speedVariation
                        addElevation elevationGain useRealElevation
                        pointsWithElevation totalRouteDistance pacingCurve)
            (seq 1 (length points - 1))
            {| result := [first]; clock := startTime;
               travelled := 0; cumulativeElevation := 0 |})).

(** ** Serialization *)

Open Scope string_scope.

(** [generateGPXXML]. *)
Definition generateGPXXML (name description activityType : string)
    (points : list GPXPoint.t) (startTime : Z) : string :=
  let formatDate := toISOString lib in
  let trackPoints :=
    join nl
      (map (fun point =>
              let elevationTag :=
                match GPXPoint.elevation point with
                | Some elevation =>
                    template ["<ele>"; Number_toString lib elevation; "</ele>"]
                | None => EmptyString
                end in
              let timeTag :=
                match GPXPoint.time point with
                | Some time => template ["<time>"; formatDate time; "</time>"]
                | None => EmptyString
                end in
              template
                [ "    <trkpt lat="; dq; toFixed lib (GPXPoint.lat point) 6; dq;
                  " lon="; dq; toFixed lib (GPXPoint.lng point) 6; dq; ">"; nl;
                  "      "; elevationTag; nl;
                  "      "; timeTag; nl;
                  "    </trkpt>" ])
           points) in
  String.append (gpxHeader "GPX Route Creator")
    (gpxBody name description (formatDate startTime) activityType trackPoints).

(** [timestampedPointsToGPX]; [description] and [activityType] have the
    defaults [''] and ['Run']. *)
Definition timestampedPointsToGPX (points : list TimestampedPoint.t)
    (name : string) (description activityType : option string) : string :=
  let description := withDefault description EmptyString in
  let activityType := withDefault activityType "Run" in
  let formatDate := toISOString lib in
  let trackPoints :=
    join nl
      (map (fun point =>
              let elevationAttr :=
                match TimestampedPoint.elevation point with
                | Some elevation =>
                    template [ nl; "      <ele>"; toFixed lib elevation 1; "</ele>" ]
                | None => EmptyString
                end in
              template
                [ "      <trkpt lat="; dq; toFixed lib (TimestampedPoint.lat point) 7;
                  dq; " lon="; dq; toFixed lib (TimestampedPoint.lng point) 7; dq;
                  ">"; nl;
                  "        <time>"; formatDate (TimestampedPoint.time point);
                  "</time>"; elevationAttr; nl;
                  "      </trkpt>" ])
           points) in
  let time :=
    match points with
    | first :: _ => TimestampedPoint.time first
    | [] => now w
    end in
  String.append (gpxHeader "Realistic GPX Generator")
    (gpxBody name description (formatDate time) activityType trackPoints).

(** [generateRealisticGPX]; [name] and [description] are the two fields its
    options add to [RealisticTimestampOptions]. *)
Definition generateRealisticGPX (points : list Point.t)
    (options : RealisticTimestampOptions.t) (name : string)
    (description : option string) : Outcome string :=
  timestampedPoints <- generateRealisticTimestamps points options ;;
  let activityName :=
    ActivityType_name
      (withDefault (RealisticTimestampOptions.activityType options) Run) in
  Resolved
    (timestampedPointsToGPX timestampedPoints name
       (Some (orString description (String.append activityName " activity")))
       (Some activityName)).

(** ** The entry point *)

Definition generateGpx (options : GPXGenerationOptions.t) : Outcome string :=
  let name := GPXGenerationOptions.name options in
  let description := GPXGenerationOptions.description options in
  let activityType := GPXGenerationOptions.activityType options in
  let coordinates := GPXGenerationOptions.coordinates options in
  let startTime := withDefault (GPXGenerationOptions.startTime options) (now w) in
  let averageSpeedKmh := GPXGenerationOptions.averageSpeedKmh options in
  let averagePaceMinPerKm := GPXGenerationOptions.averagePaceMinPerKm options in
  let elevationGain := GPXGenerationOptions.elevationGain options in
  let elevationProfile :=
    withDefault (GPXGenerationOptions.elevationProfile options) flat in
  let addNoise := withDefault (GPXGenerationOptions.addNoise options) true in
  let pauseDuration := withDefault (GPXGenerationOptions.pauseDuration options) 0%R in
  let useRealisticTiming :=
    withDefault (GPXGenerationOptions.useRealisticTiming options) false in
  let samplingRateSeconds :=
    withDefault (GPXGenerationOptions.samplingRateSeconds options) 4%R in
  let speedVariation :=
    withDefault (GPXGenerationOptions.speedVariation options) 0.15%R in
  let addElevation := withDefault (GPXGenerationOptions.addElevation options) false in
  let useRealElevation :=
    withDefault (GPXGenerationOptions.useRealElevation options) false in
  let speedKmh :=
    if truthy averageSpeedKmh then withDefault averageSpeedKmh 0%R
    else if truthy averagePaceMinPerKm
         then (60 / withDefault averagePaceMinPerKm 0)%R
         else DEFAULT_SPEEDS activityType in
  let activityDescription :=
    orString description (String.append (ActivityType_name activityType) " activity") in
  if useRealisticTiming then
    let points :=
      map (fun '(lng, lat) => {| Point.lat := lat; Point.lng := lng |})
          coordinates in
    generateRealisticGPX points
      {| RealisticTimestampOptions.avgSpeedKmh := speedKmh;
         RealisticTimestampOptions.startTime := startTime;
         RealisticTimestampOptions.samplingRateSeconds := Some samplingRateSeconds;
         RealisticTimestampOptions.speedVariation := Some speedVariation;
         RealisticTimestampOptions.activityType := Some activityType;
         RealisticTimestampOptions.addElevation :=
           Some (addElevation || isDefined elevationGain);
         RealisticTimestampOptions.elevationGain := elevationGain;
         RealisticTimestampOptions.useRealElevation := Some useRealElevation |}
      name (Some activityDescription)
  else
    let gpxPoints :=
      generateTrackPoints coordinates startTime speedKmh elevationGain
        (Some elevationProfile) (Some addNoise) (Some pauseDuration) in
    Resolved
      (generateGPXXML name activityDescription (ActivityType_name activityType)
         gpxPoints startTime).

Close Scope string_scope.

End Engine.

(** * The rest of [lib/gpx.ts], its callers and the elevation proxy *)

(** ** More JavaScript built-ins *)

(** [Math.floor]. *)
Definition Math_floor (x : R) : R := IZR (Zfloor x).

(** [x % y] on finite numbers, [y] not zero: what is left of [x] once [y]
    is taken off as often as the quotient truncated towards zero says. *)
Definition JS_rem (x y : R) : R := x - y * IZR (ToInteger (x / y)).

(** [x <= y] and [x >= y] as the conditions of an [if] or of [&&]. *)
Definition Rleb (x y : R) : bool := if Rle_dec x y then true else false.

(** [String(z)] for a whole number, in decimal. *)
Definition Z_toString (z : Z) : string := NilZero.string_of_int (Z.to_int z).

(** [x.toString()] where [x] is a whole number (below 1e21, from where
    JavaScript switches to the exponent form). *)
Definition whole_toString (x : R) : string := Z_toString (Zfloor x).

(** [text.padStart(targetLength, pad)] for a one-character pad. *)
Definition padStart (targetLength : nat) (pad : ascii) (text : string) : string :=
  String.append
    (string_of_list_ascii (repeat pad (targetLength - String.length text)))
    text.

(** ** Pace, speed and their display *)

Definition paceToSpeed (paceMinPerKm : R) : R := 60 / paceMinPerKm.

Definition speedToPace (speedKmh : R) : R := 60 / speedKmh.

Open Scope string_scope.

Definition formatPace (paceMinPerKm : R) : string :=
  let minutes := Math_floor paceMinPerKm in
  let seconds := Math_round ((paceMinPerKm - minutes) * 60) in
  template
    [ whole_toString minutes; ":";
      padStart 2 "0" (whole_toString seconds); " min/km" ].

Definition formatDuration (totalSeconds : R) : string :=
  let hours := Math_floor (totalSeconds / 3600) in
  let minutes := Math_floor (JS_rem totalSeconds 3600 / 60) in
  let seconds := Math_round (JS_rem totalSeconds 60) in
  if Rgt_dec hours 0 then
    template
      [ whole_toString hours; ":";
        padStart 2 "0" (whole_toString minutes); ":";
        padStart 2 "0" (whole_toString seconds) ]
  else
    template
      [ whole_toString minutes; ":"; padStart 2 "0" (whole_toString seconds) ].

Close Scope string_scope.

(** The activity types of a saved route. *)
Inductive RouteActivityType := running | cycling | walking.

(** [estimateActivityDuration]: [distance] in metres, the result in
    seconds; [averageSpeeds] is its table, km/h. *)
Definition averageSpeeds (activityType : RouteActivityType) : R :=
  match activityType with
  | running => 10
  | cycling => 20
  | walking => 5
  end.

Definition estimateActivityDuration (distance : R)
    (activityType : RouteActivityType) : R :=
  let distanceKm := distance / 1000 in
  let hours := distanceKm / averageSpeeds activityType in
  Math_round (hours * 3600).

(** [isValidSpeed] and [isValidPace]: their parameter is typed
    ['Run' | 'Bike'], and any other value falls to [return false]. *)
Definition isValidSpeed (speed : R) (activityType : ActivityType) : bool :=
  match activityType with
  | Run => Rleb 3 speed && Rleb speed 25
  | Bike => Rleb 5 speed && Rleb speed 60
  | Walk => false
  end.

Definition isValidPace (pace : R) (activityType : ActivityType) : bool :=
  match activityType with
  | Run => Rleb 2.4 pace && Rleb pace 20
  | Bike => Rleb 1 pace && Rleb pace 12
  | Walk => false
  end.

Definition getDefaultSpeed (activityType : ActivityType) : R :=
  match activityType with Run => 10 | _ => 20 end.

Definition getDefaultPace (activityType : ActivityType) : R :=
  match activityType with Run => 6 | _ => 3 end.

(** ** The name of the downloaded file *)

(** [c] is one of [a-z0-9], whatever its case: what the class
    [[^a-z0-9]] with the flag [i] does not match.  Without the flag [u] no
    code unit above 127 folds to a letter of the class. *)
Definition isAlphanumeric (c : ascii) : bool :=
  let n := nat_of_ascii c in
  ((48 <=? n) && (n <=? 57) || (65 <=? n) && (n <=? 90) ||
   (97 <=? n) && (n <=? 122))%nat.

(** [String.prototype.toLowerCase] on one code unit below 256: the
    letters [A-Z] and the capital letters of Latin-1 move up by 32. *)
Definition toLowerCase_char (c : ascii) : ascii :=
  let n := nat_of_ascii c in
  if ((65 <=? n) && (n <=? 90) ||
      (192 <=? n) && (n <=? 222) && negb (n =? 215))%nat
  then ascii_of_nat (n + 32)
  else c.

Fixpoint mapString (f : ascii -> ascii) (text : string) : string :=
  match text with
  | EmptyString => EmptyString
  | String c rest => String (f c) (mapString f rest)
  end.

Definition toLowerCase (text : string) : string := mapString toLowerCase_char text.

(** [link.download] in [downloadGpx] and [downloadRealisticGPX]:
    [`${name.replace(/[^a-z0-9]/gi, '_').toLowerCase()}.gpx`]. *)
Definition downloadFileName (name : string) : string :=
  String.append
    (toLowerCase
       (mapString (fun c => if isAlphanumeric c then c else "_"%char) name))
    ".gpx".

(** ** Distance of a saved route *)

(** [calculateDistance] of the hook [useRoutes]: metres. *)
Definition calculateDistance (points : list GPXPoint.t) : R :=
  if (length points <? 2)%nat then 0
  else
    fold_left
      (fun totalDistance i =>
         let prev := nth (i - 1) points
                       {| GPXPoint.lat := 0; GPXPoint.lng := 0;
                          GPXPoint.elevation := None; GPXPoint.time := None |} in
         let curr := nth i points
                       {| GPXPoint.lat := 0; GPXPoint.lng := 0;
                          GPXPoint.elevation := None; GPXPoint.time := None |} in
         let R := 6371000 in
         let dLat := (GPXPoint.lat curr - GPXPoint.lat prev) * PI / 180 in
         let dLng := (GPXPoint.lng curr - GPXPoint.lng prev) * PI / 180 in
         let a :=
           sin (dLat / 2) * sin (dLat / 2) +
           cos (GPXPoint.lat prev * PI / 180) * cos (GPXPoint.lat curr * PI / 180) *
           sin (dLng / 2) * sin (dLng / 2) in
         let c := 2 * Math_atan2 (sqrt a) (sqrt (1 - a)) in
         totalDistance + R * c)
      (seq 1 (length points - 1)) 0.

(** ** Predicates and closed forms for the utilities *)

(** A character of a safe file name: a digit, a small letter or the
    underscore. *)
Definition isFileNameChar (c : ascii) : bool :=
  let n := nat_of_ascii c in
  ((48 <=? n) && (n <=? 57) || (97 <=? n) && (n <=? 122) || (n =? 95))%nat.

(** The sum of [h] over the consecutive pairs of a list. *)
Fixpoint pairSum {A : Type} (h : A -> A -> R) (l : list A) : R :=
  match l with
  | a :: (b :: _) as rest => h a b + pairSum h rest
  | _ => 0
  end.

(** The great-circle distance between two points, km. *)
Definition pointDistance (a b : Point.t) : R :=
  haversineDistance (Point.lat a) (Point.lng a) (Point.lat b) (Point.lng b).

(** The position of a point of a saved route. *)
Definition positionOf (p : GPXPoint.t) : Point.t :=
  {| Point.lat := GPXPoint.lat p; Point.lng := GPXPoint.lng p |}.


(** ** Predicates and closed forms for the elevation service *)

(** The position of a point that carries an elevation. *)
Definition positionOfElevated (p : PointWithElevation.t) : Point.t :=
  {| Point.lat := PointWithElevation.lat p;
     Point.lng := PointWithElevation.lng p |}.

(** A whole number. *)
Definition isWhole (x : R) : Prop := exists z : Z, x = IZR z.

(** What a lookup that succeeds returns: each point with the elevation
    the service gave for it, rounded. *)
Definition roundedElevations (points : list Point.t) (elevations : list R)
  : list PointWithElevation.t :=
  map (fun '(point, elevation) =>
         {| PointWithElevation.lat := Point.lat point;
            PointWithElevation.lng := Point.lng point;
            PointWithElevation.ele := Math_round elevation |})
      (combine points elevations).

(** A list of points with elevations that keeps the positions of
    [points], in their order, and holds whole metres only. *)
Definition elevates (points : list Point.t) (out : list PointWithElevation.t)
  : Prop :=
  map positionOfElevated out = points /\
  Forall (fun p => isWhole (PointWithElevation.ele p)) out.


(** ** The elevation proxy, [app/api/elevation/route.ts] *)

(** [x < y] and [x > y] as the condition of an [if] or of [||]. *)
Definition Rltb (x y : R) : bool := if Rlt_dec x y then true else false.

(** An entry of [locations]; a field that is not a number is [None]. *)
Module Location.
Record t := { latitude : option R; longitude : option R }.
End Location.

(** An entry of [results], its fields taken to be numbers. *)
Module ElevationResult.
Record t := { latitude : R; longitude : R; elevation : R }.
End ElevationResult.

(** What [await request.json()] gives: it rejects, or the body is [null],
    or it is a value whose [locations] is an array ([Some]), an entry
    that is [null] being [None], or is absent or no array ([None]). *)
Inductive RequestBody :=
| BodyRejects
| BodyNull
| Body (locations : option (list (option Location.t))).

(** What the request to Open-Elevation gives: [fetch] rejects, or it
    resolves with a response whose body is no JSON object
    ([UpstreamNotJson]) or an object whose [results] is an array, an
    entry that is [null] being [None], or is absent or no array. *)
Inductive UpstreamBody :=
| UpstreamNotJson
| UpstreamJson (results : option (list (option ElevationResult.t))).

Inductive UpstreamResult :=
| UpstreamRejects
| UpstreamResponse (ok : bool) (body : UpstreamBody).

(** The answers of the proxy: [{ error }] with a status, or [{ results,
    fallback, message }] with status 200. *)
Inductive ProxyResponse :=
| ErrorResponse (status : nat) (error : string)
| ResultsResponse (results : list ElevationResult.t) (fallback : option bool)
                  (message : option string).

(** The outcome of the validation loop: it finds an invalid entry, or
    throws on an entry that is [null], or goes through; [positions] are
    then the numbers of the entries. *)
Inductive Validation :=
| Valid (positions : list (R * R))
| Invalid
| Throws.

Module ElevationRoute.

Fixpoint validateLocations (locations : list (option Location.t)) : Validation :=
  match locations with
  | [] => Valid []
  | None :: _ => Throws
  | Some location :: rest =>
      match Location.latitude location, Location.longitude location with
      | Some latitude, Some longitude =>
          if Rltb latitude (-90) || Rltb 90 latitude ||
             Rltb longitude (-180) || Rltb 180 longitude
          then Invalid
          else
            match validateLocations rest with
            | Valid positions => Valid ((latitude, longitude) :: positions)
            | outcome => outcome
            end
      | _, _ => Invalid
      end
  end.

(** [generateFallbackElevation] of the proxy; [random] is its draw. *)
Definition generateFallbackElevation (random : R) (lat lng : R) : R :=
  let baseElevation := 100 in
  let latVariation := Rabs lat * 2 in
  let lngVariation := sin (lng * PI / 180) * 50 in
  let randomVariation := (random - 0.5) * 100 in
  let elevation :=
    Rmax 0 (baseElevation + latVariation + lngVariation + randomVariation) in
  Math_round elevation.

(** [body.locations.map(location => ..)] of the fallback; [random index]
    is the draw made for the entry at [index]. *)
Definition fallbackResults (random : nat -> R) (positions : list (R * R))
  : list ElevationResult.t :=
  map (fun '(index, (latitude, longitude)) =>
         {| ElevationResult.latitude := latitude;
            ElevationResult.longitude := longitude;
            ElevationResult.elevation :=
              generateFallbackElevation (random index) latitude longitude |})
      (combine (seq 0 (length positions)) positions).

(** [data.results.map(result => ..)]; it throws on an entry that is
    [null] ([None]). *)
Fixpoint roundResults (results : list (option ElevationResult.t))
  : option (list ElevationResult.t) :=
  match results with
  | [] => Some []
  | None :: _ => None
  | Some result :: rest =>
      option_map
        (cons {| ElevationResult.latitude := ElevationResult.latitude result;
                 ElevationResult.longitude := ElevationResult.longitude result;
                 ElevationResult.elevation :=
                   Math_round (ElevationResult.elevation result) |})
        (roundResults rest)
  end.

Open Scope string_scope.

(** [POST].  [attempt] is the [try] block, [None] when an exception
    leaves it.  The [catch] block then reads the body again with
    [request.json()]; the body of a request can be read once (the second
    read rejects, as the Fetch standard has it), so the inner [catch]
    answers with status 500. *)
Definition POST (request : RequestBody) (upstream : UpstreamResult)
    (random : nat -> R) : ProxyResponse :=
  let attempt : option ProxyResponse :=
    match request with
    | BodyRejects | BodyNull => None
    | Body None =>
        Some (ErrorResponse 400 "Invalid request: locations array required")
    | Body (Some locations) =>
        if (length locations =? 0)%nat then Some (ResultsResponse [] None None)
        else if (100 <? length locations)%nat then
          Some (ErrorResponse 400
                  "Too many locations: maximum 100 points per request")
        else
          match validateLocations locations with
          | Throws => None
          | Invalid => Some (ErrorResponse 400 "Invalid coordinates in request")
          | Valid positions =>
              match upstream with
              | UpstreamRejects => None
              | UpstreamResponse ok body =>
                  if negb ok then
                    Some (ResultsResponse (fallbackResults random positions)
                            (Some true)
                            (Some "Using simulated elevation data due to API unavailability"))
                  else
                    match body with
                    | UpstreamNotJson | UpstreamJson None => None
                    | UpstreamJson (Some results) =>
                        if negb (length results =? length locations)%nat then None
                        else
                          option_map
                            (fun rounded =>
                               ResultsResponse rounded (Some false) None)
                            (roundResults results)
                    end
              end
          end
    end in
  match attempt with
  | Some response => response
  | None => ErrorResponse 500 "Internal server error"
  end.

Close Scope string_scope.

End ElevationRoute.

(** The body [callOpenElevationAPI] sends for a batch of points. *)
Definition requestBody (points : list Point.t) : RequestBody :=
  Body (Some (map (fun point =>
                     Some {| Location.latitude := Some (Point.lat point);
                             Location.longitude := Some (Point.lng point) |})
                  points)).

(** An answer of the proxy as [callOpenElevationAPI] receives it: [ok]
    for status 200, the body parsed as JSON.  [statusText] is the reason
    phrase the server sends with the status. *)
Definition received (statusText : string) (response : ProxyResponse)
  : FetchResult :=
  match response with
  | ErrorResponse status _ =>
      Response ((200 <=? status) && (status <=? 299))%nat status statusText (Json None)
  | ResultsResponse results _ _ =>
      Response true 200 statusText
        (Json (Some (map (fun result => Some (ElevationResult.elevation result))
                         results)))
  end.

(** A request that gets as far as the lookup: its [locations] are an
    array of 1 to 100 entries that pass the validation. *)
Definition reachesLookup (request : RequestBody) : bool :=
  match request with
  | Body (Some locations) =>
      negb (length locations =? 0)%nat && negb (100 <? length locations)%nat &&
      match ElevationRoute.validateLocations locations with
      | Valid _ => true
      | _ => false
      end
  | _ => false
  end.

(** The entry of a request that stands for a position. *)
Definition locationOf (result : ElevationResult.t) : option Location.t :=
  Some {| Location.latitude := Some (ElevationResult.latitude result);
          Location.longitude := Some (ElevationResult.longitude result) |}.


(** ** The legacy route *)

Module LegacyRoute.
Record t := {
  name : string;
  description : option string;
  activityType : string;
  points : option (list Point.t);
  coordinates : option (list Coordinate);
  createdAt : option Z
}.
End LegacyRoute.

(** [generateGPX], the wrapper kept for the callers of the old
    interface.  An array and a [Date] are truthy, so [||] replaces only
    what is absent. *)
Definition generateGPX (lib : Library) (w : Ambient) (route : LegacyRoute.t)
  : Outcome string :=
  let options :=
    {| GPXGenerationOptions.name := LegacyRoute.name route;
       GPXGenerationOptions.description := LegacyRoute.description route;
       GPXGenerationOptions.activityType :=
         if String.eqb (LegacyRoute.activityType route) "running" then Run
         else if String.eqb (LegacyRoute.activityType route) "cycling" then Bike
         else Walk;
       GPXGenerationOptions.coordinates :=
         match LegacyRoute.points route with
         | Some points => map (fun p => (Point.lng p, Point.lat p)) points
         | None => withDefault (LegacyRoute.coordinates route) []
         end;
       GPXGenerationOptions.startTime :=
         Some (withDefault (LegacyRoute.createdAt route) (now w));
       GPXGenerationOptions.averageSpeedKmh := None;
       GPXGenerationOptions.averagePaceMinPerKm := None;
       GPXGenerationOptions.elevationGain := None;
       GPXGenerationOptions.elevationProfile := None;
       GPXGenerationOptions.addNoise := None;
       GPXGenerationOptions.pauseDuration := None;
       GPXGenerationOptions.useRealisticTiming := None;
       GPXGenerationOptions.samplingRateSeconds := None;
       GPXGenerationOptions.speedVariation := None;
       GPXGenerationOptions.addElevation := None;
       GPXGenerationOptions.useRealElevation := None |} in
  generateGpx lib w options.

(** * Closed forms, predicates and sample inputs *)

(** ** The legacy loop, index by index

    What the loop of [generateTrackPoints] computes at index [i], written
    as functions of the index; [generateTrackPoints_closed] proves that
    the loop returns exactly these points. *)

Section LegacyClosedForm.

Variable lib : Library.
Variable w : Ambient.
Variable coordinates : list Coordinate.
Variable startTime : Z.
Variable speedKmh : R.
Variable elevationGain : option R.
Variable elevationProfile : ElevationProfile.
Variable addNoise : bool.
Variable pauseDuration : R.

(** The elevation the loop gives the point at index [i]. *)
Definition legacyElevation (i : nat) : option R :=
  if isDefined elevationGain || negb (ElevationProfile_eqb elevationProfile flat)
  then Some (calculateElevation (random_calculateElevation w i)
               i (length coordinates) 0 0
               (orDefault elevationGain 0) elevationProfile (Some 0))
  else None.

(** [points[i - 1]?.elevation] once the point at [i] is pushed. *)
Definition legacyPrevious (i : nat) : option R :=
  match i with
  | O => None
  | S j => legacyElevation j
  end.

Definition legacySegmentDistance (i : nat) : R :=
  turf_distance lib (nth i coordinates (0, 0)) (nth (i + 1) coordinates (0, 0)).

(** The speed the loop uses for the segment that leaves index [i]. *)
Definition legacySegmentSpeed (i : nat) : R :=
  if addNoise then
    let noisy := speedKmh * (0.8 + random_variation w i * 0.4) in
    match legacyElevation i, legacyPrevious i with
    | Some elevation, Some previous =>
        noisy * calculateSpeedAdjustmentForElevation
                  (elevation - previous) (legacySegmentDistance i)
    | _, _ => noisy
    end
  else speedKmh.

Definition legacyPauseMs (i : nat) : R :=
  if Rgt_dec pauseDuration 0 then
    if Rlt_dec (random_pause w i) 0.1 then
      pauseDuration * 1000 * (0.5 + random_pauseLength w i * 0.5)
    else 0
  else 0.

(** The clock when the loop reaches index [i]. *)
Fixpoint legacyClock (i : nat) : Z :=
  match i with
  | O => startTime
  | S j =>
      TimeClip (IZR (legacyClock j)
                + legacySegmentDistance j / legacySegmentSpeed j * 3600 * 1000
                + legacyPauseMs j)
  end.

Definition legacyPoint (i : nat) : GPXPoint.t :=
  {| GPXPoint.lat := snd (nth i coordinates (0, 0));
     GPXPoint.lng := fst (nth i coordinates (0, 0));
     GPXPoint.elevation := legacyElevation i;
     GPXPoint.time := Some (legacyClock i) |}.

End LegacyClosedForm.

(** ** The realistic-timing loop, index by index

    The clock of the loop of [generateRealisticTimestamps] as a function of
    the index; [generateRealisticTimestamps_clock] proves that the
    timestamps the loop returns are exactly these. *)

Section RealisticClosedForm.

Variable w : Ambient.
Variable points : list Point.t.
Variable avgSpeedKmh : R.
Variable startTime : Z.
Variable samplingRateSeconds : R.
Variable speedVariation : R.
Variable activityType : ActivityType.

(** The length of the segment that ends at index [i]. *)
Definition realisticSegmentDistance (i : nat) : R :=
  haversineDistance
    (Point.lat (nth (i - 1) points origin)) (Point.lng (nth (i - 1) points origin))
    (Point.lat (nth i points origin)) (Point.lng (nth i points origin)).

(** The speed of the segment that ends at index [i]. *)
Definition realisticSpeed (i : nat) : R :=
  Number_value
    (addSpeedVariation (random_u1 w i) (random_u2 w i)
       (avgSpeedKmh * nth i (generatePacingCurve (length points) activityType) 0)
       speedVariation).

(** The time, in milliseconds, the clock advances at index [i]. *)
Definition realisticActualMs (i : nat) : R :=
  Rmax (realisticSegmentDistance i / realisticSpeed i * 3600 * 1000)
       (samplingRateSeconds * 1000).

(** The clock once the loop has handled index [i]. *)
Fixpoint realisticClock (i : nat) : Z :=
  match i with
  | O => startTime
  | S j => TimeClip (IZR (realisticClock j) + realisticActualMs (S j))
  end.

End RealisticClosedForm.

(** ** Positions the haversine formula measures

    Over the reals the term [a] of [haversineDistance] lies between 0 and
    1.  In binary64 it can round below 0 when a cosine of a latitude is
    negative, and above 1 for positions close to antipodal, and the
    source then returns NaN.  Two positions are [measurable] when their
    latitudes are within [-90, 90], their longitudes within [-180, 180]
    and they are at most 20000 km apart, 15 km short of antipodal: the
    source then computes a number. *)
Definition measurable (lat1 lng1 lat2 lng2 : R) : Prop :=
  -90 <= lat1 <= 90 /\ -180 <= lng1 <= 180 /\
  -90 <= lat2 <= 90 /\ -180 <= lng2 <= 180 /\
  haversineDistance lat1 lng1 lat2 lng2 <= 20000.

(** A route whose consecutive positions are measurable. *)
Definition measurableRoute (points : list Point.t) : Prop :=
  forall i, (S i < length points)%nat ->
    measurable (Point.lat (nth i points origin)) (Point.lng (nth i points origin))
               (Point.lat (nth (S i) points origin))
               (Point.lng (nth (S i) points origin)).

(** The draws of [addSpeedVariation] for which it computes a number:
    every first draw other than 0. *)
Definition positiveDraws (w : Ambient) : Prop :=
  forall i, 0 < random_u1 w i <= 1.

(** ** Escaped text *)

Open Scope string_scope.






Close Scope string_scope.

(** ** Options and sample inputs *)

(** [{ ...options, averageSpeedKmh }]. *)
Definition withAverageSpeed (options : GPXGenerationOptions.t)
    (averageSpeedKmh : R) : GPXGenerationOptions.t :=
  {| GPXGenerationOptions.name := GPXGenerationOptions.name options;
     GPXGenerationOptions.description := GPXGenerationOptions.description options;
     GPXGenerationOptions.activityType := GPXGenerationOptions.activityType options;
     GPXGenerationOptions.coordinates := GPXGenerationOptions.coordinates options;
     GPXGenerationOptions.startTime := GPXGenerationOptions.startTime options;
     GPXGenerationOptions.averageSpeedKmh := Some averageSpeedKmh;
     GPXGenerationOptions.averagePaceMinPerKm :=
       GPXGenerationOptions.averagePaceMinPerKm options;
     GPXGenerationOptions.elevationGain := GPXGenerationOptions.elevationGain options;
     GPXGenerationOptions.elevationProfile :=
       GPXGenerationOptions.elevationProfile options;
     GPXGenerationOptions.addNoise := GPXGenerationOptions.addNoise options;
     GPXGenerationOptions.pauseDuration := GPXGenerationOptions.pauseDuration options;
     GPXGenerationOptions.useRealisticTiming :=
       GPXGenerationOptions.useRealisticTiming options;
     GPXGenerationOptions.samplingRateSeconds :=
       GPXGenerationOptions.samplingRateSeconds options;
     GPXGenerationOptions.speedVariation :=
       GPXGenerationOptions.speedVariation options;
     GPXGenerationOptions.addElevation := GPXGenerationOptions.addElevation options;
     GPXGenerationOptions.useRealElevation :=
       GPXGenerationOptions.useRealElevation options |}.

(** A world where every draw is 1/2 and the elevation service is down. *)
Definition quietWorld : Ambient :=
  {| random_calculateElevation := fun _ => 1 / 2;
     random_variation := fun _ => 1 / 2;
     random_pause := fun _ => 1 / 2;
     random_pauseLength := fun _ => 1 / 2;
     random_startingElevation := 1 / 2;
     random_u1 := fun _ => 1 / 2;
     random_u2 := fun _ => 1 / 2;
     random_realisticElevation := fun _ => 1 / 2;
     random_fallback := fun _ _ => 1 / 2;
     fetch := fun _ _ => FetchRejects "offline";
     now := 0 |}.

(** A library whose distance is 1 km for every pair of coordinates. *)
Definition unitLibrary : Library :=
  {| turf_distance := fun _ _ => 1;
     toISOString := fun _ => EmptyString;
     toFixed := fun _ _ => EmptyString;
     Number_toString := fun _ => EmptyString |}.

Definition fiveCoordinates : list Coordinate :=
  [ (0, 0); (0.001, 0); (0.002, 0); (0.003, 0); (0.004, 0) ].

Definition threeCoordinates : list Coordinate :=
  [ (0, 0); (0.01, 0); (0.02, 0) ].

Definition stillRoute : list Point.t := [origin; origin].

Definition plainOptions (samplingRateSeconds : option R)
  : RealisticTimestampOptions.t :=
  {| RealisticTimestampOptions.avgSpeedKmh := 10;
     RealisticTimestampOptions.startTime := 0;
     RealisticTimestampOptions.samplingRateSeconds := samplingRateSeconds;
     RealisticTimestampOptions.speedVariation := None;
     RealisticTimestampOptions.activityType := None;
     RealisticTimestampOptions.addElevation := None;
     RealisticTimestampOptions.elevationGain := None;
     RealisticTimestampOptions.useRealElevation := None |}.

Definition realElevationOptions : RealisticTimestampOptions.t :=
  {| RealisticTimestampOptions.avgSpeedKmh := 10;
     RealisticTimestampOptions.startTime := 0;
     RealisticTimestampOptions.samplingRateSeconds := None;
     RealisticTimestampOptions.speedVariation := None;
     RealisticTimestampOptions.activityType := None;
     RealisticTimestampOptions.addElevation := Some true;
     RealisticTimestampOptions.elevationGain := None;
     RealisticTimestampOptions.useRealElevation := Some true |}.

Definition bareOptions : GPXGenerationOptions.t :=
  {| GPXGenerationOptions.name := "Test Run";
     GPXGenerationOptions.description := None;
     GPXGenerationOptions.activityType := Run;
     GPXGenerationOptions.coordinates := threeCoordinates;
     GPXGenerationOptions.startTime := None;
     GPXGenerationOptions.averageSpeedKmh := None;
     GPXGenerationOptions.averagePaceMinPerKm := None;
     GPXGenerationOptions.elevationGain := None;
     GPXGenerationOptions.elevationProfile := None;
     GPXGenerationOptions.addNoise := None;
     GPXGenerationOptions.pauseDuration := None;
     GPXGenerationOptions.useRealisticTiming := None;
     GPXGenerationOptions.samplingRateSeconds := None;
     GPXGenerationOptions.speedVariation := None;
     GPXGenerationOptions.addElevation := None;
     GPXGenerationOptions.useRealElevation := None |}.

(** ** The points of the realistic-timing loop, index by index

    What the loop of [generateRealisticTimestamps] pushes at index [i],
    written as functions of the index;
    [generateRealisticTimestamps_closed] proves that the loop returns
    exactly these points. *)

Section RealisticPointClosedForm.

Variable w : Ambient.
Variable points : list Point.t.
Variable avgSpeedKmh : R.
Variable startTime : Z.
Variable samplingRateSeconds : R.
Variable speedVariation : R.
Variable activityType : ActivityType.
Variable addElevation : bool.
Variable elevationGain : R.
Variable useRealElevation : bool.
Variable pointsWithElevation : list PointWithElevation.t.

(** [totalDistance] once the loop has handled index [i]. *)
Fixpoint realisticTravelled (i : nat) : R :=
  match i with
  | O => 0
  | S j => realisticTravelled j + realisticSegmentDistance points (S j)
  end.

(** The elevation of the point at index [i], paired with the value
    [cumulativeElevation] has once the loop has handled the index. *)
Fixpoint realisticElevationUpdate (i : nat) : option R * R :=
  match i with
  | O =>
      (if addElevation
       then Some (getStartingElevation (random_startingElevation w))
       else None,
       0)
  | S j =>
      let previous := snd (realisticElevationUpdate j) in
      if addElevation then
        if useRealElevation && (0 <? length pointsWithElevation)%nat then
          (Some (orDefault
                   (option_map PointWithElevation.ele
                      (nth_error pointsWithElevation (S j))) 100),
           previous)
        else
          let elevation :=
            calculateRealisticElevation (random_realisticElevation w (S j))
              previous
              (realisticTravelled (S j) / calculateRouteDistance points)
              elevationGain (calculateRouteDistance points) in
          (Some elevation, elevation)
      else (None, previous)
  end.

Definition realisticPoint (i : nat) : TimestampedPoint.t :=
  {| TimestampedPoint.lat := Point.lat (nth i points origin);
     TimestampedPoint.lng := Point.lng (nth i points origin);
     TimestampedPoint.time :=
       realisticClock w points avgSpeedKmh startTime samplingRateSeconds
                      speedVariation activityType i;
     TimestampedPoint.speed :=
       Some (match i with
             | O => avgSpeedKmh
             | S _ => realisticSpeed w points avgSpeedKmh speedVariation
                                     activityType i
             end);
     TimestampedPoint.elevation := fst (realisticElevationUpdate i) |}.

End RealisticPointClosedForm.

(** The elevations the loop reads: none unless real elevation is asked
    for, else those of the lookup, or 100 m everywhere should the lookup
    reject. *)
Definition fetchedElevations (w : Ambient) (points : list Point.t)
    (addElevation useRealElevation : bool) : list PointWithElevation.t :=
  if addElevation && useRealElevation then
    match addElevationToPoints w points with
    | Resolved pointsWithElevation => pointsWithElevation
    | Rejected _ =>
        map (fun point =>
               {| PointWithElevation.lat := Point.lat point;
                  PointWithElevation.lng := Point.lng point;
                  PointWithElevation.ele := 100 |})
            points
    end
  else [].

(** The position of a generated point, as the input gives positions. *)
Definition coordinateOf (p : GPXPoint.t) : Coordinate :=
  (GPXPoint.lng p, GPXPoint.lat p).

Definition positionOfTimestamped (p : TimestampedPoint.t) : Point.t :=
  {| Point.lat := TimestampedPoint.lat p; Point.lng := TimestampedPoint.lng p |}.

(** A route of two points on the equator, one degree apart. *)
Definition eastward : list Point.t :=
  [ origin; {| Point.lat := 0; Point.lng := 1 |} ].

(** A saved route of two points on the equator, one degree apart. *)
Definition equatorStart : GPXPoint.t :=
  {| GPXPoint.lat := 0; GPXPoint.lng := 0;
     GPXPoint.elevation := None; GPXPoint.time := None |}.

Definition equatorTrack : list GPXPoint.t :=
  [ equatorStart;
    {| GPXPoint.lat := 0; GPXPoint.lng := 1;
       GPXPoint.elevation := None; GPXPoint.time := None |} ].

(** Options that ask for simulated elevation and leave the rest to the
    defaults. *)
Definition simulatedElevationOptions : RealisticTimestampOptions.t :=
  {| RealisticTimestampOptions.avgSpeedKmh := 10;
     RealisticTimestampOptions.startTime := 0;
     RealisticTimestampOptions.samplingRateSeconds := None;
     RealisticTimestampOptions.speedVariation := None;
     RealisticTimestampOptions.activityType := None;
     RealisticTimestampOptions.addElevation := Some true;
     RealisticTimestampOptions.elevationGain := None;
     RealisticTimestampOptions.useRealElevation := None |}.

(** [{ ...options, averagePaceMinPerKm }]. *)
Definition withPace (options : GPXGenerationOptions.t)
    (averagePaceMinPerKm : option R) : GPXGenerationOptions.t :=
  {| GPXGenerationOptions.name := GPXGenerationOptions.name options;
     GPXGenerationOptions.description := GPXGenerationOptions.description options;
     GPXGenerationOptions.activityType := GPXGenerationOptions.activityType options;
     GPXGenerationOptions.coordinates := GPXGenerationOptions.coordinates options;
     GPXGenerationOptions.startTime := GPXGenerationOptions.startTime options;
     GPXGenerationOptions.averageSpeedKmh :=
       GPXGenerationOptions.averageSpeedKmh options;
     GPXGenerationOptions.averagePaceMinPerKm := averagePaceMinPerKm;
     GPXGenerationOptions.elevationGain := GPXGenerationOptions.elevationGain options;
     GPXGenerationOptions.elevationProfile :=
       GPXGenerationOptions.elevationProfile options;
     GPXGenerationOptions.addNoise := GPXGenerationOptions.addNoise options;
     GPXGenerationOptions.pauseDuration := GPXGenerationOptions.pauseDuration options;
     GPXGenerationOptions.useRealisticTiming :=
       GPXGenerationOptions.useRealisticTiming options;
     GPXGenerationOptions.samplingRateSeconds :=
       GPXGenerationOptions.samplingRateSeconds options;
     GPXGenerationOptions.speedVariation :=
       GPXGenerationOptions.speedVariation options;
     GPXGenerationOptions.addElevation := GPXGenerationOptions.addElevation options;
     GPXGenerationOptions.useRealElevation :=
       GPXGenerationOptions.useRealElevation options |}.

(** A position within the ranges the proxy accepts. *)
Definition inRange (point : Point.t) : Prop :=
  -90 <= Point.lat point <= 90 /\ -180 <= Point.lng point <= 180.

(** The position of an entry, as a pair of numbers. *)
Definition pairOf (point : Point.t) : R * R := (Point.lat point, Point.lng point).

(** A request of one location, on the equator. *)
Definition equatorRequest : RequestBody :=
  Body (Some [ Some {| Location.latitude := Some 0;
                       Location.longitude := Some 0 |} ]).

(** A route of the old interface: both [points] and [coordinates], and an
    activity type of the new interface. *)
Definition oldRoute : LegacyRoute.t :=
  {| LegacyRoute.name := "Old";
     LegacyRoute.description := None;
     LegacyRoute.activityType := "Run";
     LegacyRoute.points := Some eastward;
     LegacyRoute.coordinates := Some threeCoordinates;
     LegacyRoute.createdAt := Some 0%Z |}.

(** * Properties *)

(** ** Rounding and truncation *)

Lemma Math_round_IZR (z : Z) : Math_round (IZR z) = IZR z.
Proof.
  unfold Math_round. f_equal. apply Zfloor_eq. lra.
Qed.

Lemma Math_round_whole (x : R) (z : Z) : x = IZR z -> Math_round x = IZR z.
Proof. intros ->. apply Math_round_IZR. Qed.

Lemma Math_round_upper (x : R) : Math_round x <= x + 0.5.
Proof. unfold Math_round. apply Zfloor_bound. Qed.

Lemma Math_round_near (x : R) : x - 0.5 < Math_round x <= x + 0.5.
Proof.
  unfold Math_round. pose proof (Zfloor_bound (x + 0.5)). lra.
Qed.

Lemma Math_round_nonneg (x : R) : 0 <= x -> 0 <= Math_round x.
Proof.
  intros Hx. unfold Math_round. apply IZR_le.
  apply Zfloor_lub. simpl. lra.
Qed.

Lemma ToInteger_IZR (z : Z) : ToInteger (IZR z) = z.
Proof.
  unfold ToInteger. destruct (Rle_dec 0 (IZR z)).
  - apply ZfloorZ.
  - unfold Zceil. rewrite <- opp_IZR, ZfloorZ. lia.
Qed.

Lemma ToInteger_nonneg (x : R) : 0 <= x -> ToInteger x = Zfloor x.
Proof.
  intros Hx. unfold ToInteger.
  destruct (Rle_dec 0 x); [reflexivity | contradiction].
Qed.

Lemma Zfloor_le_ToInteger (x : R) : (Zfloor x <= ToInteger x)%Z.
Proof.
  unfold ToInteger. destruct (Rle_dec 0 x); [lia |].
  apply le_IZR. pose proof (Zfloor_ceil_bound x). lra.
Qed.

(** Adding a duration to a date: the new date is at least the old one plus
    the duration rounded down. *)
Lemma TimeClip_advance (t : Z) (duration : R) :
  (t + Zfloor duration <= TimeClip (IZR t + duration))%Z.
Proof.
  unfold TimeClip.
  apply Z.le_trans with (Zfloor (IZR t + duration)); [| apply Zfloor_le_ToInteger].
  rewrite (Rplus_comm (IZR t)), Zfloor_addz. lia.
Qed.

Lemma TimeClip_IZR (z : Z) (x : R) : x = IZR z -> TimeClip x = z.
Proof. intros ->. apply ToInteger_IZR. Qed.

(** ** Grade adjustment *)

(** C6. [calculateSpeedAdjustmentForElevation] follows the policy table on
    gradient = (elevationChange / 1000) / distance: 0.6 above 0.05, 0.8 in
    (0.02, 0.05], 1.1 in [-0.05, -0.02), 1.2 below -0.05 and 1 otherwise;
    a zero distance gives 1 whatever the elevation change. *)
Theorem grade_policy_table (elevationChange distance : R) :
  calculateSpeedAdjustmentForElevation elevationChange 0 = 1 /\
  (distance <> 0 ->
   let gradient := (elevationChange / 1000) / distance in
   (gradient > 0.05 ->
    calculateSpeedAdjustmentForElevation elevationChange distance = 0.6) /\
   (0.02 < gradient <= 0.05 ->
    calculateSpeedAdjustmentForElevation elevationChange distance = 0.8) /\
   (-0.05 <= gradient < -0.02 ->
    calculateSpeedAdjustmentForElevation elevationChange distance = 1.1) /\
   (gradient < -0.05 ->
    calculateSpeedAdjustmentForElevation elevationChange distance = 1.2) /\
   (-0.02 <= gradient <= 0.02 ->
    calculateSpeedAdjustmentForElevation elevationChange distance = 1)).
Proof.
  split.
  - unfold calculateSpeedAdjustmentForElevation.
    destruct (Req_dec_T 0 0) as [_ | Hne]; [reflexivity | now elim Hne].
  - intros Hd gradient.
    unfold calculateSpeedAdjustmentForElevation.
    destruct (Req_dec_T distance 0) as [H0 | _]; [contradiction |].
    fold gradient.
    destruct (Rgt_dec gradient 0.05), (Rgt_dec gradient 0.02),
      (Rlt_dec gradient (-0.05)), (Rlt_dec gradient (-0.02));
      repeat split; intros; solve [reflexivity | lra].
Qed.

Lemma grade_policy_table_witness :
  calculateSpeedAdjustmentForElevation 30 1 = 0.8 /\
  calculateSpeedAdjustmentForElevation (-80) 1 = 1.2.
Proof.
  split.
  - apply (grade_policy_table 30 1); lra.
  - apply (grade_policy_table (-80) 1); lra.
Defined.

(** The multiplier is one of the five values of the table, so it is
    positive. *)
Lemma calculateSpeedAdjustmentForElevation_pos (elevationChange distance : R) :
  0 < calculateSpeedAdjustmentForElevation elevationChange distance.
Proof.
  unfold calculateSpeedAdjustmentForElevation.
  repeat match goal with |- context [if ?c then _ else _] => destruct c end; lra.
Qed.

(** ** Speed variation *)

Lemma ln_nonpos (u : R) : 0 < u <= 1 -> ln u <= 0.
Proof.
  intros [Hpos [Hlt | ->]].
  - rewrite <- ln_1. left. now apply ln_increasing.
  - rewrite ln_1. lra.
Qed.

(** For a first draw other than 0 every step of [addSpeedVariation] is
    finite, and the result is the clamp of the varied speed. *)
Lemma addSpeedVariation_finite (u1 u2 baseSpeed variationFactor : R) :
  0 < u1 <= 1 ->
  addSpeedVariation u1 u2 baseSpeed variationFactor =
  Finite (Rmax (baseSpeed * 0.2)
            (Rmin (baseSpeed * 1.8)
               (baseSpeed *
                (1 + sqrt (-2 * ln u1) * cos (2 * PI * u2) * variationFactor)))).
Proof.
  intros Hu. pose proof (ln_nonpos u1 Hu) as Hln.
  unfold addSpeedVariation, Math_log.
  destruct (Rlt_dec u1 0) as [H | _]; [lra |].
  destruct (Req_dec_T u1 0) as [H | _]; [lra |].
  cbn [Number_mul Math_sqrt].
  destruct (Rlt_dec (-2 * ln u1) 0) as [H | _]; [lra |].
  reflexivity.
Qed.

(** The clamp of [addSpeedVariation] holds from a zero base speed on. *)
Lemma addSpeedVariation_range (u1 u2 baseSpeed variationFactor : R) :
  0 < u1 <= 1 ->
  0 <= baseSpeed ->
  baseSpeed * 0.2
    <= Number_value (addSpeedVariation u1 u2 baseSpeed variationFactor)
    <= baseSpeed * 1.8.
Proof.
  intros Hu Hpos. rewrite addSpeedVariation_finite by assumption.
  cbn [Number_value].
  set (v := baseSpeed * (1 + _)).
  split.
  - apply Rmax_l.
  - apply Rmax_lub; [lra | apply Rmin_l].
Qed.

(** With a first draw of 0 and no variation the result is NaN: the
    infinite gaussian times the factor 0. *)
Lemma addSpeedVariation_zero_draw (u2 baseSpeed : R) :
  addSpeedVariation 0 u2 baseSpeed 0 = NaN.
Proof.
  unfold addSpeedVariation, Math_log.
  destruct (Rlt_dec 0 0) as [H | _]; [lra |].
  destruct (Req_dec_T 0 0) as [_ | H]; [| lra].
  repeat (cbn [Number_mul Number_add Math_sqrt Math_min Math_max];
          match goal with
          | |- context [Rlt_dec ?a ?b] => destruct (Rlt_dec a b)
          end; try lra);
    reflexivity.
Qed.

(** C5, at a failing input.  When the first draw of [Math.random()] is 0,
    a value it can return, and the variation factor is 0,
    [addSpeedVariation] returns NaN, whatever the second draw and the
    base speed: [Math.log(0)] is the negative infinity, the gaussian is
    infinite, and infinity times 0 is NaN, which [Math.min] and
    [Math.max] hand on.  NaN lies within no clamp.  For every other first
    draw the clamp holds, from a zero base speed on and whatever the
    variation factor and the second draw. *)
Theorem addSpeedVariation_nan_at_zero_draw :
  (forall u2 baseSpeed, addSpeedVariation 0 u2 baseSpeed 0 = NaN) /\
  (forall u1 u2 baseSpeed variationFactor,
     0 < u1 <= 1 ->
     0 <= baseSpeed ->
     exists speed,
       addSpeedVariation u1 u2 baseSpeed variationFactor = Finite speed /\
       0.2 * baseSpeed <= speed <= 1.8 * baseSpeed).
Proof.
  split.
  - exact addSpeedVariation_zero_draw.
  - intros u1 u2 baseSpeed variationFactor Hu Hpos.
    pose proof (addSpeedVariation_range u1 u2 baseSpeed variationFactor Hu Hpos)
      as H.
    rewrite addSpeedVariation_finite in * by assumption.
    eexists. split; [reflexivity |]. cbn [Number_value] in H. lra.
Qed.

Lemma addSpeedVariation_nan_at_zero_draw_witness :
  addSpeedVariation 0 (1 / 4) 12 0 = NaN /\
  exists speed,
    addSpeedVariation (1 / 2) (1 / 4) 12 0.15 = Finite speed /\
    0.2 * 12 <= speed <= 1.8 * 12.
Proof.
  destruct addSpeedVariation_nan_at_zero_draw as [Hnan Hclamp].
  split; [apply Hnan | apply Hclamp; lra].
Defined.

(** ** Pacing curve *)

Lemma generatePacingCurve_length (pointCount : nat) (activityType : ActivityType) :
  length (generatePacingCurve pointCount activityType) = pointCount.
Proof. unfold generatePacingCurve. now rewrite length_map, length_seq. Qed.

Lemma generatePacingCurve_nth_error (pointCount : nat) (a : ActivityType) (i : nat) :
  (i < pointCount)%nat ->
  nth_error (generatePacingCurve pointCount a) i =
  Some (pacingMultiplier (patterns a) (pacingProgress pointCount i)).
Proof.
  intros Hi. unfold generatePacingCurve.
  rewrite nth_error_map, nth_error_seq.
  assert (H : (i <? pointCount)%nat = true) by now apply Nat.ltb_lt.
  now rewrite H.
Qed.

Lemma generatePacingCurve_nth (pointCount : nat) (a : ActivityType) (i : nat) :
  (i < pointCount)%nat ->
  nth i (generatePacingCurve pointCount a) 0 =
  pacingMultiplier (patterns a) (pacingProgress pointCount i).
Proof.
  intros Hi. apply nth_error_nth. now apply generatePacingCurve_nth_error.
Qed.

(** Progress runs from 0 to 1 along a curve of at least two points. *)
Lemma pacingProgress_range (pointCount i : nat) :
  (2 <= pointCount)%nat -> (i < pointCount)%nat ->
  0 <= pacingProgress pointCount i <= 1.
Proof.
  intros Hn Hi. unfold pacingProgress.
  assert (H1 : 1 <= INR pointCount - 1).
  { apply le_INR in Hn. simpl in Hn. lra. }
  assert (H2 : INR i <= INR pointCount - 1).
  { assert (H : (S i <= pointCount)%nat) by lia.
    apply le_INR in H. rewrite S_INR in H. lra. }
  assert (H3 : 0 <= INR i) by apply pos_INR.
  split.
  - apply Rmult_le_pos; [assumption |].
    left. apply Rinv_0_lt_compat. lra.
  - apply Rmult_le_reg_r with (INR pointCount - 1); [lra |].
    unfold Rdiv. rewrite Rmult_assoc, Rinv_l by lra. lra.
Qed.

(** In the peak phase the multiplier stays within 0.03 of the peak. *)
Lemma pacingMultiplier_peak (pattern : PacingPattern) (progress : R) :
  0.2 <= progress < 0.7 ->
  peak pattern - 0.03 <= pacingMultiplier pattern progress <= peak pattern + 0.03.
Proof.
  intros [Hlo Hhi]. unfold pacingMultiplier.
  destruct (Rlt_dec progress 0.2) as [H | _]; [lra |].
  destruct (Rlt_dec progress 0.7) as [_ | H]; [| lra].
  pose proof (SIN_bound ((progress - 0.2) / 0.5 * PI * 2)) as [Hs1 Hs2].
  lra.
Qed.

(** Every multiplier of a curve lies between the lowest floor and the
    highest peak of the three patterns. *)
Lemma pacingMultiplier_bounds (a : ActivityType) (progress : R) :
  0 <= progress <= 1 ->
  0.85 <= pacingMultiplier (patterns a) progress <= 1.11.
Proof.
  intros [Hlo Hhi]. unfold pacingMultiplier.
  destruct (Rlt_dec progress 0.2) as [H1 | H1].
  - destruct a; simpl; nra.
  - destruct (Rlt_dec progress 0.7) as [H2 | H2].
    + pose proof (SIN_bound ((progress - 0.2) / 0.5 * PI * 2)) as [Hs1 Hs2].
      destruct a; simpl; lra.
    + destruct a; simpl; nra.
Qed.

Lemma generatePacingCurve_pos (pointCount : nat) (a : ActivityType) (i : nat) :
  (2 <= pointCount)%nat -> (i < pointCount)%nat ->
  0.85 <= nth i (generatePacingCurve pointCount a) 0 <= 1.11.
Proof.
  intros Hn Hi. rewrite generatePacingCurve_nth by assumption.
  apply pacingMultiplier_bounds. now apply pacingProgress_range.
Qed.

(** C7. [generatePacingCurve pointCount activityType] has [pointCount]
    multipliers; for Run with 11 points the first is the warmup floor 0.85,
    the last the fatigue floor 0.92, and every multiplier whose progress is
    in the peak phase [0.2, 0.7) is within 0.03 of the peak 1.08. *)
Theorem pacing_curve_shape :
  (forall pointCount activityType,
     length (generatePacingCurve pointCount activityType) = pointCount) /\
  nth_error (generatePacingCurve 11 Run) 0 = Some 0.85 /\
  nth_error (generatePacingCurve 11 Run) 10 = Some 0.92 /\
  (forall i multiplier,
     nth_error (generatePacingCurve 11 Run) i = Some multiplier ->
     0.2 <= pacingProgress 11 i < 0.7 ->
     1.08 - 0.03 <= multiplier <= 1.08 + 0.03).
Proof.
  split; [exact generatePacingCurve_length |].
  split; [| split].
  - rewrite generatePacingCurve_nth_error by lia. f_equal.
    unfold pacingMultiplier, pacingProgress. simpl.
    destruct (Rlt_dec _ _) as [_ | H]; lra.
  - rewrite generatePacingCurve_nth_error by lia. f_equal.
    unfold pacingMultiplier, pacingProgress. simpl.
    destruct (Rlt_dec _ _) as [H | _]; [lra |].
    destruct (Rlt_dec _ _) as [H | _]; lra.
  - intros i multiplier Hnth Hprogress.
    assert (Hi : (i < length (generatePacingCurve 11 Run))%nat)
      by (apply nth_error_Some; congruence).
    rewrite generatePacingCurve_length in Hi.
    rewrite generatePacingCurve_nth_error in Hnth by assumption.
    injection Hnth as <-.
    apply (pacingMultiplier_peak (patterns Run)). assumption.
Qed.

Lemma pacing_curve_shape_witness :
  exists multiplier,
    nth_error (generatePacingCurve 11 Run) 4 = Some multiplier /\
    1.08 - 0.03 <= multiplier <= 1.08 + 0.03.
Proof.
  destruct pacing_curve_shape as (_ & _ & _ & Hpeak).
  exists (pacingMultiplier (patterns Run) (pacingProgress 11 4)).
  assert (Hnth : nth_error (generatePacingCurve 11 Run) 4 =
                 Some (pacingMultiplier (patterns Run) (pacingProgress 11 4)))
    by (apply generatePacingCurve_nth_error; lia).
  split; [exact Hnth |].
  apply (Hpeak 4%nat); [exact Hnth |].
  unfold pacingProgress. simpl. lra.
Defined.

(** ** The loop of the legacy path, index by index *)

(** [calculateElevation] does not read its two distances. *)
Lemma calculateElevation_distance_unused
    (random : R) (i n : nat) (d1 d2 gain : R) (p : ElevationProfile)
    (base : option R) :
  calculateElevation random i n d1 d2 gain p base =
  calculateElevation random i n 0 0 gain p base.
Proof. reflexivity. Qed.

Section LegacyRun.

Variable lib : Library.
Variable w : Ambient.
Variable coordinates : list Coordinate.
Variable startTime : Z.
Variable speedKmh : R.
Variable elevationGain : option R.
Variable elevationProfile : ElevationProfile.
Variable addNoise : bool.
Variable pauseDuration : R.

Local Abbreviation elevationAt :=
  (legacyElevation w coordinates elevationGain elevationProfile).

Local Abbreviation previousAt :=
  (legacyPrevious w coordinates elevationGain elevationProfile).

Local Abbreviation clockAt :=
  (legacyClock lib w coordinates startTime speedKmh elevationGain
               elevationProfile addNoise pauseDuration).

Local Abbreviation pointAt :=
  (legacyPoint lib w coordinates startTime speedKmh elevationGain
               elevationProfile addNoise pauseDuration).

Local Abbreviation step :=
  (trackStep lib w coordinates speedKmh elevationGain elevationProfile addNoise
             pauseDuration (calculateCoordinatesDistance lib coordinates)).

Local Abbreviation init :=
  {| points := []; currentTime := startTime; totalDistance := 0 |}.

Lemma previousElevation_snoc (k : nat) (p : GPXPoint.t) :
  previousElevation (map pointAt (seq 0 k) ++ [p]) k = previousAt k.
Proof.
  destruct k as [| j]; [reflexivity |].
  unfold previousElevation, legacyPrevious.
  rewrite nth_error_app1 by (rewrite length_map, length_seq; lia).
  rewrite nth_error_map, nth_error_seq.
  assert (H : (j <? S j)%nat = true) by (apply Nat.ltb_lt; lia).
  now rewrite H.
Qed.

(** One turn of the loop from the state the closed form describes. *)
Lemma trackStep_closed (k : nat) (st : TrackState) :
  (k < length coordinates)%nat ->
  points st = map pointAt (seq 0 k) ->
  currentTime st = clockAt k ->
  points (step st k) = map pointAt (seq 0 (S k)) /\
  currentTime (step st k) =
    clockAt (if (k <? length coordinates - 1)%nat then S k else k).
Proof.
  intros Hk Hpoints Hclock.
  rewrite seq_S, map_app. simpl map.
  unfold trackStep. cbv zeta.
  rewrite (calculateElevation_distance_unused _ _ _ (totalDistance st)
             (calculateCoordinatesDistance lib coordinates)).
  fold (elevationAt k).
  rewrite Hclock, Hpoints. fold (pointAt k).
  destruct (k <? length coordinates - 1)%nat.
  - simpl. split; [reflexivity |].
    rewrite previousElevation_snoc. reflexivity.
  - simpl. split; reflexivity.
Qed.

(** The loop run over the first [k] indices. *)
Lemma trackLoop_closed (k : nat) :
  (k <= length coordinates)%nat ->
  points (fold_left step (seq 0 k) init) = map pointAt (seq 0 k) /\
  currentTime (fold_left step (seq 0 k) init) =
    clockAt (Nat.min k (length coordinates - 1)).
Proof.
  induction k as [| k IH]; intros Hk.
  - now simpl.
  - destruct IH as [IHp IHc]; [lia |].
    rewrite seq_S, fold_left_app. simpl fold_left.
    assert (Hmin : Nat.min k (length coordinates - 1) = k) by lia.
    rewrite Hmin in IHc.
    destruct (trackStep_closed k _ ltac:(lia) IHp IHc) as [Hp Hc].
    split; [now rewrite <- seq_S |].
    rewrite Hc.
    destruct (k <? length coordinates - 1)%nat eqn:Hlt.
    + apply Nat.ltb_lt in Hlt. f_equal. lia.
    + apply Nat.ltb_ge in Hlt. f_equal. lia.
Qed.

(** The legacy path in closed form: with at least two coordinates the
    point at index [i] is [legacyPoint i]. *)
Lemma generateTrackPoints_closed :
  (2 <= length coordinates)%nat ->
  generateTrackPoints lib w coordinates startTime speedKmh elevationGain
    (Some elevationProfile) (Some addNoise) (Some pauseDuration) =
  map pointAt (seq 0 (length coordinates)).
Proof.
  intros Hn. unfold generateTrackPoints. simpl withDefault.
  assert (H : (length coordinates <? 2)%nat = false) by (apply Nat.ltb_ge; lia).
  rewrite H.
  apply (trackLoop_closed (length coordinates)). lia.
Qed.

End LegacyRun.

(** The defaults of [generateTrackPoints] are those of its parameters. *)
Lemma generateTrackPoints_defaults (lib : Library) (w : Ambient)
    (coordinates : list Coordinate) (startTime : Z) (speedKmh : R)
    (elevationGain : option R) (elevationProfile : option ElevationProfile)
    (addNoise : option bool) (pauseDuration : option R) :
  generateTrackPoints lib w coordinates startTime speedKmh elevationGain
    elevationProfile addNoise pauseDuration =
  generateTrackPoints lib w coordinates startTime speedKmh elevationGain
    (Some (withDefault elevationProfile flat))
    (Some (withDefault addNoise true))
    (Some (withDefault pauseDuration 0)).
Proof. reflexivity. Qed.

Lemma generateTrackPoints_length (lib : Library) (w : Ambient)
    (coordinates : list Coordinate) (startTime : Z) (speedKmh : R)
    (elevationGain : option R) (elevationProfile : option ElevationProfile)
    (addNoise : option bool) (pauseDuration : option R) :
  length (generateTrackPoints lib w coordinates startTime speedKmh
            elevationGain elevationProfile addNoise pauseDuration) =
  length coordinates.
Proof.
  destruct (Nat.ltb_spec (length coordinates) 2) as [Hlt | Hge].
  - unfold generateTrackPoints.
    apply Nat.ltb_lt in Hlt. rewrite Hlt. apply length_map.
  - rewrite generateTrackPoints_defaults, generateTrackPoints_closed by assumption.
    now rewrite length_map, length_seq.
Qed.

(** The point the legacy path returns at index [i]. *)
Lemma generateTrackPoints_nth_error (lib : Library) (w : Ambient)
    (coordinates : list Coordinate) (startTime : Z) (speedKmh : R)
    (elevationGain : option R) (elevationProfile : option ElevationProfile)
    (addNoise : option bool) (pauseDuration : option R) (i : nat) :
  (2 <= length coordinates)%nat -> (i < length coordinates)%nat ->
  nth_error (generateTrackPoints lib w coordinates startTime speedKmh
               elevationGain elevationProfile addNoise pauseDuration) i =
  Some (legacyPoint lib w coordinates startTime speedKmh elevationGain
          (withDefault elevationProfile flat) (withDefault addNoise true)
          (withDefault pauseDuration 0) i).
Proof.
  intros Hn Hi.
  rewrite generateTrackPoints_defaults, generateTrackPoints_closed by assumption.
  rewrite nth_error_map, nth_error_seq.
  assert (H : (i <? length coordinates)%nat = true) by now apply Nat.ltb_lt.
  now rewrite H.
Qed.

(** ** The elevation lookup never rejects *)

Lemma mapM_length {A B : Type} (f : A -> Outcome B) (l : list A) (out : list B) :
  mapM f l = Resolved out -> length out = length l.
Proof.
  revert out. induction l as [| a l IH]; intros out H; simpl in H.
  - now injection H as <-.
  - destruct (f a) as [b | e]; simpl in H; [| discriminate].
    destruct (mapM f l) as [bs | e]; simpl in H; [| discriminate].
    injection H as <-. simpl. f_equal. now apply IH.
Qed.

Lemma callOpenElevationAPI_length (response : FetchResult)
    (points : list Point.t) (out : list PointWithElevation.t) :
  callOpenElevationAPI response points = Resolved out ->
  length out = length points.
Proof.
  unfold callOpenElevationAPI.
  destruct response as [message | ok status statusText body]; [discriminate |].
  destruct ok; simpl; [| discriminate].
  destruct body as [| [results |]]; try discriminate.
  destruct (Nat.eqb_spec (length results) (length points)) as [Heq | Hne];
    simpl; [| discriminate].
  intros H. apply mapM_length in H.
  rewrite H, length_combine. lia.
Qed.

(** Each failure of a request is a rejection of [callOpenElevationAPI]:
    a transport error or timeout, a status that is not ok, a body that is
    no JSON or has no [results] array, a wrong number of results. *)
Lemma callOpenElevationAPI_failures (points : list Point.t) :
  (forall message,
     callOpenElevationAPI (FetchRejects message) points =
     Rejected (FetchFailed message)) /\
  (forall status statusText body,
     callOpenElevationAPI (Response false status statusText body) points =
     Rejected (ProxyError status statusText)) /\
  (forall status statusText,
     callOpenElevationAPI (Response true status statusText NotJson) points =
     Rejected InvalidJson) /\
  (forall status statusText,
     callOpenElevationAPI (Response true status statusText (Json None)) points =
     Rejected InvalidFormat) /\
  (forall status statusText results,
     length results <> length points ->
     callOpenElevationAPI (Response true status statusText (Json (Some results)))
       points =
     Rejected (CountMismatch (length results) (length points))).
Proof.
  repeat split; try reflexivity.
  intros status statusText results Hne. simpl.
  destruct (Nat.eqb_spec (length results) (length points)); [contradiction |].
  reflexivity.
Qed.

Lemma generateFallbackElevation_length (random : nat -> R) (points : list Point.t) :
  length (generateFallbackElevation random points) = length points.
Proof.
  unfold generateFallbackElevation.
  rewrite length_map, length_combine, length_seq. lia.
Qed.

Lemma fetchAttempts_length (responses : nat -> FetchResult)
    (points : list Point.t) (remaining attempt : nat)
    (out : list PointWithElevation.t) :
  fetchAttempts responses points attempt remaining = Some out ->
  length out = length points.
Proof.
  revert attempt. induction remaining as [| r IH]; intros attempt H; simpl in H.
  - discriminate.
  - destruct (callOpenElevationAPI (responses attempt) points) as [res | e] eqn:Hcall.
    + injection H as <-. eapply callOpenElevationAPI_length; eassumption.
    + eapply IH; eassumption.
Qed.


(** [fetchElevationBatch] resolves, with one elevation per point. *)
Lemma fetchElevationBatch_resolves (responses : nat -> FetchResult)
    (random : nat -> R) (points : list Point.t) :
  exists out,
    fetchElevationBatch responses random points = Resolved out /\
    length out = length points.
Proof.
  unfold fetchElevationBatch.
  destruct (fetchAttempts responses points 0 (maxRetries + 1)) as [out |] eqn:H.
  - exists out. split; [reflexivity |]. eapply fetchAttempts_length; eassumption.
  - eexists. split; [reflexivity |]. apply generateFallbackElevation_length.
Qed.

(** The batch loop has fuel enough and returns one elevation per point. *)
Lemma addElevationLoop_resolves (w : Ambient) (points : list Point.t)
    (fuel i : nat) (enrichedPoints : list PointWithElevation.t) :
  (length points - i <= fuel)%nat ->
  length enrichedPoints = Nat.min i (length points) ->
  exists out,
    addElevationLoop w points fuel i enrichedPoints = Resolved out /\
    length out = length points.
Proof.
  revert i enrichedPoints.
  induction fuel as [| fuel IH]; intros i enriched Hfuel Hlen.
  - cbn [addElevationLoop].
    destruct (Nat.ltb_spec i (length points)) as [Hlt | Hge]; [lia |].
    exists enriched. split; [reflexivity | lia].
  - cbn [addElevationLoop].
    destruct (Nat.ltb_spec i (length points)) as [Hlt | Hge].
    + destruct (fetchElevationBatch_resolves (fetch w i) (random_fallback w i)
                  (firstn BATCH_SIZE (skipn i points))) as (r & Hr & Hrlen).
      rewrite Hr. cbn [bind].
      apply IH; [unfold BATCH_SIZE; lia |].
      rewrite length_app, Hrlen, length_firstn, length_skipn, Hlen.
      unfold BATCH_SIZE. lia.
    + exists enriched. split; [reflexivity | lia].
Qed.

Lemma addElevationToPoints_resolves (w : Ambient) (points : list Point.t) :
  exists out,
    addElevationToPoints w points = Resolved out /\
    length out = length points.
Proof.
  unfold addElevationToPoints.
  destruct (Nat.eqb_spec (length points) 0) as [H0 | Hne].
  - exists []. split; [reflexivity | now rewrite H0].
  - apply addElevationLoop_resolves; simpl; lia.
Qed.

(** ** The loop of the realistic-timing path, index by index *)

Section RealisticRun.

Variable w : Ambient.
Variable points : list Point.t.
Variable avgSpeedKmh : R.
Variable startTime : Z.
Variable samplingRateSeconds : R.
Variable speedVariation : R.
Variable activityType : ActivityType.
Variable addElevation : bool.
Variable elevationGain : R.
Variable useRealElevation : bool.
Variable pointsWithElevation : list PointWithElevation.t.

Local Abbreviation actualMs :=
  (realisticActualMs w points avgSpeedKmh samplingRateSeconds speedVariation
                     activityType).

Local Abbreviation clockAt :=
  (realisticClock w points avgSpeedKmh startTime samplingRateSeconds
                  speedVariation activityType).

Local Abbreviation step :=
  (timingStep w points avgSpeedKmh samplingRateSeconds speedVariation
              addElevation elevationGain useRealElevation pointsWithElevation
              (calculateRouteDistance points)
              (generatePacingCurve (length points) activityType)).

Lemma timingStep_clock (st : TimingState) (i : nat) :
  clock (step st i) = TimeClip (IZR (clock st) + actualMs i) /\
  map TimestampedPoint.time (result (step st i)) =
    map TimestampedPoint.time (result st) ++
    [TimeClip (IZR (clock st) + actualMs i)].
Proof.
  unfold timingStep. cbv zeta. simpl.
  split; [reflexivity |].
  now rewrite map_app.
Qed.

Lemma timingLoop_clock (first : TimestampedPoint.t) (cumulative : R) (k : nat) :
  TimestampedPoint.time first = startTime ->
  let final :=
    fold_left step (seq 1 k)
      {| result := [first]; clock := startTime;
         travelled := 0; cumulativeElevation := cumulative |} in
  clock final = clockAt k /\
  map TimestampedPoint.time (result final) = map clockAt (seq 0 (S k)).
Proof.
  intros Hfirst. induction k as [| k IH].
  - simpl. now rewrite Hfirst.
  - cbv zeta in *. destruct IH as [IHc IHr].
    rewrite seq_S, fold_left_app. cbn [fold_left].
    destruct (timingStep_clock
                (fold_left step (seq 1 k)
                   {| result := [first]; clock := startTime;
                      travelled := 0; cumulativeElevation := cumulative |})
                (1 + k)) as [Hc Hr].
    rewrite Hc, Hr, IHc, IHr.
    split; [reflexivity |].
    now rewrite (seq_S (S k)), map_app.
Qed.

End RealisticRun.

Lemma map_const_seq {A B : Type} (c : B) (l : list A) (n : nat) :
  map (fun _ => c) l = map (fun _ => c) (seq n (length l)).
Proof.
  revert n. induction l as [| a l IH]; intros n; simpl; [reflexivity |].
  f_equal. apply IH.
Qed.

(** The realistic-timing path resolves, and its timestamps are those of
    [realisticClock]; with fewer than two points every timestamp is the
    start time. *)
Lemma generateRealisticTimestamps_clock (w : Ambient) (points : list Point.t)
    (options : RealisticTimestampOptions.t) :
  exists out,
    generateRealisticTimestamps w points options = Resolved out /\
    map TimestampedPoint.time out =
    map (if (length points <? 2)%nat
         then fun _ => RealisticTimestampOptions.startTime options
         else realisticClock w points
                (RealisticTimestampOptions.avgSpeedKmh options)
                (RealisticTimestampOptions.startTime options)
                (withDefault (RealisticTimestampOptions.samplingRateSeconds options) 4)
                (withDefault (RealisticTimestampOptions.speedVariation options) 0.15)
                (withDefault (RealisticTimestampOptions.activityType options) Run))
        (seq 0 (length points)).
Proof.
  unfold generateRealisticTimestamps. cbv zeta.
  destruct (Nat.ltb_spec (length points) 2) as [Hlt | Hge].
  - eexists. split; [reflexivity |].
    rewrite map_map. simpl. apply map_const_seq.
  - match goal with
    | |- context [bind ?fetched _] =>
        assert (Hfetched : exists pwe, fetched = Resolved pwe)
    end.
    { destruct (_ && _); [| now eexists].
      destruct (addElevationToPoints_resolves w points) as (pwe & Hpwe & _).
      rewrite Hpwe. now eexists. }
    destruct Hfetched as [pwe Hpwe]. rewrite Hpwe. cbn [bind].
    eexists. split; [reflexivity |].
    match goal with
    | |- map _ (result (fold_left _ _ {| result := [?f]; cumulativeElevation := ?c |})) = _ =>
        pose proof (timingLoop_clock w points
                      (RealisticTimestampOptions.avgSpeedKmh options)
                      (RealisticTimestampOptions.startTime options)
                      (withDefault (RealisticTimestampOptions.samplingRateSeconds options) 4)
                      (withDefault (RealisticTimestampOptions.speedVariation options) 0.15)
                      (withDefault (RealisticTimestampOptions.activityType options) Run)
                      (withDefault (RealisticTimestampOptions.addElevation options) false)
                      (withDefault (RealisticTimestampOptions.elevationGain options) 0)
                      (withDefault (RealisticTimestampOptions.useRealElevation options) false)
                      pwe f c (length points - 1) eq_refl) as [_ H]
    end.
    replace (S (length points - 1)) with (length points) in H by lia.
    exact H.
Qed.

Lemma generateRealisticTimestamps_length (w : Ambient) (points : list Point.t)
    (options : RealisticTimestampOptions.t) :
  exists out,
    generateRealisticTimestamps w points options = Resolved out /\
    length out = length points.
Proof.
  destruct (generateRealisticTimestamps_clock w points options) as (out & Hout & Htimes).
  exists out. split; [assumption |].
  apply (f_equal (@length Z)) in Htimes.
  now rewrite !length_map, length_seq in Htimes.
Qed.

(** ** Point count *)

(** C1. Both generators return one point per input coordinate, whatever
    the options, the draws and the answers of the elevation service, the
    empty route and the one-point route included. *)
Theorem point_count_preserved (lib : Library) (w : Ambient) :
  (forall coordinates startTime speedKmh elevationGain elevationProfile
          addNoise pauseDuration,
     length (generateTrackPoints lib w coordinates startTime speedKmh
               elevationGain elevationProfile addNoise pauseDuration) =
     length coordinates) /\
  (forall points options,
     exists out,
       generateRealisticTimestamps w points options = Resolved out /\
       length out = length points).
Proof.
  split.
  - intros. apply generateTrackPoints_length.
  - intros. apply generateRealisticTimestamps_length.
Qed.

(** ** Monotonic time and the sampling floor *)

Lemma Math_atan2_nonneg (y x : R) : 0 <= y -> 0 <= x -> 0 <= Math_atan2 y x.
Proof.
  intros Hy Hx. unfold Math_atan2.
  pose proof PI_RGT_0 as Hpi.
  destruct (Rlt_dec 0 x) as [Hpos | Hnpos].
  - destruct (Req_dec y 0) as [-> | Hne].
    + unfold Rdiv. rewrite Rmult_0_l, atan_0. lra.
    + left. rewrite <- atan_0. apply atan_increasing.
      apply Rdiv_lt_0_compat; lra.
  - destruct (Rlt_dec x 0) as [Hneg | _]; [lra |].
    destruct (Rlt_dec 0 y) as [_ | _]; [lra |].
    destruct (Rlt_dec y 0) as [Hneg | _]; lra.
Qed.

Lemma haversineDistance_nonneg (lat1 lng1 lat2 lng2 : R) :
  0 <= haversineDistance lat1 lng1 lat2 lng2.
Proof.
  unfold haversineDistance. cbv zeta.
  match goal with
  | |- 0 <= _ * (2 * Math_atan2 ?y ?x) =>
      pose proof (Math_atan2_nonneg y x (sqrt_pos _) (sqrt_pos _))
  end.
  lra.
Qed.

(** Two samples of the same position are at distance zero. *)
Lemma haversineDistance_same (lat lng : R) :
  haversineDistance lat lng lat lng = 0.
Proof.
  unfold haversineDistance. cbv zeta.
  replace ((lat - lat) * PI / 180 / 2) with 0 by lra.
  replace ((lng - lng) * PI / 180 / 2) with 0 by lra.
  rewrite sin_0, !Rmult_0_r, Rplus_0_r, Rminus_0_r, sqrt_0, sqrt_1.
  unfold Math_atan2.
  destruct (Rlt_dec 0 1) as [_ | H]; [| lra].
  unfold Rdiv. rewrite Rmult_0_l, atan_0. lra.
Qed.

Section RealisticClock.

Variable w : Ambient.
Variable points : list Point.t.
Variable avgSpeedKmh : R.
Variable startTime : Z.
Variable samplingRateSeconds : R.
Variable speedVariation : R.
Variable activityType : ActivityType.

Hypothesis draws_positive : positiveDraws w.

Local Abbreviation speedAt :=
  (realisticSpeed w points avgSpeedKmh speedVariation activityType).

Local Abbreviation actualMs :=
  (realisticActualMs w points avgSpeedKmh samplingRateSeconds speedVariation
                     activityType).

Local Abbreviation clockAt :=
  (realisticClock w points avgSpeedKmh startTime samplingRateSeconds
                  speedVariation activityType).

(** Along a route of at least two points a positive average speed gives
    every segment a positive speed, the first draws being other than 0. *)
Lemma realisticSpeed_pos (i : nat) :
  (2 <= length points)%nat -> (i < length points)%nat -> 0 < avgSpeedKmh ->
  0 < speedAt i.
Proof.
  intros Hn Hi Havg. unfold realisticSpeed.
  pose proof (generatePacingCurve_pos (length points) activityType i Hn Hi) as Hc.
  set (base := avgSpeedKmh * _).
  assert (Hbase : 0 < base) by (unfold base; nra).
  pose proof (addSpeedVariation_range (random_u1 w i) (random_u2 w i) base
                speedVariation (draws_positive i) ltac:(lra)) as H.
  lra.
Qed.

Lemma realisticActualMs_floor (i : nat) : samplingRateSeconds * 1000 <= actualMs i.
Proof. unfold realisticActualMs. apply Rmax_r. Qed.

Lemma realisticActualMs_nonneg (i : nat) :
  (2 <= length points)%nat -> (i < length points)%nat -> 0 < avgSpeedKmh ->
  0 <= actualMs i.
Proof.
  intros Hn Hi Havg. unfold realisticActualMs.
  eapply Rle_trans; [| apply Rmax_l].
  pose proof (realisticSpeed_pos i Hn Hi Havg) as Hs.
  assert (Hd : 0 <= realisticSegmentDistance points i)
    by apply haversineDistance_nonneg.
  assert (Hq : 0 <= realisticSegmentDistance points i / speedAt i).
  { apply Rmult_le_pos; [assumption |]. left. now apply Rinv_0_lt_compat. }
  nra.
Qed.

(** Each turn of the loop advances the clock by at least the sampling
    interval rounded down to a whole millisecond. *)
Lemma realisticClock_floor (j : nat) :
  (clockAt j + Zfloor (samplingRateSeconds * 1000) <= clockAt (S j))%Z.
Proof.
  simpl.
  eapply Z.le_trans; [| apply TimeClip_advance].
  apply Z.add_le_mono_l, Zfloor_le, realisticActualMs_floor.
Qed.

Lemma realisticClock_monotone (j : nat) :
  (2 <= length points)%nat -> (S j < length points)%nat -> 0 < avgSpeedKmh ->
  (clockAt j <= clockAt (S j))%Z.
Proof.
  intros Hn Hj Havg. simpl.
  eapply Z.le_trans; [| apply TimeClip_advance].
  assert (H : (0 <= Zfloor (actualMs (S j)))%Z).
  { apply Zfloor_lub. simpl. now apply realisticActualMs_nonneg. }
  lia.
Qed.

End RealisticClock.

(** The timestamp of the point a list of clocked points holds at [i]. *)
Lemma nth_error_clocked (out : list TimestampedPoint.t) (clockAt : nat -> Z)
    (n i : nat) (p : TimestampedPoint.t) :
  map TimestampedPoint.time out = map clockAt (seq 0 n) ->
  nth_error out i = Some p ->
  (i < n)%nat /\ TimestampedPoint.time p = clockAt i.
Proof.
  intros Htimes Hnth.
  apply (f_equal (fun l => nth_error l i)) in Htimes.
  rewrite !nth_error_map, Hnth, nth_error_seq in Htimes. simpl in Htimes.
  destruct (Nat.ltb_spec i n) as [Hlt | Hge]; [| discriminate].
  injection Htimes as ->. now split.
Qed.

Lemma positiveDraws_quietWorld : positiveDraws quietWorld.
Proof. intros i. simpl. lra. Qed.

Lemma measurableRoute_stillRoute : measurableRoute stillRoute.
Proof.
  intros i Hi. destruct i as [| i]; [| simpl in Hi; lia].
  unfold measurable. cbn [nth stillRoute origin Point.lat Point.lng].
  rewrite haversineDistance_same. lra.
Qed.

(** C2, as amended.  Along a route of at least two points whose
    consecutive positions are measurable, with a positive average speed
    and first draws of [addSpeedVariation] other than 0, whatever the
    sampling rate, the first timestamp of [generateRealisticTimestamps]
    is the start time, the timestamps never decrease, and two
    consecutive ones are at least the sampling interval apart once that
    interval (samplingRateSeconds * 1000 ms) is rounded down to a whole
    millisecond.  The two provisos are those under which the source
    computes numbers: a draw of 0 can make a speed NaN, positions close
    to antipodal a distance NaN, and either makes every later date an
    Invalid Date. *)
Theorem timestamps_monotone_sampling_floor (w : Ambient) (points : list Point.t)
    (options : RealisticTimestampOptions.t) :
  (2 <= length points)%nat ->
  RealisticTimestampOptions.avgSpeedKmh options > 0 ->
  positiveDraws w ->
  measurableRoute points ->
  exists out,
    generateRealisticTimestamps w points options = Resolved out /\
    option_map TimestampedPoint.time (nth_error out 0) =
      Some (RealisticTimestampOptions.startTime options) /\
    forall i p q,
      nth_error out i = Some p -> nth_error out (S i) = Some q ->
      (TimestampedPoint.time p <= TimestampedPoint.time q)%Z /\
      (Zfloor (withDefault (RealisticTimestampOptions.samplingRateSeconds options) 4
               * 1000)%R
       <= TimestampedPoint.time q - TimestampedPoint.time p)%Z.
Proof.
  intros Hn Havg Hdraws _.
  destruct (generateRealisticTimestamps_clock w points options)
    as (out & Hout & Htimes).
  assert (Hge : (length points <? 2)%nat = false) by (apply Nat.ltb_ge; lia).
  rewrite Hge in Htimes.
  exists out. split; [assumption |]. split.
  - destruct out as [| first rest].
    + apply (f_equal (@length Z)) in Htimes.
      rewrite !length_map, length_seq in Htimes. simpl in Htimes. lia.
    + simpl. f_equal.
      now destruct (nth_error_clocked _ _ _ 0 first Htimes eq_refl) as [_ ->].
  - intros i p q Hp Hq.
    destruct (nth_error_clocked _ _ _ _ _ Htimes Hp) as [_ ->].
    destruct (nth_error_clocked _ _ _ _ _ Htimes Hq) as [Hi ->].
    split.
    + now apply realisticClock_monotone.
    + pose proof (realisticClock_floor w points
                    (RealisticTimestampOptions.avgSpeedKmh options)
                    (RealisticTimestampOptions.startTime options)
                    (withDefault (RealisticTimestampOptions.samplingRateSeconds options) 4)
                    (withDefault (RealisticTimestampOptions.speedVariation options) 0.15)
                    (withDefault (RealisticTimestampOptions.activityType options) Run)
                    i).
      lia.
Qed.

(** Where the sampling interval is a whole number of milliseconds, as
    with the default of 4 s, the floor is the interval itself. *)
Lemma sampling_floor_whole_milliseconds (w : Ambient) (points : list Point.t)
    (options : RealisticTimestampOptions.t) (milliseconds : Z) :
  withDefault (RealisticTimestampOptions.samplingRateSeconds options) 4 * 1000 =
    IZR milliseconds ->
  exists out,
    generateRealisticTimestamps w points options = Resolved out /\
    forall i p q,
      nth_error out i = Some p -> nth_error out (S i) = Some q ->
      (milliseconds <= TimestampedPoint.time q - TimestampedPoint.time p)%Z.
Proof.
  intros Hwhole.
  destruct (generateRealisticTimestamps_clock w points options)
    as (out & Hout & Htimes).
  exists out. split; [assumption |].
  intros i p q Hp Hq.
  destruct (Nat.ltb_spec (length points) 2) as [Hlt | Hge].
  - apply (f_equal (@length Z)) in Htimes.
    rewrite !length_map, length_seq in Htimes.
    assert (Hq' : (S i < length out)%nat) by (apply nth_error_Some; congruence).
    lia.
  - destruct (nth_error_clocked _ _ _ _ _ Htimes Hp) as [_ ->].
    destruct (nth_error_clocked _ _ _ _ _ Htimes Hq) as [_ ->].
    pose proof (realisticClock_floor w points
                  (RealisticTimestampOptions.avgSpeedKmh options)
                  (RealisticTimestampOptions.startTime options)
                  (withDefault (RealisticTimestampOptions.samplingRateSeconds options) 4)
                  (withDefault (RealisticTimestampOptions.speedVariation options) 0.15)
                  (withDefault (RealisticTimestampOptions.activityType options) Run)
                  i) as H.
    rewrite Hwhole, ZfloorZ in H. lia.
Qed.

Lemma timestamps_monotone_sampling_floor_witness :
  exists out,
    generateRealisticTimestamps quietWorld stillRoute (plainOptions (Some 4)) =
      Resolved out /\
    option_map TimestampedPoint.time (nth_error out 0) = Some 0%Z /\
    forall i p q,
      nth_error out i = Some p -> nth_error out (S i) = Some q ->
      (TimestampedPoint.time p <= TimestampedPoint.time q)%Z /\
      (Zfloor (4 * 1000) <= TimestampedPoint.time q - TimestampedPoint.time p)%Z.
Proof.
  apply (timestamps_monotone_sampling_floor quietWorld stillRoute
           (plainOptions (Some 4))).
  - simpl. lia.
  - simpl. lra.
  - exact positiveDraws_quietWorld.
  - exact measurableRoute_stillRoute.
Defined.

(** C2 as stated fails where the sampling interval is no whole number of
    milliseconds, on a route and with draws for which the source computes
    numbers: with samplingRateSeconds = 0.0005, every draw 1/2 and two
    samples of one position the segment takes 0.5 ms, the date of the second point is
    truncated to the millisecond of the first, and the two timestamps are
    0 ms apart, less than samplingRateSeconds * 1000 = 0.5. *)
Lemma sampling_floor_counterexample :
  exists out p q,
    generateRealisticTimestamps quietWorld stillRoute (plainOptions (Some 0.0005)) =
      Resolved out /\
    nth_error out 0 = Some p /\
    nth_error out 1 = Some q /\
    IZR (TimestampedPoint.time q - TimestampedPoint.time p) < 0.0005 * 1000.
Proof.
  destruct (generateRealisticTimestamps_clock quietWorld stillRoute
              (plainOptions (Some 0.0005))) as (out & Hout & Htimes).
  change (length stillRoute) with 2%nat in Htimes.
  change (2 <? 2)%nat with false in Htimes.
  destruct out as [| p [| q [| r rest]]]; try discriminate Htimes.
  exists [p; q], p, q.
  repeat split; try assumption.
  cbn [map seq] in Htimes.
  injection Htimes as Hp Hq. rewrite Hp, Hq.
  cbn [realisticClock plainOptions withDefault
       RealisticTimestampOptions.startTime
       RealisticTimestampOptions.samplingRateSeconds
       RealisticTimestampOptions.avgSpeedKmh
       RealisticTimestampOptions.speedVariation
       RealisticTimestampOptions.activityType].
  unfold realisticActualMs, realisticSegmentDistance.
  change (nth (1 - 1) stillRoute origin) with origin.
  change (nth 1 stillRoute origin) with origin.
  rewrite haversineDistance_same.
  unfold Rdiv at 1. rewrite !Rmult_0_l.
  rewrite Rmax_right by lra.
  assert (H : TimeClip (0 + 0.0005 * 1000) = 0%Z).
  { unfold TimeClip, ToInteger.
    destruct (Rle_dec 0 (0 + 0.0005 * 1000)) as [_ | Hn]; [| lra].
    apply Zfloor_eq. simpl. lra. }
  rewrite H. simpl. lra.
Qed.

(** ** Elevation floor *)

(** The two elevation sources of the realistic-timing path have the
    floor: [calculateRealisticElevation] ends in [Math.max(0, ..)], and the
    starting elevation is at least 50 for a draw in [0, 1). *)
Lemma calculateRealisticElevation_nonneg
    (random currentElevation progressRatio totalElevationGain totalDistance : R) :
  0 <= calculateRealisticElevation random currentElevation progressRatio
         totalElevationGain totalDistance.
Proof. unfold calculateRealisticElevation. apply Rmax_l. Qed.

Lemma getStartingElevation_nonneg (random : R) :
  0 <= random -> 50 <= getStartingElevation random.
Proof. intros H. unfold getStartingElevation. lra. Qed.

(** So has the fallback of the elevation service. *)
Lemma generateFallbackElevation_nonneg (random : nat -> R)
    (points : list Point.t) (p : PointWithElevation.t) :
  In p (generateFallbackElevation random points) ->
  0 <= PointWithElevation.ele p.
Proof.
  unfold generateFallbackElevation. intros Hin.
  apply in_map_iff in Hin. destruct Hin as ([index point] & <- & _).
  cbn [PointWithElevation.ele].
  apply Math_round_nonneg, Rmax_l.
Qed.

(** C3, at a failing input.  On a five-point route with the hilly profile
    and no elevation gain, the fourth point of the legacy path has a
    negative elevation whatever its draw in [0, 1): the sine term is at its
    lowest there, the base elevation the loop passes is 0, and
    [calculateElevation] has no floor. *)
Theorem legacy_elevation_below_zero (lib : Library) (w : Ambient) :
  0 <= random_calculateElevation w 3 < 1 ->
  exists p e,
    nth_error (generateTrackPoints lib w fiveCoordinates 0 10 None
                 (Some hilly) None None) 3 = Some p /\
    GPXPoint.elevation p = Some e /\
    e < 0.
Proof.
  intros [Hlo Hhi].
  rewrite generateTrackPoints_nth_error by (simpl; lia).
  eexists. eexists. split; [reflexivity |]. split; [reflexivity |].
  unfold calculateElevation. simpl.
  replace ((1 + 1 + 1) / (1 + 1 + 1 + 1 + 1 - 1) * PI * 2) with (3 * (PI / 2))
    by lra.
  rewrite sin_3PI2.
  eapply Rle_lt_trans; [apply Math_round_upper |]. lra.
Qed.

Lemma legacy_elevation_below_zero_witness :
  exists p e,
    nth_error (generateTrackPoints unitLibrary quietWorld fiveCoordinates 0 10
                 None (Some hilly) None None) 3 = Some p /\
    GPXPoint.elevation p = Some e /\
    e < 0.
Proof.
  apply (legacy_elevation_below_zero unitLibrary quietWorld). simpl. lra.
Defined.

(** ** Elevation fallback *)



(** ** Grade adjustment on the legacy path *)

(** What the loop of [generateTrackPoints] does with the grade.  At a loop
    index whose point and the point before it carry an elevation, the
    time to the next point is the distance of the segment that leaves
    the index divided by the segment speed; with [addNoise] that speed
    is the varied speed multiplied by the grade multiplier computed from
    the elevation change of the segment that arrives at the index and
    from the distance of the segment that leaves it, and without
    [addNoise] it is [speedKmh] alone. *)
Lemma legacy_grade_pairing (lib : Library) (w : Ambient)
    (coordinates : list Coordinate) (startTime : Z) (speedKmh : R)
    (elevationGain : option R) (elevationProfile : option ElevationProfile)
    (addNoise : option bool) (pauseDuration : option R)
    (j : nat) (p0 p1 p2 : GPXPoint.t) (e0 e1 : R) (t1 : Z) :
  let out :=
    generateTrackPoints lib w coordinates startTime speedKmh elevationGain
      elevationProfile addNoise pauseDuration in
  nth_error out j = Some p0 ->
  nth_error out (S j) = Some p1 ->
  nth_error out (S (S j)) = Some p2 ->
  GPXPoint.elevation p0 = Some e0 ->
  GPXPoint.elevation p1 = Some e1 ->
  GPXPoint.time p1 = Some t1 ->
  let segmentDistance :=
    turf_distance lib (nth (S j) coordinates (0, 0))
                      (nth (S j + 1) coordinates (0, 0)) in
  let noisySpeed := speedKmh * (0.8 + random_variation w (S j) * 0.4) in
  let segmentSpeed :=
    if withDefault addNoise true
    then noisySpeed * calculateSpeedAdjustmentForElevation (e1 - e0) segmentDistance
    else speedKmh in
  GPXPoint.time p2 =
  Some (TimeClip (IZR t1 + segmentDistance / segmentSpeed * 3600 * 1000
                  + legacyPauseMs w (withDefault pauseDuration 0) (S j))).
Proof.
  intros out H0 H1 H2 He0 He1 Ht1 segmentDistance noisySpeed segmentSpeed.
  assert (Hlen : (S (S j) < length coordinates)%nat).
  { rewrite <- (generateTrackPoints_length lib w coordinates startTime speedKmh
                  elevationGain elevationProfile addNoise pauseDuration).
    apply nth_error_Some. fold out. congruence. }
  unfold out in H0, H1, H2.
  rewrite generateTrackPoints_nth_error in H0, H1, H2 by lia.
  injection H0 as <-. injection H1 as <-. injection H2 as <-.
  cbn [legacyPoint GPXPoint.elevation GPXPoint.time] in *.
  injection Ht1 as <-.
  cbn [legacyClock]. do 3 f_equal.
  unfold legacySegmentSpeed, legacyPrevious.
  rewrite He0, He1. reflexivity.
Qed.

Lemma orDefault_nonzero (v d : R) : v <> 0 -> orDefault (Some v) d = v.
Proof.
  intros Hv. unfold orDefault.
  destruct (Req_dec_T v 0) as [H | _]; [contradiction | reflexivity].
Qed.

(** The elevations of the three-point route that climbs 1000 m, every draw
    being 1/2: 0 m, 500 m and 1000 m. *)
Lemma threeCoordinates_elevation :
  legacyElevation quietWorld threeCoordinates (Some 1000) flat 0 = Some 0 /\
  legacyElevation quietWorld threeCoordinates (Some 1000) flat 1 = Some 500 /\
  legacyElevation quietWorld threeCoordinates (Some 1000) flat 2 = Some 1000.
Proof.
  unfold legacyElevation, calculateElevation.
  cbn [isDefined orb withDefault ELEVATION_PROFILES fst snd
       quietWorld random_calculateElevation length threeCoordinates].
  rewrite orDefault_nonzero by lra.
  simpl INR.
  replace (0 / (1 + 1 + 1 - 1) * PI * 2) with 0 by lra.
  replace (1 / (1 + 1 + 1 - 1) * PI * 2) with PI by lra.
  replace ((1 + 1) / (1 + 1 + 1 - 1) * PI * 2) with (2 * PI) by lra.
  rewrite sin_0, sin_PI, sin_2PI.
  rewrite (Math_round_whole _ 0), (Math_round_whole _ 500),
    (Math_round_whole _ 1000) by lra.
  repeat split.
Qed.

(** Without [addNoise] no grade multiplier is applied at all: the
    three-point route above climbs 500 m over each kilometre, a
    multiplier of 0.6, and at 10 km/h the third point still comes
    1 / 10 h after the second, not 1 / (10 * 0.6) h. *)
Lemma legacy_grade_skipped_without_noise :
  exists p0 p1 p2 e0 e1 t1,
    let out :=
      generateTrackPoints unitLibrary quietWorld threeCoordinates 0 10
        (Some 1000) (Some flat) (Some false) (Some 0) in
    nth_error out 0 = Some p0 /\
    nth_error out 1 = Some p1 /\
    nth_error out 2 = Some p2 /\
    GPXPoint.elevation p0 = Some e0 /\
    GPXPoint.elevation p1 = Some e1 /\
    GPXPoint.time p1 = Some t1 /\
    GPXPoint.time p2 = Some 720000%Z /\
    TimeClip (IZR t1 +
              1 / (10 * calculateSpeedAdjustmentForElevation (e1 - e0) 1)
              * 3600 * 1000) = 960000%Z.
Proof.
  destruct threeCoordinates_elevation as (He0 & He1 & He2).
  assert (Hpause : forall i, legacyPauseMs quietWorld 0 i = 0).
  { intros i. unfold legacyPauseMs.
    destruct (Rgt_dec 0 0) as [H | _]; [lra | reflexivity]. }
  assert (Hc1 : legacyClock unitLibrary quietWorld threeCoordinates 0 10
                  (Some 1000) flat false 0 1 = 360000%Z).
  { cbn [legacyClock]. rewrite Hpause.
    apply TimeClip_IZR.
    unfold legacySegmentDistance, legacySegmentSpeed. simpl turf_distance. lra. }
  assert (Hc2 : legacyClock unitLibrary quietWorld threeCoordinates 0 10
                  (Some 1000) flat false 0 2 = 720000%Z).
  { change (legacyClock unitLibrary quietWorld threeCoordinates 0 10
              (Some 1000) flat false 0 2)
      with (TimeClip
              (IZR (legacyClock unitLibrary quietWorld threeCoordinates 0 10
                      (Some 1000) flat false 0 1)
               + legacySegmentDistance unitLibrary threeCoordinates 1 /
                 legacySegmentSpeed unitLibrary quietWorld threeCoordinates 10
                   (Some 1000) flat false 1 * 3600 * 1000
               + legacyPauseMs quietWorld 0 1)).
    rewrite Hc1, Hpause.
    apply TimeClip_IZR.
    unfold legacySegmentDistance, legacySegmentSpeed. simpl turf_distance. lra. }
  do 3 eexists. exists 0, 500, 360000%Z.
  cbv zeta.
  rewrite !generateTrackPoints_nth_error by (simpl; lia).
  repeat split; try reflexivity.
  - cbn [legacyPoint GPXPoint.elevation withDefault]. exact He0.
  - cbn [legacyPoint GPXPoint.elevation withDefault]. exact He1.
  - cbn [legacyPoint GPXPoint.time withDefault]. f_equal. exact Hc1.
  - cbn [legacyPoint GPXPoint.time withDefault]. f_equal. exact Hc2.
  - assert (Hadj : calculateSpeedAdjustmentForElevation (500 - 0) 1 = 0.6).
    { unfold calculateSpeedAdjustmentForElevation.
      destruct (Req_dec_T 1 0) as [H | _]; [lra |].
      destruct (Rgt_dec _ _) as [_ | H]; [reflexivity | lra]. }
    rewrite Hadj. apply TimeClip_IZR. lra.
Qed.

(** C9, at a failing input.  On the route of three coordinates with an
    elevation gain of 1000 m, at 10 km/h and with [addNoise] on, the
    first segment climbs some 500 m over a distance [d] of at most 2 km:
    the grade multiplier of that climb and that distance is 0.6, and the
    claim has it multiplied into the speed of the segment.  The loop
    computes the multiplier at index [i] from the climb of the segment
    that arrives at [i] and applies it to the segment that leaves [i];
    at index 0 no point precedes, so the first segment gets no
    multiplier: it takes [d / (10 * variation)] hours, at most
    450000 * d ms, where the claim asks for more than 500000 * d ms. *)
Theorem legacy_grade_misses_first_segment (lib : Library) (w : Ambient) :
  let d := turf_distance lib (0, 0) (0.01, 0) in
  let variation := 0.8 + random_variation w 0 * 0.4 in
  0 < d <= 2 ->
  0 <= random_calculateElevation w 0 < 1 ->
  0 <= random_calculateElevation w 1 < 1 ->
  0 <= random_variation w 0 < 1 ->
  exists p0 p1 e0 e1 t1,
    let out :=
      generateTrackPoints lib w threeCoordinates 0 10 (Some 1000) None None None in
    nth_error out 0 = Some p0 /\
    nth_error out 1 = Some p1 /\
    GPXPoint.elevation p0 = Some e0 /\
    GPXPoint.elevation p1 = Some e1 /\
    GPXPoint.time p0 = Some 0%Z /\
    GPXPoint.time p1 = Some t1 /\
    calculateSpeedAdjustmentForElevation (e1 - e0) d = 0.6 /\
    t1 = TimeClip (d / (10 * variation) * 3600 * 1000) /\
    IZR t1 <= 450000 * d /\
    500000 * d < d / (10 * variation * 0.6) * 3600 * 1000.
Proof.
  intros d variation Hd Hr0 Hr1 Hv.
  assert (Hvar : 0.8 <= variation < 1.2) by (unfold variation; lra).
  do 5 eexists. cbv zeta.
  split; [apply generateTrackPoints_nth_error; simpl; lia |].
  split; [apply generateTrackPoints_nth_error; simpl; lia |].
  split; [reflexivity |]. split; [reflexivity |].
  split; [reflexivity |]. split; [reflexivity |].
  assert (Htime : legacyClock lib w threeCoordinates 0 10 (Some 1000)
                    (withDefault None flat) (withDefault None true)
                    (withDefault None 0) 1 =
                  TimeClip (d / (10 * variation) * 3600 * 1000)).
  { cbn [legacyClock withDefault]. f_equal.
    unfold legacyPauseMs. destruct (Rgt_dec 0 0) as [H | _]; [lra |].
    unfold legacySegmentSpeed, legacyPrevious, legacySegmentDistance.
    cbn [Nat.add nth threeCoordinates].
    fold d. fold variation.
    destruct (legacyElevation w threeCoordinates (Some 1000) flat 0); simpl; lra. }
  assert (Hx : 0 <= d / (10 * variation) * 3600 * 1000 <= 450000 * d).
  { assert (Hq : d / (10 * variation) * (10 * variation) = d) by (field; lra).
    assert (Hq0 : 0 <= d / (10 * variation)).
    { apply Rmult_le_pos; [lra |]. left. apply Rinv_0_lt_compat. lra. }
    nra. }
  split; [| split; [exact Htime | split]].
  - unfold legacyElevation, calculateElevation.
    cbn [isDefined orb withDefault ELEVATION_PROFILES fst snd length
         threeCoordinates].
    rewrite orDefault_nonzero by lra.
    simpl INR.
    replace (0 / (1 + 1 + 1 - 1) * PI * 2) with 0 by lra.
    replace (1 / (1 + 1 + 1 - 1) * PI * 2) with PI by lra.
    rewrite sin_0, sin_PI.
    match goal with
    | |- calculateSpeedAdjustmentForElevation (Math_round ?a - Math_round ?b) _ = _ =>
        pose proof (Math_round_near a) as Ha; pose proof (Math_round_near b) as Hb;
        set (e1 := Math_round a) in *; set (e0 := Math_round b) in *
    end.
    assert (Hclimb : 489 < e1 - e0) by lra.
    unfold calculateSpeedAdjustmentForElevation.
    destruct (Req_dec_T d 0) as [H | _]; [lra |].
    assert (Hq : (e1 - e0) / 1000 / d * d = (e1 - e0) / 1000) by (field; lra).
    destruct (Rgt_dec ((e1 - e0) / 1000 / d) 0.05) as [_ | Hn]; [reflexivity |].
    exfalso. apply Hn. unfold Rgt. nra.
  - rewrite Htime. unfold TimeClip. rewrite ToInteger_nonneg by lra.
    pose proof (Zfloor_bound (d / (10 * variation) * 3600 * 1000)). lra.
  - assert (Hq : d / (10 * variation * 0.6) * (10 * variation * 0.6) = d)
      by (field; lra).
    assert (Hq0 : 0 < d / (10 * variation * 0.6)).
    { apply Rmult_lt_0_compat; [lra |]. apply Rinv_0_lt_compat. lra. }
    nra.
Qed.

Lemma legacy_grade_misses_first_segment_witness :
  exists p0 p1 e0 e1 t1,
    let out :=
      generateTrackPoints unitLibrary quietWorld threeCoordinates 0 10 (Some 1000)
        None None None in
    nth_error out 0 = Some p0 /\
    nth_error out 1 = Some p1 /\
    GPXPoint.elevation p0 = Some e0 /\
    GPXPoint.elevation p1 = Some e1 /\
    GPXPoint.time p0 = Some 0%Z /\
    GPXPoint.time p1 = Some t1 /\
    calculateSpeedAdjustmentForElevation (e1 - e0) 1 = 0.6 /\
    t1 = TimeClip (1 / (10 * (0.8 + 1 / 2 * 0.4)) * 3600 * 1000) /\
    IZR t1 <= 450000 * 1 /\
    500000 * 1 < 1 / (10 * (0.8 + 1 / 2 * 0.4) * 0.6) * 3600 * 1000.
Proof.
  apply (legacy_grade_misses_first_segment unitLibrary quietWorld); simpl; lra.
Defined.

(** ** Speed resolution *)







(** ** XML escaping *)

Open Scope string_scope.














Close Scope string_scope.

(** * Further properties *)

(** ** Pace and speed *)

(** X1. [paceToSpeed] and [speedToPace] are one and the same map, 60
    divided by the value: on positive values it is positive and reverses
    the order, a faster pace being a higher speed. *)
Theorem pace_speed_order_reversing (x y : R) :
  0 < x -> x <= y ->
  paceToSpeed x = speedToPace x /\
  0 < paceToSpeed x /\
  paceToSpeed y <= paceToSpeed x /\
  speedToPace y <= speedToPace x.
Proof.
  intros Hx Hxy. unfold paceToSpeed, speedToPace.
  assert (Hinv : / y <= / x) by (apply Rinv_le_contravar; assumption).
  assert (Hpos : 0 < / x) by now apply Rinv_0_lt_compat.
  unfold Rdiv. repeat split; lra.
Qed.

Lemma pace_speed_order_reversing_witness :
  paceToSpeed 5 = speedToPace 5 /\
  0 < paceToSpeed 5 /\
  paceToSpeed 6 <= paceToSpeed 5 /\
  speedToPace 6 <= speedToPace 5.
Proof. apply (pace_speed_order_reversing 5 6); lra. Defined.

Lemma Rleb_true (x y : R) : Rleb x y = true <-> x <= y.
Proof. unfold Rleb. destruct (Rle_dec x y); split; intros; congruence || lra. Qed.

Lemma Rleb_div_60 (bound pace : R) :
  0 < pace -> 0 < bound ->
  Rleb bound (60 / pace) = Rleb pace (60 / bound) /\
  Rleb (60 / pace) bound = Rleb (60 / bound) pace.
Proof.
  intros Hp Hb.
  assert (H1 : 60 / pace * pace = 60) by (field; lra).
  assert (H2 : 60 / bound * bound = 60) by (field; lra).
  assert (Hq : 0 < 60 / pace) by (apply Rdiv_lt_0_compat; lra).
  assert (Hr : 0 < 60 / bound) by (apply Rdiv_lt_0_compat; lra).
  unfold Rleb.
  split;
    repeat match goal with |- context [Rle_dec ?a ?b] => destruct (Rle_dec a b) end;
    try reflexivity; exfalso; nra.
Qed.

(** X2. The pace limits are the speed limits converted: a pace other than
    zero is valid for an activity exactly when the speed it stands for
    is. *)
Theorem isValidPace_iff_speed (pace : R) (activityType : ActivityType) :
  pace <> 0 ->
  isValidPace pace activityType = isValidSpeed (paceToSpeed pace) activityType.
Proof.
  intros Hp. unfold paceToSpeed.
  destruct (Rlt_le_dec 0 pace) as [Hpos | Hneg].
  - destruct activityType; simpl; [| | reflexivity].
    + destruct (Rleb_div_60 3 pace Hpos ltac:(lra)) as [-> _].
      destruct (Rleb_div_60 25 pace Hpos ltac:(lra)) as [_ ->].
      replace (60 / 3) with 20 by lra. replace (60 / 25) with 2.4 by lra.
      apply andb_comm.
    + destruct (Rleb_div_60 5 pace Hpos ltac:(lra)) as [-> _].
      destruct (Rleb_div_60 60 pace Hpos ltac:(lra)) as [_ ->].
      replace (60 / 5) with 12 by lra. replace (60 / 60) with 1 by lra.
      apply andb_comm.
  - assert (Hlt : pace < 0) by lra.
    assert (Hq : 60 / pace < 0).
    { assert (H : 60 / pace * pace = 60) by (field; lra).
      destruct (Rlt_le_dec (60 / pace) 0); [assumption | exfalso; nra]. }
    destruct activityType; simpl; unfold Rleb;
      repeat match goal with |- context [Rle_dec ?a ?b] => destruct (Rle_dec a b) end;
      try reflexivity; exfalso; lra.
Qed.

Lemma isValidPace_iff_speed_witness :
  isValidPace 6 Run = isValidSpeed (paceToSpeed 6) Run.
Proof. apply (isValidPace_iff_speed 6 Run). lra. Defined.

(** X3. The default speed and the default pace of Run and of Bike stand
    for each other and pass their own validation. *)
Theorem defaults_valid_and_consistent (activityType : ActivityType) :
  activityType <> Walk ->
  speedToPace (getDefaultSpeed activityType) = getDefaultPace activityType /\
  isValidSpeed (getDefaultSpeed activityType) activityType = true /\
  isValidPace (getDefaultPace activityType) activityType = true.
Proof.
  intros Ha. destruct activityType; [| | contradiction]; simpl;
    unfold speedToPace, Rleb;
    repeat match goal with |- context [Rle_dec ?a ?b] => destruct (Rle_dec a b) end;
    repeat split; try reflexivity; try lra.
Qed.

Lemma defaults_valid_and_consistent_witness :
  speedToPace (getDefaultSpeed Bike) = getDefaultPace Bike /\
  isValidSpeed (getDefaultSpeed Bike) Bike = true /\
  isValidPace (getDefaultPace Bike) Bike = true.
Proof. apply (defaults_valid_and_consistent Bike). discriminate. Defined.


(** ** Durations and paces as text *)

Lemma Zfloor_div_frac (n k : Z) (f : R) :
  (0 < k)%Z -> 0 <= f < 1 ->
  Zfloor ((IZR n + f) / IZR k) = (n / k)%Z.
Proof.
  intros Hk [Hf0 Hf1].
  assert (HkR : 0 < IZR k) by now apply IZR_lt.
  pose proof (Z.mod_pos_bound n k Hk) as [Hr0 Hr1].
  assert (Hdiv : IZR n = IZR k * IZR (n / k) + IZR (n mod k)).
  { rewrite <- mult_IZR, <- plus_IZR. f_equal. apply Z.div_mod. lia. }
  assert (Hr0' : 0 <= IZR (n mod k)) by now apply IZR_le.
  assert (Hr1' : IZR (n mod k) <= IZR k - 1).
  { rewrite <- minus_IZR. apply IZR_le. lia. }
  apply Zfloor_eq.
  replace ((IZR n + f) / IZR k)
    with (IZR (n / k) + (IZR (n mod k) + f) / IZR k)
    by (rewrite Hdiv; field; lra).
  assert (Hq : 0 <= (IZR (n mod k) + f) / IZR k < 1).
  { split.
    - apply Rmult_le_pos; [lra |]. left. now apply Rinv_0_lt_compat.
    - apply Rmult_lt_reg_r with (IZR k); [assumption |].
      unfold Rdiv. rewrite Rmult_assoc, Rinv_l by lra. lra. }
  lra.
Qed.

Lemma JS_rem_frac (n k : Z) (f : R) :
  (0 <= n)%Z -> (0 < k)%Z -> 0 <= f < 1 ->
  JS_rem (IZR n + f) (IZR k) = IZR (n mod k) + f.
Proof.
  intros Hn Hk Hf. unfold JS_rem.
  assert (HkR : 0 < IZR k) by now apply IZR_lt.
  assert (HnR : 0 <= IZR n) by now apply IZR_le.
  rewrite ToInteger_nonneg.
  - rewrite Zfloor_div_frac by assumption.
    assert (Hdiv : IZR n = IZR k * IZR (n / k) + IZR (n mod k)).
    { rewrite <- mult_IZR, <- plus_IZR. f_equal. apply Z.div_mod. lia. }
    lra.
  - apply Rmult_le_pos; [lra |]. left. now apply Rinv_0_lt_compat.
Qed.

Lemma Math_round_frac (s : Z) (f : R) :
  0 <= f < 1 ->
  Math_round (IZR s + f) = IZR (s + (if Rlt_dec f 0.5 then 0 else 1)).
Proof.
  intros [Hf0 Hf1]. unfold Math_round. f_equal.
  apply Zfloor_eq.
  destruct (Rlt_dec f 0.5); rewrite plus_IZR; simpl; lra.
Qed.

Lemma whole_toString_IZR (z : Z) : whole_toString (IZR z) = Z_toString z.
Proof. unfold whole_toString. now rewrite ZfloorZ. Qed.

Open Scope string_scope.

(** X4. [formatDuration] of [n] whole seconds and a fraction [f] shows the
    hours, minutes and seconds of [n] (the hours only when there are
    some), except that the seconds are one more once the fraction reaches a
    half: the seconds are rounded after the minutes were cut, so 59.5 s
    reads 0:60. *)
Theorem formatDuration_fields (n : Z) (f : R) :
  (0 <= n)%Z -> 0 <= f < 1 ->
  let hours := (n / 3600)%Z in
  let minutes := (n mod 3600 / 60)%Z in
  let seconds := (n mod 60 + (if Rlt_dec f 0.5 then 0 else 1))%Z in
  formatDuration (IZR n + f) =
  if (0 <? hours)%Z then
    template [ Z_toString hours; ":"; padStart 2 "0" (Z_toString minutes); ":";
               padStart 2 "0" (Z_toString seconds) ]
  else
    template [ Z_toString minutes; ":"; padStart 2 "0" (Z_toString seconds) ].
Proof.
  intros Hn Hf hours minutes seconds.
  unfold formatDuration, Math_floor. cbv zeta.
  rewrite (Zfloor_div_frac n 3600 f) by (lia || assumption).
  rewrite (JS_rem_frac n 3600 f), (JS_rem_frac n 60 f) by (lia || assumption).
  rewrite (Zfloor_div_frac (n mod 3600) 60 f) by (lia || assumption).
  rewrite (Math_round_frac (n mod 60) f) by assumption.
  rewrite !whole_toString_IZR.
  fold hours minutes seconds.
  destruct (Rgt_dec (IZR hours) 0) as [Hh | Hh];
    destruct (Z.ltb_spec 0 hours) as [Hz | Hz]; try reflexivity.
  - apply lt_IZR in Hh. lia.
  - exfalso. apply Hh. now apply IZR_lt.
Qed.

Lemma formatDuration_fields_witness :
  formatDuration (IZR 3661 + 0) = "1:01:01" /\
  formatDuration (IZR 59 + 0.5) = "0:60".
Proof.
  split.
  - rewrite (formatDuration_fields 3661 0) by (lia || lra).
    destruct (Rlt_dec 0 0.5); [reflexivity | lra].
  - rewrite (formatDuration_fields 59 0.5) by (lia || lra).
    destruct (Rlt_dec 0.5 0.5); [lra | reflexivity].
Defined.

(** X5. [formatPace] of [m] minutes and [x] seconds per kilometre
    (0 <= x < 60) shows [m], a colon and [x] rounded to a whole second on
    two digits; from 59.5 s on the rounded seconds are 60 and are shown as
    60, the minutes staying [m]. *)
Theorem formatPace_fields (m : Z) (x : R) :
  0 <= x < 60 ->
  formatPace (IZR m + x / 60) =
  template [ Z_toString m; ":"; padStart 2 "0" (Z_toString (Zfloor (x + 0.5)));
             " min/km" ] /\
  (59.5 <= x -> Zfloor (x + 0.5) = 60%Z).
Proof.
  intros [Hx0 Hx1]. split.
  - unfold formatPace, Math_floor, Math_round. cbv zeta.
    assert (Hfloor : Zfloor (IZR m + x / 60) = m)
      by (apply Zfloor_eq; lra).
    rewrite Hfloor.
    replace ((IZR m + x / 60 - IZR m) * 60) with x by lra.
    now rewrite !whole_toString_IZR.
  - intros Hhalf. apply Zfloor_eq. simpl. lra.
Qed.

Lemma formatPace_fields_witness :
  formatPace (IZR 4 + 15 / 60) = "4:15 min/km" /\
  formatPace (IZR 5 + 59.7 / 60) = "5:60 min/km".
Proof.
  split.
  - destruct (formatPace_fields 4 15 ltac:(lra)) as [-> _].
    replace (Zfloor (15 + 0.5)) with 15%Z
      by (symmetry; apply Zfloor_eq; simpl; lra).
    reflexivity.
  - destruct (formatPace_fields 5 59.7 ltac:(lra)) as [-> Hsixty].
    rewrite Hsixty by lra. reflexivity.
Defined.

Close Scope string_scope.

(** ** Estimated duration *)

Lemma Math_round_le (x y : R) : x <= y -> Math_round x <= Math_round y.
Proof.
  intros H. unfold Math_round. apply IZR_le, Zfloor_le. lra.
Qed.

(** X6. [estimateActivityDuration] is the travel time at the table speed
    of the activity (running 10, cycling 20, walking 5 km/h) rounded to a
    whole second: it is within half a second of that time, it never
    decreases when the distance grows, and it is never negative for a
    distance that is not. *)
Theorem estimateActivityDuration_accurate_monotone
    (activityType : RouteActivityType) (distance longer : R) :
  let exact := distance / 1000 / averageSpeeds activityType * 3600 in
  exact - 0.5 < estimateActivityDuration distance activityType <= exact + 0.5 /\
  (distance <= longer ->
   estimateActivityDuration distance activityType <=
   estimateActivityDuration longer activityType) /\
  (0 <= distance -> 0 <= estimateActivityDuration distance activityType).
Proof.
  cbv zeta. unfold estimateActivityDuration.
  assert (Hspeed : 0 < averageSpeeds activityType)
    by (destruct activityType; simpl; lra).
  assert (Hmono : forall d1 d2, d1 <= d2 ->
            d1 / 1000 / averageSpeeds activityType * 3600 <=
            d2 / 1000 / averageSpeeds activityType * 3600).
  { intros d1 d2 H. unfold Rdiv.
    assert (Hi : 0 < / averageSpeeds activityType) by now apply Rinv_0_lt_compat.
    nra. }
  split; [apply Math_round_near |]. split.
  - intros H. apply Math_round_le, Hmono, H.
  - intros H. apply Math_round_nonneg.
    specialize (Hmono 0 distance H).
    unfold Rdiv in Hmono at 1 2. rewrite !Rmult_0_l in Hmono. exact Hmono.
Qed.

Lemma estimateActivityDuration_accurate_monotone_witness :
  estimateActivityDuration 5000 running <= estimateActivityDuration 10000 running /\
  0 <= estimateActivityDuration 5000 running.
Proof.
  destruct (estimateActivityDuration_accurate_monotone running 5000 10000)
    as (_ & Hmono & Hpos).
  split; [apply Hmono | apply Hpos]; lra.
Defined.


(** ** The name of the downloaded file *)

Lemma String_length_mapString (f : ascii -> ascii) (text : string) :
  String.length (mapString f text) = String.length text.
Proof. induction text as [| c text IH]; simpl; [reflexivity | now rewrite IH]. Qed.

Lemma list_ascii_of_mapString (f : ascii -> ascii) (text : string) :
  list_ascii_of_string (mapString f text) = map f (list_ascii_of_string text).
Proof. induction text as [| c text IH]; simpl; [reflexivity | now rewrite IH]. Qed.

Lemma mapString_mapString (f g : ascii -> ascii) (text : string) :
  mapString f (mapString g text) = mapString (fun c => f (g c)) text.
Proof. induction text as [| c text IH]; simpl; [reflexivity | now rewrite IH]. Qed.

Lemma mapString_id_on (f : ascii -> ascii) (text : string) :
  (forall c, In c (list_ascii_of_string text) -> f c = c) ->
  mapString f text = text.
Proof.
  induction text as [| c text IH]; simpl; intros H; [reflexivity |].
  rewrite H by now left. f_equal. apply IH. intros x Hx. apply H. now right.
Qed.

(** Whatever the character, what becomes of it is a safe one; a safe one
    stays as it is. *)
Lemma sanitized_char (c : ascii) :
  isFileNameChar
    (toLowerCase_char (if isAlphanumeric c then c else "_"%char)) = true /\
  (isFileNameChar c = true ->
   toLowerCase_char (if isAlphanumeric c then c else "_"%char) = c).
Proof.
  destruct c as [[] [] [] [] [] [] [] []];
    (split; [reflexivity | intros H; solve [reflexivity | discriminate H]]).
Qed.

(** X7. The name of the downloaded file is the activity name, character by
    character, with every character other than a letter or a digit of
    ASCII turned into an underscore and every capital into its small
    letter, then [.gpx]: it has the length of the name plus four, holds
    only small letters, digits and underscores before the extension, and
    a name made of those alone is kept as it is. *)
Theorem downloadFileName_safe (name : string) :
  exists stem,
    downloadFileName name = String.append stem ".gpx" /\
    String.length stem = String.length name /\
    (forall c, In c (list_ascii_of_string stem) -> isFileNameChar c = true) /\
    ((forall c, In c (list_ascii_of_string name) -> isFileNameChar c = true) ->
     stem = name).
Proof.
  unfold downloadFileName, toLowerCase.
  eexists. split; [reflexivity |].
  rewrite mapString_mapString.
  split; [apply String_length_mapString |]. split.
  - intros c Hc. rewrite list_ascii_of_mapString in Hc.
    apply in_map_iff in Hc. destruct Hc as (x & <- & _).
    apply sanitized_char.
  - intros Hsafe. apply mapString_id_on.
    intros c Hc. apply sanitized_char, Hsafe, Hc.
Qed.

Lemma downloadFileName_safe_witness :
  exists stem,
    downloadFileName "morning_run_5k" = String.append stem ".gpx" /\
    stem = "morning_run_5k"%string.
Proof.
  destruct (downloadFileName_safe "morning_run_5k") as (stem & Hname & _ & _ & Hkept).
  exists stem. split; [exact Hname |].
  apply Hkept. intros c Hc. simpl in Hc.
  repeat (destruct Hc as [<- | Hc]; [reflexivity |]).
  contradiction.
Defined.

(** ** Great-circle distance *)

Lemma haversineDistance_sym (lat1 lng1 lat2 lng2 : R) :
  haversineDistance lat1 lng1 lat2 lng2 = haversineDistance lat2 lng2 lat1 lng1.
Proof.
  unfold haversineDistance. cbv zeta.
  replace ((lat1 - lat2) * PI / 180 / 2) with (- ((lat2 - lat1) * PI / 180 / 2))
    by lra.
  replace ((lng1 - lng2) * PI / 180 / 2) with (- ((lng2 - lng1) * PI / 180 / 2))
    by lra.
  rewrite !sin_neg.
  set (s := sin ((lat2 - lat1) * PI / 180 / 2)).
  set (t := sin ((lng2 - lng1) * PI / 180 / 2)).
  replace (- s * - s + cos (lat2 * PI / 180) * cos (lat1 * PI / 180) * - t * - t)
    with (s * s + cos (lat1 * PI / 180) * cos (lat2 * PI / 180) * t * t) by ring.
  reflexivity.
Qed.

(** One degree along the equator. *)
Lemma haversineDistance_equator : haversineDistance 0 0 0 1 = 6371 * (PI / 180).
Proof.
  unfold haversineDistance. cbv zeta.
  replace ((0 - 0) * PI / 180 / 2) with 0 by lra.
  replace (0 * PI / 180) with 0 by lra.
  rewrite sin_0, cos_0.
  set (x := (1 - 0) * PI / 180 / 2).
  pose proof PI_RGT_0 as Hpi.
  assert (Hx : 0 < x < PI / 2) by (unfold x; lra).
  assert (Hs : 0 < sin x) by (apply sin_gt_0; lra).
  assert (Hc : 0 < cos x) by (apply cos_gt_0; lra).
  pose proof (sin2_cos2 x) as Hsc. unfold Rsqr in Hsc.
  replace (0 * 0 + 1 * 1 * sin x * sin x) with (sin x * sin x) by ring.
  replace (1 - sin x * sin x) with (cos x * cos x) by lra.
  rewrite !sqrt_square by lra.
  unfold Math_atan2.
  destruct (Rlt_dec 0 (cos x)) as [_ | H]; [| contradiction].
  change (sin x / cos x) with (tan x).
  rewrite atan_tan by lra.
  unfold x. lra.
Qed.

Lemma measurable_equator : measurable 0 0 0 1 /\ measurable 0 1 0 0.
Proof.
  pose proof PI_4 as Hpi. pose proof PI_RGT_0 as Hpos.
  unfold measurable.
  rewrite (haversineDistance_sym 0 1 0 0), haversineDistance_equator.
  repeat split; lra.
Qed.

(** X8. Between two measurable positions [haversineDistance] is never
    negative and is the same in both directions, and from a position to
    itself it is zero. *)
Theorem haversineDistance_distance (lat1 lng1 lat2 lng2 : R) :
  measurable lat1 lng1 lat2 lng2 ->
  0 <= haversineDistance lat1 lng1 lat2 lng2 /\
  haversineDistance lat2 lng2 lat1 lng1 = haversineDistance lat1 lng1 lat2 lng2 /\
  haversineDistance lat1 lng1 lat1 lng1 = 0.
Proof.
  intros _. split; [| split].
  - apply haversineDistance_nonneg.
  - apply haversineDistance_sym.
  - apply haversineDistance_same.
Qed.

Lemma haversineDistance_distance_witness :
  0 <= haversineDistance 0 0 0 1 /\
  haversineDistance 0 1 0 0 = haversineDistance 0 0 0 1 /\
  haversineDistance 0 0 0 0 = 0.
Proof.
  apply (haversineDistance_distance 0 0 0 1).
  exact (proj1 measurable_equator).
Defined.

(** ** Route distance *)

(** A loop that adds [h] of the points at [i - 1] and [i], from the index
    after a prefix [pre] on, adds the sum over the consecutive pairs. *)
Lemma fold_pairs {A : Type} (d : A) (h : A -> A -> R) (l pre : list A) (acc : R) :
  fold_left
    (fun total i => total + h (nth (i - 1) (pre ++ l) d) (nth i (pre ++ l) d))
    (seq (S (length pre)) (length l - 1)) acc =
  acc + pairSum h l.
Proof.
  revert pre acc. induction l as [| a l IH]; intros pre acc.
  - simpl. lra.
  - destruct l as [| b r].
    + simpl. lra.
    + replace (length (a :: b :: r) - 1)%nat with (S (length (b :: r) - 1))
        by (simpl; lia).
      cbn [seq fold_left].
      replace (pre ++ a :: b :: r) with ((pre ++ [a]) ++ b :: r)
        by (now rewrite <- app_assoc).
      replace (S (S (length pre))) with (S (length (pre ++ [a])))
        by (rewrite length_app; cbn [length]; lia).
      rewrite IH.
      replace (S (length pre) - 1)%nat with (length pre) by lia.
      assert (Hfirst : nth (length pre) ((pre ++ [a]) ++ b :: r) d = a).
      { rewrite <- app_assoc. rewrite app_nth2 by lia.
        now replace (length pre - length pre)%nat with 0%nat by lia. }
      assert (Hsecond : nth (S (length pre)) ((pre ++ [a]) ++ b :: r) d = b).
      { rewrite app_nth2 by (rewrite length_app; cbn [length]; lia).
        now replace (S (length pre) - length (pre ++ [a]))%nat with 0%nat
          by (rewrite length_app; cbn [length]; lia). }
      rewrite Hfirst, Hsecond.
      cbn [nth pairSum]. lra.
Qed.

Lemma calculateRouteDistance_pairSum (points : list Point.t) :
  calculateRouteDistance points = pairSum pointDistance points.
Proof.
  unfold calculateRouteDistance.
  pose proof (fold_pairs origin pointDistance points [] 0) as H.
  simpl app in H. simpl length in H.
  rewrite Rplus_0_l in H. exact H.
Qed.

Lemma pairSum_nonneg {A : Type} (h : A -> A -> R) (l : list A) :
  (forall a b, 0 <= h a b) -> 0 <= pairSum h l.
Proof.
  intros Hh. induction l as [| a [| b r] IH]; simpl; try lra.
  specialize (Hh a b). simpl in IH. lra.
Qed.

Lemma pairSum_cons2 {A : Type} (h : A -> A -> R) (a b : A) (r : list A) :
  pairSum h (a :: b :: r) = h a b + pairSum h (b :: r).
Proof. reflexivity. Qed.

(** The loop over a route with one more point adds the segment from the
    last point of the route to the new one. *)
Lemma pairSum_snoc {A : Type} (h : A -> A -> R) (d p : A) (l : list A) :
  l <> [] -> pairSum h (l ++ [p]) = pairSum h l + h (last l d) p.
Proof.
  induction l as [| a l IH]; intros Hne; [contradiction |].
  destruct l as [| b r].
  - simpl. lra.
  - change ((a :: b :: r) ++ [p]) with (a :: b :: (r ++ [p])).
    change (last (a :: b :: r) d) with (last (b :: r) d).
    rewrite !pairSum_cons2.
    change (b :: r ++ [p]) with ((b :: r) ++ [p]).
    rewrite IH by discriminate. lra.
Qed.

Lemma calculateRouteDistance_short (points : list Point.t) :
  (length points < 2)%nat -> calculateRouteDistance points = 0.
Proof.
  intros Hlen. rewrite calculateRouteDistance_pairSum.
  destruct points as [| a [| b r]]; simpl in Hlen; try reflexivity; lia.
Qed.

Lemma calculateRouteDistance_nonneg (points : list Point.t) :
  0 <= calculateRouteDistance points.
Proof.
  rewrite calculateRouteDistance_pairSum.
  apply pairSum_nonneg. intros a b. apply haversineDistance_nonneg.
Qed.

Lemma calculateRouteDistance_snoc (points : list Point.t) (p : Point.t) :
  points <> [] ->
  calculateRouteDistance (points ++ [p]) =
  calculateRouteDistance points + pointDistance (last points origin) p.
Proof.
  intros Hne. rewrite !calculateRouteDistance_pairSum.
  now apply pairSum_snoc.
Qed.

Lemma calculateRouteDistance_snoc_le (points : list Point.t) (p : Point.t) :
  calculateRouteDistance points <= calculateRouteDistance (points ++ [p]).
Proof.
  destruct points as [| a r].
  - rewrite !calculateRouteDistance_short by (simpl; lia). lra.
  - rewrite calculateRouteDistance_snoc by discriminate.
    pose proof (haversineDistance_nonneg
                  (Point.lat (last (a :: r) origin)) (Point.lng (last (a :: r) origin))
                  (Point.lat p) (Point.lng p)) as Hd.
    unfold pointDistance. lra.
Qed.

Lemma measurableRoute_eastward_back : measurableRoute (eastward ++ [origin]).
Proof.
  destruct measurable_equator as [Hout Hback].
  intros i Hi. destruct i as [| [| i]]; [exact Hout | exact Hback |].
  simpl in Hi. lia.
Qed.

(** X9. Along a route whose consecutive positions are measurable,
    [calculateRouteDistance] is 0 for fewer than two points and never
    negative, and one more point adds the distance from the last point
    to it, so that the distance of a route never decreases when the
    route goes on. *)
Theorem calculateRouteDistance_extends (points : list Point.t) (p : Point.t) :
  measurableRoute (points ++ [p]) ->
  ((length points < 2)%nat -> calculateRouteDistance points = 0) /\
  0 <= calculateRouteDistance points /\
  (points <> [] ->
   calculateRouteDistance (points ++ [p]) =
   calculateRouteDistance points + pointDistance (last points origin) p) /\
  calculateRouteDistance points <= calculateRouteDistance (points ++ [p]).
Proof.
  intros _. split; [| split; [| split]].
  - apply calculateRouteDistance_short.
  - apply calculateRouteDistance_nonneg.
  - apply calculateRouteDistance_snoc.
  - apply calculateRouteDistance_snoc_le.
Qed.

Lemma calculateRouteDistance_extends_witness :
  calculateRouteDistance (eastward ++ [origin]) =
    calculateRouteDistance eastward + pointDistance (last eastward origin) origin /\
  calculateRouteDistance eastward <= calculateRouteDistance (eastward ++ [origin]).
Proof.
  destruct (calculateRouteDistance_extends eastward origin
              measurableRoute_eastward_back) as (_ & _ & Hsnoc & Hle).
  split; [apply Hsnoc; discriminate | exact Hle].
Defined.

Lemma pairSum_map {A B : Type} (g : A -> B) (h : B -> B -> R) (l : list A) :
  pairSum h (map g l) = pairSum (fun a b => h (g a) (g b)) l.
Proof.
  induction l as [| a l IH]; [reflexivity |].
  destruct l as [| b r]; [reflexivity |].
  cbn [map] in *. rewrite !pairSum_cons2, IH. reflexivity.
Qed.

Lemma pairSum_scale {A : Type} (k : R) (h h' : A -> A -> R) (l : list A) :
  (forall a b, h' a b = k * h a b) -> pairSum h' l = k * pairSum h l.
Proof.
  intros Hk. induction l as [| a [| b r] IH]; simpl; try lra.
  simpl in IH. rewrite IH, Hk. lra.
Qed.

(** Over the reals the distance the hook [useRoutes] computes, in metres
    and with its own copy of the formula, is a thousand times
    [calculateRouteDistance] of the same positions; in binary64 the two
    agree up to rounding only. *)
Lemma calculateDistance_exact (points : list GPXPoint.t) :
  calculateDistance points =
  1000 * calculateRouteDistance (map positionOf points).
Proof.
  rewrite calculateRouteDistance_pairSum, pairSum_map.
  unfold calculateDistance.
  set (d := {| GPXPoint.lat := 0; GPXPoint.lng := 0;
               GPXPoint.elevation := None; GPXPoint.time := None |}).
  set (metres := fun prev curr : GPXPoint.t =>
         6371000 *
         (2 * Math_atan2
                (sqrt (sin ((GPXPoint.lat curr - GPXPoint.lat prev) * PI / 180 / 2) *
                       sin ((GPXPoint.lat curr - GPXPoint.lat prev) * PI / 180 / 2) +
                       cos (GPXPoint.lat prev * PI / 180) *
                       cos (GPXPoint.lat curr * PI / 180) *
                       sin ((GPXPoint.lng curr - GPXPoint.lng prev) * PI / 180 / 2) *
                       sin ((GPXPoint.lng curr - GPXPoint.lng prev) * PI / 180 / 2)))
                (sqrt (1 -
                       (sin ((GPXPoint.lat curr - GPXPoint.lat prev) * PI / 180 / 2) *
                        sin ((GPXPoint.lat curr - GPXPoint.lat prev) * PI / 180 / 2) +
                        cos (GPXPoint.lat prev * PI / 180) *
                        cos (GPXPoint.lat curr * PI / 180) *
                        sin ((GPXPoint.lng curr - GPXPoint.lng prev) * PI / 180 / 2) *
                        sin ((GPXPoint.lng curr - GPXPoint.lng prev) * PI / 180 / 2)))))).
  assert (Hscale : forall a b,
            metres a b = 1000 * pointDistance (positionOf a) (positionOf b)).
  { intros a b. unfold metres, pointDistance, haversineDistance, positionOf.
    cbn [Point.lat Point.lng]. lra. }
  rewrite <- (pairSum_scale 1000 _ metres points Hscale).
  destruct (Nat.ltb_spec (length points) 2) as [Hlt | Hge].
  - destruct points as [| a [| b r]]; simpl in Hlt; try reflexivity; lia.
  - pose proof (fold_pairs d metres points [] 0) as H.
    simpl app in H. simpl length in H. rewrite Rplus_0_l in H.
    exact H.
Qed.

Lemma measurableRoute_equatorTrack :
  measurableRoute (map positionOf (equatorTrack ++ [equatorStart])).
Proof.
  destruct measurable_equator as [Hout Hback].
  intros i Hi. destruct i as [| [| i]]; [exact Hout | exact Hback |].
  simpl in Hi. lia.
Qed.

(** X10. Along a saved route whose consecutive positions are measurable,
    the distance the hook [useRoutes] computes is 0 for fewer than two
    points, never negative, and never less when the route goes on by
    one more point. *)
Theorem calculateDistance_extends (points : list GPXPoint.t) (p : GPXPoint.t) :
  measurableRoute (map positionOf (points ++ [p])) ->
  ((length points < 2)%nat -> calculateDistance points = 0) /\
  0 <= calculateDistance points /\
  calculateDistance points <= calculateDistance (points ++ [p]).
Proof.
  intros _. rewrite !calculateDistance_exact, map_app. cbn [map].
  split; [| split].
  - intros Hlen. rewrite calculateRouteDistance_short; [lra |].
    now rewrite length_map.
  - pose proof (calculateRouteDistance_nonneg (map positionOf points)). lra.
  - pose proof (calculateRouteDistance_snoc_le (map positionOf points)
                  (positionOf p)).
    lra.
Qed.

Lemma calculateDistance_extends_witness :
  0 <= calculateDistance equatorTrack /\
  calculateDistance equatorTrack <= calculateDistance (equatorTrack ++ [equatorStart]).
Proof.
  destruct (calculateDistance_extends equatorTrack equatorStart
              measurableRoute_equatorTrack) as (_ & Hpos & Hle).
  split; [exact Hpos | exact Hle].
Defined.


(** ** The elevation lookup, request by request *)

Lemma positionOf_eta (p : Point.t) :
  {| Point.lat := Point.lat p; Point.lng := Point.lng p |} = p.
Proof. now destruct p. Qed.

Lemma isWhole_Math_round (x : R) : isWhole (Math_round x).
Proof. now exists (Zfloor (x + 0.5)). Qed.

Lemma roundedElevations_elevates (points : list Point.t) (elevations : list R) :
  length elevations = length points ->
  elevates points (roundedElevations points elevations).
Proof.
  unfold elevates, roundedElevations.
  revert elevations. induction points as [| p points IH]; intros [| e elevations] Hlen;
    simpl in Hlen; try discriminate.
  - split; [reflexivity | constructor].
  - destruct (IH elevations ltac:(lia)) as [Hpos Hwhole].
    cbn [combine map]. split.
    + rewrite Hpos. unfold positionOfElevated at 1. cbn.
      now rewrite positionOf_eta.
    + constructor; [apply isWhole_Math_round | assumption].
Qed.

(** The loop over the results of a response with as many results as
    points: it goes through exactly when no result is [null]. *)
Lemma roundResults_resolved (points : list Point.t) (results : list (option R))
    (out : list PointWithElevation.t) :
  length results = length points ->
  mapM (fun '(point, result) =>
          match result with
          | None => Rejected TypeError
          | Some elevation =>
              Resolved
                {| PointWithElevation.lat := Point.lat point;
                   PointWithElevation.lng := Point.lng point;
                   PointWithElevation.ele := Math_round elevation |}
          end)
       (combine points results) = Resolved out <->
  exists elevations,
    results = map Some elevations /\
    out = roundedElevations points elevations.
Proof.
  revert results out.
  induction points as [| p points IH]; intros [| r results] out Hlen;
    simpl in Hlen; try discriminate.
  - simpl. split.
    + intros H. injection H as <-. now exists [].
    + intros ([| e elevations] & Hres & ->); [reflexivity | discriminate].
  - cbn [combine mapM]. split.
    + intros H. destruct r as [e |]; [| discriminate].
      cbn [bind] in H.
      destruct (mapM _ (combine points results)) as [rest | err] eqn:Hrest;
        [| discriminate].
      cbn [bind] in H. injection H as <-.
      apply IH in Hrest; [| lia].
      destruct Hrest as (elevations & -> & ->).
      now exists (e :: elevations).
    + intros ([| e elevations] & Hres & ->); [discriminate |].
      injection Hres as -> ->.
      cbn [bind].
      assert (Hrest : mapM
                (fun '(point, result) =>
                   match result with
                   | None => Rejected TypeError
                   | Some elevation =>
                       Resolved
                         {| PointWithElevation.lat := Point.lat point;
                            PointWithElevation.lng := Point.lng point;
                            PointWithElevation.ele := Math_round elevation |}
                   end)
                (combine points (map Some elevations)) =
              Resolved (roundedElevations points elevations)).
      { apply IH; [rewrite length_map in *; lia |]. now exists elevations. }
      rewrite Hrest. reflexivity.
Qed.

(** An answer with one elevation per point is taken as it is, rounded. *)
Lemma callOpenElevationAPI_rounded (status : nat) (statusText : string)
    (points : list Point.t) (elevations : list R) :
  length elevations = length points ->
  callOpenElevationAPI
    (Response true status statusText (Json (Some (map Some elevations)))) points =
  Resolved (roundedElevations points elevations).
Proof.
  intros Hlen. unfold callOpenElevationAPI.
  cbn [negb]. rewrite length_map.
  destruct (Nat.eqb_spec (length elevations) (length points)) as [_ | Hne];
    [| contradiction].
  cbn [negb]. apply roundResults_resolved; [now rewrite length_map |].
  now exists elevations.
Qed.

(** X11. [callOpenElevationAPI] resolves exactly when the request gets an
    answer with an ok status whose body is JSON with a [results] array of
    as many entries as points were sent, none of them [null]; it then
    returns the points in their order, each with the elevation of the
    entry at its index, rounded to a whole metre. *)
Theorem callOpenElevationAPI_resolves_iff (response : FetchResult)
    (points : list Point.t) (out : list PointWithElevation.t) :
  callOpenElevationAPI response points = Resolved out <->
  exists status statusText elevations,
    response = Response true status statusText (Json (Some (map Some elevations))) /\
    length elevations = length points /\
    out = roundedElevations points elevations.
Proof.
  unfold callOpenElevationAPI. split.
  - destruct response as [message | ok status statusText body]; [discriminate |].
    destruct ok; cbn [negb]; [| discriminate].
    destruct body as [| [results |]]; try discriminate.
    destruct (Nat.eqb_spec (length results) (length points)) as [Hlen | Hne];
      cbn [negb]; [| discriminate].
    intros H. apply roundResults_resolved in H; [| assumption].
    destruct H as (elevations & -> & ->).
    exists status, statusText, elevations.
    rewrite length_map in Hlen. now repeat split.
  - intros (status & statusText & elevations & -> & Hlen & ->).
    cbn [negb]. rewrite length_map.
    destruct (Nat.eqb_spec (length elevations) (length points)) as [_ | Hne];
      [| contradiction].
    cbn [negb]. apply roundResults_resolved; [now rewrite length_map |].
    now exists elevations.
Qed.

Lemma callOpenElevationAPI_elevates (response : FetchResult)
    (points : list Point.t) (out : list PointWithElevation.t) :
  callOpenElevationAPI response points = Resolved out -> elevates points out.
Proof.
  unfold callOpenElevationAPI.
  destruct response as [message | ok status statusText body]; [discriminate |].
  destruct ok; cbn [negb]; [| discriminate].
  destruct body as [| [results |]]; try discriminate.
  destruct (Nat.eqb_spec (length results) (length points)) as [Hlen | Hne];
    cbn [negb]; [| discriminate].
  intros H. apply roundResults_resolved in H; [| assumption].
  destruct H as (elevations & -> & ->).
  apply roundedElevations_elevates. now rewrite length_map in Hlen.
Qed.

Lemma generateFallbackElevation_elevates (random : nat -> R) (points : list Point.t) :
  elevates points (generateFallbackElevation random points).
Proof.
  unfold elevates, generateFallbackElevation.
  generalize 0%nat as start.
  induction points as [| p points IH]; intros start.
  - split; [reflexivity | constructor].
  - destruct (IH (S start)) as [Hpos Hwhole].
    cbn [length seq combine map]. split.
    + rewrite Hpos. unfold positionOfElevated at 1. cbn.
      now rewrite positionOf_eta.
    + constructor; [apply isWhole_Math_round | assumption].
Qed.

Lemma fetchAttempts_elevates (responses : nat -> FetchResult)
    (points : list Point.t) (remaining attempt : nat)
    (out : list PointWithElevation.t) :
  fetchAttempts responses points attempt remaining = Some out ->
  elevates points out.
Proof.
  revert attempt. induction remaining as [| r IH]; intros attempt H; simpl in H.
  - discriminate.
  - destruct (callOpenElevationAPI (responses attempt) points) as [res | e] eqn:Hcall.
    + injection H as <-. eapply callOpenElevationAPI_elevates; eassumption.
    + eapply IH; eassumption.
Qed.

Lemma fetchElevationBatch_elevates (responses : nat -> FetchResult)
    (random : nat -> R) (points : list Point.t) :
  exists out,
    fetchElevationBatch responses random points = Resolved out /\
    elevates points out.
Proof.
  unfold fetchElevationBatch.
  destruct (fetchAttempts responses points 0 (maxRetries + 1)) as [out |] eqn:H.
  - exists out. split; [reflexivity |]. eapply fetchAttempts_elevates; eassumption.
  - eexists. split; [reflexivity |]. apply generateFallbackElevation_elevates.
Qed.

Lemma firstn_add {A : Type} (l : list A) (i k : nat) :
  firstn (i + k) l = firstn i l ++ firstn k (skipn i l).
Proof.
  revert l. induction i as [| i IH]; intros l; [reflexivity |].
  destruct l as [| a l]; simpl.
  - now rewrite firstn_nil.
  - now rewrite IH.
Qed.

Lemma addElevationLoop_elevates (w : Ambient) (points : list Point.t)
    (fuel i : nat) (enrichedPoints : list PointWithElevation.t) :
  (length points - i <= fuel)%nat ->
  elevates (firstn i points) enrichedPoints ->
  exists out,
    addElevationLoop w points fuel i enrichedPoints = Resolved out /\
    elevates points out.
Proof.
  revert i enrichedPoints.
  induction fuel as [| fuel IH]; intros i enriched Hfuel Hinv.
  - cbn [addElevationLoop].
    destruct (Nat.ltb_spec i (length points)) as [Hlt | Hge]; [lia |].
    exists enriched. split; [reflexivity |].
    now rewrite firstn_all2 in Hinv.
  - cbn [addElevationLoop].
    destruct (Nat.ltb_spec i (length points)) as [Hlt | Hge].
    + destruct (fetchElevationBatch_elevates (fetch w i) (random_fallback w i)
                  (firstn BATCH_SIZE (skipn i points))) as (r & Hr & Hrpos & Hrwhole).
      rewrite Hr. cbn [bind].
      apply IH; [unfold BATCH_SIZE; lia |].
      destruct Hinv as [Hpos Hwhole]. split.
      * now rewrite map_app, Hpos, Hrpos, firstn_add.
      * apply Forall_app. now split.
    + exists enriched. split; [reflexivity |].
      now rewrite firstn_all2 in Hinv.
Qed.

(** X12. [addElevationToPoints] resolves, whatever the service does, with
    the positions it was given, in their order and across the batches of
    a hundred, each with an elevation that is a whole number of metres. *)
Theorem addElevationToPoints_keeps_positions (w : Ambient) (points : list Point.t) :
  exists out,
    addElevationToPoints w points = Resolved out /\
    map positionOfElevated out = points /\
    Forall (fun p => isWhole (PointWithElevation.ele p)) out.
Proof.
  unfold addElevationToPoints.
  destruct (Nat.eqb_spec (length points) 0) as [H0 | Hne].
  - exists []. destruct points; [| discriminate].
    split; [reflexivity |]. split; [reflexivity | constructor].
  - apply (addElevationLoop_elevates w points (length points) 0 []); [lia |].
    split; [reflexivity | constructor].
Qed.

Lemma fetchAttempts_first_success (responses : nat -> FetchResult)
    (points : list Point.t) (out : list PointWithElevation.t)
    (k remaining attempt : nat) :
  (k < remaining)%nat ->
  (forall j, (j < k)%nat ->
     exists e, callOpenElevationAPI (responses (attempt + j)%nat) points = Rejected e) ->
  callOpenElevationAPI (responses (attempt + k)%nat) points = Resolved out ->
  fetchAttempts responses points attempt remaining = Some out.
Proof.
  revert remaining attempt.
  induction k as [| k IH]; intros remaining attempt Hk Hfail Hok.
  - destruct remaining as [| r]; [lia |]. simpl.
    rewrite Nat.add_0_r in Hok. now rewrite Hok.
  - destruct remaining as [| r]; [lia |]. simpl.
    destruct (Hfail 0%nat ltac:(lia)) as [e He].
    rewrite Nat.add_0_r in He. rewrite He.
    apply IH; [lia | |].
    + intros j Hj. specialize (Hfail (S j) ltac:(lia)).
      now replace (S attempt + j)%nat with (attempt + S j)%nat by lia.
    + now replace (S attempt + k)%nat with (attempt + S k)%nat by lia.
Qed.

Lemma fetchAttempts_ext (responses responses' : nat -> FetchResult)
    (points : list Point.t) (remaining attempt : nat) :
  (forall k, (attempt <= k < attempt + remaining)%nat -> responses k = responses' k) ->
  fetchAttempts responses points attempt remaining =
  fetchAttempts responses' points attempt remaining.
Proof.
  revert attempt. induction remaining as [| r IH]; intros attempt H; simpl.
  - reflexivity.
  - rewrite <- (H attempt) by lia.
    destruct (callOpenElevationAPI (responses attempt) points); [reflexivity |].
    apply IH. intros k Hk. apply H. lia.
Qed.

(** X13. [fetchElevationBatch] returns the result of the first attempt
    that succeeds, the attempts before it having failed, and makes no
    more than three requests: what the service would answer to a fourth
    or later one has no effect on the result. *)
Theorem fetchElevationBatch_first_success (responses : nat -> FetchResult)
    (random : nat -> R) (points : list Point.t) :
  (forall k out,
     (k <= maxRetries)%nat ->
     (forall j, (j < k)%nat ->
        exists e, callOpenElevationAPI (responses j) points = Rejected e) ->
     callOpenElevationAPI (responses k) points = Resolved out ->
     fetchElevationBatch responses random points = Resolved out) /\
  (forall responses',
     (forall k, (k <= maxRetries)%nat -> responses k = responses' k) ->
     fetchElevationBatch responses random points =
     fetchElevationBatch responses' random points).
Proof.
  split.
  - intros k out Hk Hfail Hok. unfold fetchElevationBatch.
    rewrite (fetchAttempts_first_success responses points out k); try assumption.
    + reflexivity.
    + unfold maxRetries in *. lia.
  - intros responses' Hsame. unfold fetchElevationBatch.
    rewrite (fetchAttempts_ext responses responses'); [reflexivity |].
    intros k Hk. apply Hsame. unfold maxRetries in *. lia.
Qed.

Lemma fetchElevationBatch_first_success_witness :
  fetchElevationBatch
    (fun attempt =>
       match attempt with
       | 1%nat => Response true 200 "OK" (Json (Some [Some 12; Some 7]))
       | _ => FetchRejects "timeout"
       end)
    (fun _ => 0) stillRoute =
  Resolved (roundedElevations stillRoute [12; 7]).
Proof.
  apply (proj1 (fetchElevationBatch_first_success _ (fun _ => 0) stillRoute))
    with (k := 1%nat).
  - unfold maxRetries. lia.
  - intros j Hj. assert (j = 0%nat) as -> by lia. now eexists.
  - reflexivity.
Defined.


(** ** The realistic-timing path in closed form *)

Section RealisticPoints.

Variable w : Ambient.
Variable points : list Point.t.
Variable avgSpeedKmh : R.
Variable startTime : Z.
Variable samplingRateSeconds : R.
Variable speedVariation : R.
Variable activityType : ActivityType.
Variable addElevation : bool.
Variable elevationGain : R.
Variable useRealElevation : bool.
Variable pointsWithElevation : list PointWithElevation.t.

Local Abbreviation clockAt :=
  (realisticClock w points avgSpeedKmh startTime samplingRateSeconds
                  speedVariation activityType).

Local Abbreviation updateAt :=
  (realisticElevationUpdate w points addElevation elevationGain
                            useRealElevation pointsWithElevation).

Local Abbreviation pointAt :=
  (realisticPoint w points avgSpeedKmh startTime samplingRateSeconds
                  speedVariation activityType addElevation elevationGain
                  useRealElevation pointsWithElevation).

Local Abbreviation step :=
  (timingStep w points avgSpeedKmh samplingRateSeconds speedVariation
              addElevation elevationGain useRealElevation pointsWithElevation
              (calculateRouteDistance points)
              (generatePacingCurve (length points) activityType)).

(** One turn of the loop from the state the closed form describes. *)
Lemma timingStep_closed (k : nat) (st : TimingState) :
  result st = map pointAt (seq 0 (S k)) ->
  clock st = clockAt k ->
  travelled st = realisticTravelled points k ->
  cumulativeElevation st = snd (updateAt k) ->
  result (step st (S k)) = map pointAt (seq 0 (S (S k))) /\
  clock (step st (S k)) = clockAt (S k) /\
  travelled (step st (S k)) = realisticTravelled points (S k) /\
  cumulativeElevation (step st (S k)) = snd (updateAt (S k)).
Proof.
  intros Hresult Hclock Htravelled Hcumulative.
  rewrite (seq_S (S k)), map_app.
  unfold timingStep. cbv zeta.
  cbn [result clock travelled cumulativeElevation].
  rewrite Hresult, Hclock, Htravelled, Hcumulative.
  repeat split.
Qed.

Lemma timingLoop_closed (k : nat) :
  let final :=
    fold_left step (seq 1 k)
      {| result := [pointAt 0%nat]; clock := startTime;
         travelled := 0; cumulativeElevation := 0 |} in
  result final = map pointAt (seq 0 (S k)) /\
  clock final = clockAt k /\
  travelled final = realisticTravelled points k /\
  cumulativeElevation final = snd (updateAt k).
Proof.
  induction k as [| k IH].
  - cbv zeta. cbn [seq fold_left result clock travelled cumulativeElevation map].
    repeat split.
  - cbv zeta in *. destruct IH as (IHr & IHc & IHt & IHe).
    rewrite seq_S, fold_left_app. cbn [fold_left].
    change (1 + k)%nat with (S k).
    now apply timingStep_closed.
Qed.

End RealisticPoints.

(** The realistic-timing path in closed form: with at least two points the
    point at index [i] is [realisticPoint i]. *)
Lemma generateRealisticTimestamps_closed (w : Ambient) (points : list Point.t)
    (options : RealisticTimestampOptions.t) :
  (2 <= length points)%nat ->
  generateRealisticTimestamps w points options =
  Resolved
    (map (realisticPoint w points
            (RealisticTimestampOptions.avgSpeedKmh options)
            (RealisticTimestampOptions.startTime options)
            (withDefault (RealisticTimestampOptions.samplingRateSeconds options) 4)
            (withDefault (RealisticTimestampOptions.speedVariation options) 0.15)
            (withDefault (RealisticTimestampOptions.activityType options) Run)
            (withDefault (RealisticTimestampOptions.addElevation options) false)
            (withDefault (RealisticTimestampOptions.elevationGain options) 0)
            (withDefault (RealisticTimestampOptions.useRealElevation options) false)
            (fetchedElevations w points
               (withDefault (RealisticTimestampOptions.addElevation options) false)
               (withDefault (RealisticTimestampOptions.useRealElevation options) false)))
         (seq 0 (length points))).
Proof.
  intros Hn. unfold generateRealisticTimestamps. cbv zeta.
  assert (H : (length points <? 2)%nat = false) by (apply Nat.ltb_ge; lia).
  rewrite H.
  match goal with
  | |- context [bind ?fetched _] =>
      assert (Hfetched :
        fetched =
        Resolved
          (fetchedElevations w points
             (withDefault (RealisticTimestampOptions.addElevation options) false)
             (withDefault (RealisticTimestampOptions.useRealElevation options) false)))
  end.
  { unfold fetchedElevations. destruct (_ && _); [| reflexivity].
    now destruct (addElevationToPoints w points). }
  rewrite Hfetched. cbn [bind]. f_equal.
  match goal with
  | |- result (fold_left _ _ _) = map ?pointAt _ =>
      pose proof (timingLoop_closed w points
                    (RealisticTimestampOptions.avgSpeedKmh options)
                    (RealisticTimestampOptions.startTime options)
                    (withDefault (RealisticTimestampOptions.samplingRateSeconds options) 4)
                    (withDefault (RealisticTimestampOptions.speedVariation options) 0.15)
                    (withDefault (RealisticTimestampOptions.activityType options) Run)
                    (withDefault (RealisticTimestampOptions.addElevation options) false)
                    (withDefault (RealisticTimestampOptions.elevationGain options) 0)
                    (withDefault (RealisticTimestampOptions.useRealElevation options) false)
                    (fetchedElevations w points
                       (withDefault (RealisticTimestampOptions.addElevation options) false)
                       (withDefault (RealisticTimestampOptions.useRealElevation options) false))
                    (length points - 1)) as [Hloop _]
  end.
  replace (S (length points - 1)) with (length points) in Hloop by lia.
  exact Hloop.
Qed.


(** ** What the generators keep of the route *)

Lemma map_nth_indices {A : Type} (l : list A) (d : A) :
  map (fun i => nth i l d) (seq 0 (length l)) = l.
Proof.
  induction l as [| a l IH]; [reflexivity |].
  cbn [length seq map nth]. f_equal.
  rewrite <- seq_shift, map_map. exact IH.
Qed.

Lemma map_id_on {A : Type} (f : A -> A) (l : list A) :
  (forall a, f a = a) -> map f l = l.
Proof.
  intros H. induction l as [| a l IH]; simpl; [reflexivity |].
  now rewrite H, IH.
Qed.

Lemma generateTrackPoints_positions (lib : Library) (w : Ambient)
    (coordinates : list Coordinate) (startTime : Z) (speedKmh : R)
    (elevationGain : option R) (elevationProfile : option ElevationProfile)
    (addNoise : option bool) (pauseDuration : option R) :
  map coordinateOf
    (generateTrackPoints lib w coordinates startTime speedKmh elevationGain
       elevationProfile addNoise pauseDuration) =
  coordinates.
Proof.
  destruct (Nat.ltb_spec (length coordinates) 2) as [Hlt | Hge].
  - unfold generateTrackPoints.
    apply Nat.ltb_lt in Hlt. rewrite Hlt.
    rewrite map_map. apply map_id_on. now intros [lng lat].
  - rewrite generateTrackPoints_defaults, generateTrackPoints_closed by assumption.
    rewrite map_map.
    rewrite <- (map_nth_indices coordinates (0, 0)) at 2.
    apply map_ext. intros i. unfold coordinateOf, legacyPoint.
    cbn [GPXPoint.lng GPXPoint.lat].
    now destruct (nth i coordinates (0, 0)).
Qed.

Lemma generateRealisticTimestamps_positions (w : Ambient) (points : list Point.t)
    (options : RealisticTimestampOptions.t) :
  exists out,
    generateRealisticTimestamps w points options = Resolved out /\
    map positionOfTimestamped out = points.
Proof.
  destruct (Nat.ltb_spec (length points) 2) as [Hlt | Hge].
  - unfold generateRealisticTimestamps. cbv zeta.
    apply Nat.ltb_lt in Hlt. rewrite Hlt.
    eexists. split; [reflexivity |].
    rewrite map_map. apply map_id_on. intros p. apply positionOf_eta.
  - rewrite generateRealisticTimestamps_closed by assumption.
    eexists. split; [reflexivity |].
    rewrite map_map.
    rewrite <- (map_nth_indices points origin) at 2.
    apply map_ext. intros i. apply positionOf_eta.
Qed.

(** X14. Both generators keep the route: the point at each index has the
    position of the input at that index, the [lng, lat] pairs of the
    legacy path turned into [lat] and [lng] fields without being swapped,
    whatever the options, the draws and the elevation service. *)
Theorem generators_keep_positions (lib : Library) (w : Ambient) :
  (forall coordinates startTime speedKmh elevationGain elevationProfile
          addNoise pauseDuration,
     map coordinateOf
       (generateTrackPoints lib w coordinates startTime speedKmh elevationGain
          elevationProfile addNoise pauseDuration) =
     coordinates) /\
  (forall points options,
     exists out,
       generateRealisticTimestamps w points options = Resolved out /\
       map positionOfTimestamped out = points).
Proof.
  split.
  - intros. apply generateTrackPoints_positions.
  - intros. apply generateRealisticTimestamps_positions.
Qed.

(** The point the realistic-timing path returns at index [i]. *)
Lemma generateRealisticTimestamps_nth_error (w : Ambient) (points : list Point.t)
    (options : RealisticTimestampOptions.t) :
  (2 <= length points)%nat ->
  exists out,
    generateRealisticTimestamps w points options = Resolved out /\
    forall i, (i < length points)%nat ->
      nth_error out i =
      Some (realisticPoint w points
              (RealisticTimestampOptions.avgSpeedKmh options)
              (RealisticTimestampOptions.startTime options)
              (withDefault (RealisticTimestampOptions.samplingRateSeconds options) 4)
              (withDefault (RealisticTimestampOptions.speedVariation options) 0.15)
              (withDefault (RealisticTimestampOptions.activityType options) Run)
              (withDefault (RealisticTimestampOptions.addElevation options) false)
              (withDefault (RealisticTimestampOptions.elevationGain options) 0)
              (withDefault (RealisticTimestampOptions.useRealElevation options) false)
              (fetchedElevations w points
                 (withDefault (RealisticTimestampOptions.addElevation options) false)
                 (withDefault (RealisticTimestampOptions.useRealElevation options) false))
              i).
Proof.
  intros Hn. rewrite generateRealisticTimestamps_closed by assumption.
  eexists. split; [reflexivity |].
  intros i Hi. rewrite nth_error_map, nth_error_seq.
  assert (H : (i <? length points)%nat = true) by now apply Nat.ltb_lt.
  now rewrite H.
Qed.

Lemma nth_error_map_seq_inv {A : Type} (f : nat -> A) (n i : nat) (a : A) :
  nth_error (map f (seq 0 n)) i = Some a -> (i < n)%nat /\ a = f i.
Proof.
  rewrite nth_error_map, nth_error_seq.
  destruct (Nat.ltb_spec i n) as [Hlt | Hge]; [| discriminate].
  simpl. intros H. injection H as <-. now split.
Qed.

(** ** Recorded speeds *)

(** X15. For a positive average speed and first draws of
    [addSpeedVariation] other than 0 (a draw of 0 can make the speed
    NaN), every speed [generateRealisticTimestamps] records lies between
    17 % and 199.8 % of the average speed: the first point records the
    average itself, and each later one the average times its pacing
    multiplier (0.85 to 1.11), varied and clamped to 20 % .. 180 % of
    that product. *)
Theorem realistic_speeds_bounded (w : Ambient) (points : list Point.t)
    (options : RealisticTimestampOptions.t) :
  0 < RealisticTimestampOptions.avgSpeedKmh options ->
  positiveDraws w ->
  exists out,
    generateRealisticTimestamps w points options = Resolved out /\
    forall i p,
      nth_error out i = Some p ->
      exists s,
        TimestampedPoint.speed p = Some s /\
        0.17 * RealisticTimestampOptions.avgSpeedKmh options <= s
          <= 1.998 * RealisticTimestampOptions.avgSpeedKmh options /\
        (i = 0%nat -> s = RealisticTimestampOptions.avgSpeedKmh options).
Proof.
  intros Havg Hdraws.
  destruct (Nat.ltb_spec (length points) 2) as [Hlt | Hge].
  - unfold generateRealisticTimestamps. cbv zeta.
    apply Nat.ltb_lt in Hlt. rewrite Hlt.
    eexists. split; [reflexivity |].
    intros i p Hp. rewrite nth_error_map in Hp.
    destruct (nth_error points i) as [q |]; [| discriminate].
    injection Hp as <-. eexists. split; [reflexivity |].
    split; [lra | reflexivity].
  - rewrite generateRealisticTimestamps_closed by assumption.
    eexists. split; [reflexivity |].
    intros i p Hp. apply nth_error_map_seq_inv in Hp.
    destruct Hp as [Hi ->]. eexists. split; [reflexivity |].
    destruct i as [| j]; [split; [lra | reflexivity] |].
    split; [| discriminate].
    unfold realisticSpeed.
    pose proof (generatePacingCurve_pos (length points)
                  (withDefault (RealisticTimestampOptions.activityType options) Run)
                  (S j) Hge Hi) as Hc.
    set (c := nth (S j) _ 0) in *.
    assert (Hbase : 0 <= RealisticTimestampOptions.avgSpeedKmh options * c) by nra.
    pose proof (addSpeedVariation_range (random_u1 w (S j)) (random_u2 w (S j))
                  (RealisticTimestampOptions.avgSpeedKmh options * c)
                  (withDefault (RealisticTimestampOptions.speedVariation options) 0.15)
                  (Hdraws (S j)) Hbase) as Hs.
    nra.
Qed.

Lemma realistic_speeds_bounded_witness :
  exists out,
    generateRealisticTimestamps quietWorld stillRoute (plainOptions None) =
      Resolved out /\
    forall i p,
      nth_error out i = Some p ->
      exists s,
        TimestampedPoint.speed p = Some s /\ 0.17 * 10 <= s <= 1.998 * 10 /\
        (i = 0%nat -> s = 10).
Proof.
  apply (realistic_speeds_bounded quietWorld stillRoute (plainOptions None)).
  - simpl. lra.
  - exact positiveDraws_quietWorld.
Defined.


(** ** Elevations on the realistic-timing path *)

Lemma haversineDistance_equator_pos : 0 < haversineDistance 0 0 0 1.
Proof.
  unfold haversineDistance. cbv zeta.
  replace ((0 - 0) * PI / 180 / 2) with 0 by lra.
  replace (0 * PI / 180) with 0 by lra.
  rewrite sin_0, cos_0.
  set (x := (1 - 0) * PI / 180 / 2).
  pose proof PI_RGT_0 as Hpi.
  assert (Hx : 0 < x < PI / 2) by (unfold x; lra).
  assert (Hs : 0 < sin x) by (apply sin_gt_0; lra).
  assert (Hc : 0 < cos x) by (apply cos_gt_0; lra).
  pose proof (sin2_cos2 x) as Hsc. unfold Rsqr in Hsc.
  replace (0 * 0 + 1 * 1 * sin x * sin x) with (sin x * sin x) by ring.
  replace (1 - sin x * sin x) with (cos x * cos x) by lra.
  assert (Hy : 0 < sqrt (sin x * sin x)) by (apply sqrt_lt_R0; nra).
  assert (Hd : 0 < sqrt (cos x * cos x)) by (apply sqrt_lt_R0; nra).
  unfold Math_atan2.
  destruct (Rlt_dec 0 (sqrt (cos x * cos x))) as [_ | H]; [| contradiction].
  assert (Hq : 0 < sqrt (sin x * sin x) / sqrt (cos x * cos x)).
  { apply Rmult_lt_0_compat; [assumption |]. now apply Rinv_0_lt_compat. }
  pose proof (atan_increasing _ _ Hq) as Hatan. rewrite atan_0 in Hatan.
  lra.
Qed.

Lemma eastward_distance_pos : 0 < calculateRouteDistance eastward.
Proof.
  rewrite calculateRouteDistance_pairSum.
  unfold eastward, origin. cbn [pairSum]. unfold pointDistance.
  cbn [Point.lat Point.lng].
  pose proof haversineDistance_equator_pos. lra.
Qed.

Section RealisticElevations.

Variable w : Ambient.
Variable points : list Point.t.
Variable addElevation : bool.
Variable elevationGain : R.
Variable useRealElevation : bool.
Variable pointsWithElevation : list PointWithElevation.t.

Local Abbreviation updateAt :=
  (realisticElevationUpdate w points addElevation elevationGain
                            useRealElevation pointsWithElevation).

Lemma realisticElevation_presence (i : nat) :
  isDefined (fst (updateAt i)) = addElevation.
Proof.
  destruct i as [| j]; cbn [realisticElevationUpdate]; cbv zeta.
  - now destruct addElevation.
  - destruct addElevation; [| reflexivity].
    now destruct (useRealElevation && _).
Qed.

Lemma realisticElevation_floor (i : nat) (e : R) :
  useRealElevation = false ->
  0 <= random_startingElevation w ->
  fst (updateAt i) = Some e -> 0 <= e.
Proof.
  intros Hreal Hstart.
  destruct i as [| j]; cbn [realisticElevationUpdate]; cbv zeta.
  - destruct addElevation; [| discriminate].
    cbn [fst]. intros H. injection H as <-.
    pose proof (getStartingElevation_nonneg _ Hstart). lra.
  - destruct addElevation; [| discriminate].
    rewrite Hreal. cbn [andb fst]. intros H. injection H as <-.
    apply calculateRealisticElevation_nonneg.
Qed.

End RealisticElevations.

(** X16. A point of [generateRealisticTimestamps] carries an elevation
    exactly when [addElevation] is on, the one-point route included.
    When the elevation is simulated (no real elevation asked for), on a
    route of positive length and with a starting draw that is not
    negative, no elevation is below zero. *)
Theorem simulated_elevation_floor (w : Ambient) (points : list Point.t)
    (options : RealisticTimestampOptions.t) :
  exists out,
    generateRealisticTimestamps w points options = Resolved out /\
    (forall p, In p out ->
       isDefined (TimestampedPoint.elevation p) =
       withDefault (RealisticTimestampOptions.addElevation options) false) /\
    (withDefault (RealisticTimestampOptions.useRealElevation options) false = false ->
     ((2 <= length points)%nat -> 0 < calculateRouteDistance points) ->
     0 <= random_startingElevation w ->
     forall p e, In p out -> TimestampedPoint.elevation p = Some e -> 0 <= e).
Proof.
  destruct (Nat.ltb_spec (length points) 2) as [Hlt | Hge].
  - unfold generateRealisticTimestamps. cbv zeta.
    apply Nat.ltb_lt in Hlt. rewrite Hlt.
    eexists. split; [reflexivity |]. split.
    + intros p Hp. apply in_map_iff in Hp. destruct Hp as (q & <- & _).
      cbn [TimestampedPoint.elevation]. now destruct (withDefault _ false).
    + intros _ _ _ p e Hp He. apply in_map_iff in Hp. destruct Hp as (q & <- & _).
      cbn [TimestampedPoint.elevation] in He.
      destruct (withDefault _ false); [| discriminate].
      injection He as <-. lra.
  - rewrite generateRealisticTimestamps_closed by assumption.
    eexists. split; [reflexivity |]. split.
    + intros p Hp. apply in_map_iff in Hp. destruct Hp as (i & <- & _).
      apply realisticElevation_presence.
    + intros Hreal _ Hstart p e Hp He.
      apply in_map_iff in Hp. destruct Hp as (i & <- & _).
      cbn [realisticPoint TimestampedPoint.elevation] in He.
      eapply realisticElevation_floor; eassumption.
Qed.

Lemma simulated_elevation_floor_witness :
  exists out,
    generateRealisticTimestamps quietWorld eastward simulatedElevationOptions =
      Resolved out /\
    forall p e, In p out -> TimestampedPoint.elevation p = Some e -> 0 <= e.
Proof.
  destruct (simulated_elevation_floor quietWorld eastward simulatedElevationOptions)
    as (out & Hout & _ & Hfloor).
  exists out. split; [exact Hout |].
  apply Hfloor.
  - reflexivity.
  - intros _. exact eastward_distance_pos.
  - simpl. lra.
Defined.

(** X17. With real elevation asked for, on a route of at least two
    points, each point after the first gets the elevation the lookup
    found for it, except that an elevation of 0 m is replaced by 100 m;
    the first point gets the random starting elevation, not the one the
    lookup found. *)
Theorem real_elevation_zero_replaced (w : Ambient) (points : list Point.t)
    (options : RealisticTimestampOptions.t) :
  (2 <= length points)%nat ->
  RealisticTimestampOptions.addElevation options = Some true ->
  RealisticTimestampOptions.useRealElevation options = Some true ->
  exists enriched out,
    addElevationToPoints w points = Resolved enriched /\
    generateRealisticTimestamps w points options = Resolved out /\
    (exists p,
       nth_error out 0 = Some p /\
       TimestampedPoint.elevation p =
       Some (getStartingElevation (random_startingElevation w))) /\
    (forall i q,
       (1 <= i)%nat -> nth_error enriched i = Some q ->
       exists p,
         nth_error out i = Some p /\
         TimestampedPoint.elevation p =
         Some (if Req_dec_T (PointWithElevation.ele q) 0 then 100
               else PointWithElevation.ele q)).
Proof.
  intros Hn Hadd Hreal.
  destruct (addElevationToPoints_resolves w points) as (enriched & Henriched & Hlen).
  destruct (generateRealisticTimestamps_nth_error w points options Hn)
    as (out & Hout & Hnth).
  exists enriched, out.
  split; [assumption |]. split; [assumption |].
  rewrite Hadd, Hreal in Hnth. cbn [withDefault] in Hnth.
  assert (Hfetched : fetchedElevations w points true true = enriched).
  { unfold fetchedElevations. cbn [andb]. now rewrite Henriched. }
  rewrite Hfetched in Hnth.
  split.
  - eexists. split; [apply Hnth; lia |]. reflexivity.
  - intros i q Hi Hq.
    assert (Hlt : (i < length points)%nat).
    { rewrite <- Hlen. apply nth_error_Some. congruence. }
    eexists. split; [apply Hnth; assumption |].
    destruct i as [| j]; [lia |].
    cbn [realisticPoint TimestampedPoint.elevation realisticElevationUpdate].
    cbv zeta.
    assert (Hsome : (0 <? length enriched)%nat = true) by (apply Nat.ltb_lt; lia).
    rewrite Hsome. cbn [andb fst]. now rewrite Hq.
Qed.

Lemma real_elevation_zero_replaced_witness :
  exists enriched out,
    addElevationToPoints quietWorld eastward = Resolved enriched /\
    generateRealisticTimestamps quietWorld eastward realElevationOptions =
      Resolved out /\
    (exists p,
       nth_error out 0 = Some p /\
       TimestampedPoint.elevation p =
       Some (getStartingElevation (random_startingElevation quietWorld))) /\
    (forall i q,
       (1 <= i)%nat -> nth_error enriched i = Some q ->
       exists p,
         nth_error out i = Some p /\
         TimestampedPoint.elevation p =
         Some (if Req_dec_T (PointWithElevation.ele q) 0 then 100
               else PointWithElevation.ele q)).
Proof.
  apply (real_elevation_zero_replaced quietWorld eastward realElevationOptions).
  - simpl. lia.
  - reflexivity.
  - reflexivity.
Defined.

(** X18. The smoothing of the simulated elevation starts from 0, not from
    the starting elevation of the first point: with no elevation gain,
    on a route of at least two points and of positive length, the first
    point is at 50 m or more and the second at 33 m or less, whatever
    the draws in [0, 1). *)
Theorem simulated_elevation_initial_drop (w : Ambient) (points : list Point.t)
    (options : RealisticTimestampOptions.t) :
  (2 <= length points)%nat ->
  0 < calculateRouteDistance points ->
  RealisticTimestampOptions.addElevation options = Some true ->
  withDefault (RealisticTimestampOptions.useRealElevation options) false = false ->
  withDefault (RealisticTimestampOptions.elevationGain options) 0 = 0 ->
  0 <= random_startingElevation w ->
  random_realisticElevation w 1 < 1 ->
  exists out first second e0 e1,
    generateRealisticTimestamps w points options = Resolved out /\
    nth_error out 0 = Some first /\
    nth_error out 1 = Some second /\
    TimestampedPoint.elevation first = Some e0 /\
    TimestampedPoint.elevation second = Some e1 /\
    50 <= e0 /\ e1 <= 33.
Proof.
  intros Hn _ Hadd Hreal Hgain Hstart Hdraw.
  destruct (generateRealisticTimestamps_nth_error w points options Hn)
    as (out & Hout & Hnth).
  rewrite Hadd, Hreal, Hgain in Hnth. cbn [withDefault] in Hnth.
  exists out. do 4 eexists.
  split; [exact Hout |].
  split; [apply Hnth; lia |].
  split; [apply Hnth; lia |].
  split; [reflexivity |].
  split; [reflexivity |].
  cbn [realisticElevationUpdate fst snd andb]. cbv zeta. cbn [fst snd].
  split.
  - now apply getStartingElevation_nonneg.
  - unfold calculateRealisticElevation. apply Rmax_lub; lra.
Qed.

Lemma simulated_elevation_initial_drop_witness :
  exists out first second e0 e1,
    generateRealisticTimestamps quietWorld eastward simulatedElevationOptions =
      Resolved out /\
    nth_error out 0 = Some first /\
    nth_error out 1 = Some second /\
    TimestampedPoint.elevation first = Some e0 /\
    TimestampedPoint.elevation second = Some e1 /\
    50 <= e0 /\ e1 <= 33.
Proof.
  apply (simulated_elevation_initial_drop quietWorld eastward
           simulatedElevationOptions).
  - simpl. lia.
  - exact eastward_distance_pos.
  - reflexivity.
  - reflexivity.
  - reflexivity.
  - simpl. lra.
  - simpl. lra.
Defined.


(** ** The legacy path: timestamps and net climb *)

Section LegacyClock.

Variable lib : Library.
Variable w : Ambient.
Variable coordinates : list Coordinate.
Variable startTime : Z.
Variable speedKmh : R.
Variable elevationGain : option R.
Variable elevationProfile : ElevationProfile.
Variable addNoise : bool.
Variable pauseDuration : R.

Hypothesis speed_pos : 0 < speedKmh.
Hypothesis distance_nonneg : forall a b, 0 <= turf_distance lib a b.
Hypothesis variation_nonneg : forall i, 0 <= random_variation w i.
Hypothesis pauseLength_nonneg : forall i, 0 <= random_pauseLength w i.

Local Abbreviation clockAt :=
  (legacyClock lib w coordinates startTime speedKmh elevationGain
               elevationProfile addNoise pauseDuration).

Lemma legacySegmentSpeed_pos (i : nat) :
  0 < legacySegmentSpeed lib w coordinates speedKmh elevationGain
        elevationProfile addNoise i.
Proof.
  unfold legacySegmentSpeed. destruct addNoise; [| assumption].
  cbv zeta.
  assert (Hnoisy : 0 < speedKmh * (0.8 + random_variation w i * 0.4)).
  { pose proof (variation_nonneg i). apply Rmult_lt_0_compat; lra. }
  destruct (legacyElevation _ _ _ _ i) as [elevation |]; [| assumption].
  destruct (legacyPrevious _ _ _ _ i) as [previous |]; [| assumption].
  apply Rmult_lt_0_compat; [assumption |].
  apply calculateSpeedAdjustmentForElevation_pos.
Qed.

Lemma legacyPauseMs_nonneg (i : nat) : 0 <= legacyPauseMs w pauseDuration i.
Proof.
  unfold legacyPauseMs.
  destruct (Rgt_dec pauseDuration 0) as [Hp | _]; [| lra].
  destruct (Rlt_dec (random_pause w i) 0.1) as [_ | _]; [| lra].
  pose proof (pauseLength_nonneg i). nra.
Qed.

Lemma legacyClock_monotone (j : nat) : (clockAt j <= clockAt (S j))%Z.
Proof.
  cbn [legacyClock]. rewrite Rplus_assoc.
  eapply Z.le_trans; [| apply TimeClip_advance].
  match goal with
  | |- (_ <= _ + Zfloor ?d)%Z => assert (H : (0 <= Zfloor d)%Z)
  end.
  { apply Zfloor_lub. simpl.
    pose proof (legacySegmentSpeed_pos j) as Hs.
    pose proof (legacyPauseMs_nonneg j) as Hp.
    pose proof (distance_nonneg (nth j coordinates (0, 0))
                  (nth (j + 1) coordinates (0, 0))) as Hd.
    fold (legacySegmentDistance lib coordinates j) in Hd.
    assert (Hq : 0 <= legacySegmentDistance lib coordinates j /
                      legacySegmentSpeed lib w coordinates speedKmh elevationGain
                        elevationProfile addNoise j).
    { apply Rmult_le_pos; [assumption |]. left. now apply Rinv_0_lt_compat. }
    nra. }
  lia.
Qed.

End LegacyClock.

(** X19. On the legacy path, with a positive speed (and distances and
    draws that are not negative, as [turf] and [Math.random()] give
    them), the first timestamp is the start time and the timestamps
    never decrease, whatever the noise, the grade adjustment and the
    pauses. *)
Theorem legacy_timestamps_monotone (lib : Library) (w : Ambient)
    (coordinates : list Coordinate) (startTime : Z) (speedKmh : R)
    (elevationGain : option R) (elevationProfile : option ElevationProfile)
    (addNoise : option bool) (pauseDuration : option R) :
  0 < speedKmh ->
  (forall a b, 0 <= turf_distance lib a b) ->
  (forall i, 0 <= random_variation w i) ->
  (forall i, 0 <= random_pauseLength w i) ->
  let out :=
    generateTrackPoints lib w coordinates startTime speedKmh elevationGain
      elevationProfile addNoise pauseDuration in
  (forall p, nth_error out 0 = Some p -> GPXPoint.time p = Some startTime) /\
  (forall i p q,
     nth_error out i = Some p -> nth_error out (S i) = Some q ->
     exists t1 t2,
       GPXPoint.time p = Some t1 /\ GPXPoint.time q = Some t2 /\ (t1 <= t2)%Z).
Proof.
  intros Hspeed Hdist Hvar Hpause out. subst out.
  destruct (Nat.ltb_spec (length coordinates) 2) as [Hlt | Hge].
  - split.
    + unfold generateTrackPoints. apply Nat.ltb_lt in Hlt. rewrite Hlt.
      intros p Hp. rewrite nth_error_map in Hp.
      destruct coordinates as [| [lng lat] rest]; cbn in Hp; [discriminate |].
      now injection Hp as <-.
    + intros i p q _ Hq.
      assert (Hi : (S i < length coordinates)%nat).
      { rewrite <- (generateTrackPoints_length lib w coordinates startTime
                      speedKmh elevationGain elevationProfile addNoise
                      pauseDuration).
        apply nth_error_Some. congruence. }
      lia.
  - split.
    + intros p Hp.
      rewrite generateTrackPoints_nth_error in Hp by lia.
      now injection Hp as <-.
    + intros i p q Hp Hq.
      assert (Hi : (S i < length coordinates)%nat).
      { rewrite <- (generateTrackPoints_length lib w coordinates startTime
                      speedKmh elevationGain elevationProfile addNoise
                      pauseDuration).
        apply nth_error_Some. congruence. }
      rewrite generateTrackPoints_nth_error in Hp by lia.
      rewrite generateTrackPoints_nth_error in Hq by lia.
      injection Hp as <-. injection Hq as <-.
      eexists. eexists. split; [reflexivity |]. split; [reflexivity |].
      now apply legacyClock_monotone.
Qed.

Lemma legacy_timestamps_monotone_witness :
  (forall p,
     nth_error (generateTrackPoints unitLibrary quietWorld threeCoordinates 0 10
                  None None None (Some 30)) 0 = Some p ->
     GPXPoint.time p = Some 0%Z) /\
  (forall i p q,
     nth_error (generateTrackPoints unitLibrary quietWorld threeCoordinates 0 10
                  None None None (Some 30)) i = Some p ->
     nth_error (generateTrackPoints unitLibrary quietWorld threeCoordinates 0 10
                  None None None (Some 30)) (S i) = Some q ->
     exists t1 t2,
       GPXPoint.time p = Some t1 /\ GPXPoint.time q = Some t2 /\ (t1 <= t2)%Z).
Proof.
  apply (legacy_timestamps_monotone unitLibrary quietWorld threeCoordinates 0 10
           None None None (Some 30)).
  - lra.
  - intros a b. simpl. lra.
  - intros i. simpl. lra.
  - intros i. simpl. lra.
Defined.

(** X20. On the legacy path with an elevation gain, on a route of at
    least two points, the last point lies higher than the first by the
    elevation gain, to within 11 m: the profile term is the same at both
    ends, the noise is within 5 m either way at each end, and each
    elevation is rounded to a whole metre. *)
Theorem legacy_net_elevation_gain (lib : Library) (w : Ambient)
    (coordinates : list Coordinate) (startTime : Z) (speedKmh gain : R)
    (elevationProfile : option ElevationProfile)
    (addNoise : option bool) (pauseDuration : option R) :
  (2 <= length coordinates)%nat ->
  0 <= random_calculateElevation w 0 < 1 ->
  0 <= random_calculateElevation w (length coordinates - 1) < 1 ->
  exists first last e0 e1,
    let out :=
      generateTrackPoints lib w coordinates startTime speedKmh (Some gain)
        elevationProfile addNoise pauseDuration in
    nth_error out 0 = Some first /\
    nth_error out (length coordinates - 1) = Some last /\
    GPXPoint.elevation first = Some e0 /\
    GPXPoint.elevation last = Some e1 /\
    gain - 11 < e1 - e0 < gain + 11.
Proof.
  intros Hn Hfirst Hlast. cbv zeta.
  do 4 eexists.
  split; [apply generateTrackPoints_nth_error; lia |].
  split; [apply generateTrackPoints_nth_error; lia |].
  split; [reflexivity |]. split; [reflexivity |].
  unfold calculateElevation. cbv zeta. cbn [withDefault].
  assert (Hgain : orDefault (Some gain) 0 = gain).
  { unfold orDefault. destruct (Req_dec_T gain 0); congruence. }
  rewrite Hgain.
  assert (Hone : INR (length coordinates - 1) / (INR (length coordinates) - 1) = 1).
  { rewrite minus_INR by lia. simpl INR.
    assert (H2 : 2 <= INR (length coordinates)).
    { apply le_INR in Hn. simpl in Hn. lra. }
    field. lra. }
  rewrite Hone.
  replace (INR 0 / (INR (length coordinates) - 1)) with 0
    by (simpl INR; unfold Rdiv; ring).
  replace (0 * PI * 2) with 0 by ring.
  replace (1 * PI * 2) with (2 * PI) by ring.
  rewrite sin_0, sin_2PI.
  match goal with
  | |- _ < Math_round ?a - Math_round ?b < _ =>
      pose proof (Math_round_near a); pose proof (Math_round_near b)
  end.
  lra.
Qed.

Lemma legacy_net_elevation_gain_witness :
  exists first last e0 e1,
    let out :=
      generateTrackPoints unitLibrary quietWorld threeCoordinates 0 10 (Some 200)
        None None None in
    nth_error out 0 = Some first /\
    nth_error out (length threeCoordinates - 1) = Some last /\
    GPXPoint.elevation first = Some e0 /\
    GPXPoint.elevation last = Some e1 /\
    200 - 11 < e1 - e0 < 200 + 11.
Proof.
  apply (legacy_net_elevation_gain unitLibrary quietWorld threeCoordinates 0 10 200
           None None None).
  - simpl. lia.
  - simpl. lra.
  - simpl. lra.
Defined.


(** ** The pacing curve of any length *)

(** X21. For every activity and every number of points from two on, the
    pacing curve starts at the warmup floor of the activity, ends at its
    fatigue floor, and stays between the warmup floor and the peak plus
    0.03 in between. *)
Theorem pacing_curve_endpoints (pointCount : nat) (activityType : ActivityType) :
  (2 <= pointCount)%nat ->
  let pattern := patterns activityType in
  let curve := generatePacingCurve pointCount activityType in
  nth_error curve 0 = Some (warmup pattern) /\
  nth_error curve (pointCount - 1) = Some (fatigue pattern) /\
  (forall i multiplier,
     nth_error curve i = Some multiplier ->
     warmup pattern <= multiplier <= peak pattern + 0.03).
Proof.
  intros Hn pattern curve. subst pattern curve.
  assert (H2 : 2 <= INR pointCount).
  { apply le_INR in Hn. simpl in Hn. lra. }
  split; [| split].
  - rewrite generatePacingCurve_nth_error by lia. f_equal.
    unfold pacingMultiplier, pacingProgress. simpl INR.
    replace (0 / (INR pointCount - 1)) with 0 by (unfold Rdiv; ring).
    destruct (Rlt_dec 0 0.2) as [_ | H]; [| lra].
    cbv zeta. lra.
  - rewrite generatePacingCurve_nth_error by lia. f_equal.
    unfold pacingMultiplier, pacingProgress.
    rewrite minus_INR by lia. simpl INR.
    replace ((INR pointCount - 1) / (INR pointCount - 1)) with 1 by (field; lra).
    destruct (Rlt_dec 1 0.2) as [H | _]; [lra |].
    destruct (Rlt_dec 1 0.7) as [H | _]; [lra |].
    cbv zeta. lra.
  - intros i multiplier Hnth.
    assert (Hi : (i < length (generatePacingCurve pointCount activityType))%nat)
      by (apply nth_error_Some; congruence).
    rewrite generatePacingCurve_length in Hi.
    rewrite generatePacingCurve_nth_error in Hnth by assumption.
    injection Hnth as <-.
    pose proof (pacingProgress_range pointCount i Hn Hi) as [Hlo Hhi].
    unfold pacingMultiplier.
    destruct (Rlt_dec (pacingProgress pointCount i) 0.2) as [H1 | H1].
    + destruct activityType; simpl; nra.
    + destruct (Rlt_dec (pacingProgress pointCount i) 0.7) as [H3 | H3].
      * pose proof (SIN_bound ((pacingProgress pointCount i - 0.2) / 0.5 * PI * 2))
          as [Hs1 Hs2].
        destruct activityType; simpl; lra.
      * destruct activityType; simpl; nra.
Qed.

Lemma pacing_curve_endpoints_witness :
  nth_error (generatePacingCurve 50 Bike) 0 = Some 0.90 /\
  nth_error (generatePacingCurve 50 Bike) 49 = Some 0.95.
Proof.
  destruct (pacing_curve_endpoints 50 Bike ltac:(lia)) as (Hfirst & Hlast & _).
  split; [exact Hfirst | exact Hlast].
Defined.

(** ** Speed, pace and the fields of the document *)

Lemma truthy_Some (v : R) : v <> 0 -> truthy (Some v) = true.
Proof. intros Hv. unfold truthy. now destruct (Req_dec_T v 0). Qed.

(** X22. In [generateGpx] a speed takes precedence over a pace: with an
    [averageSpeedKmh] other than 0 the pace has no effect on the result,
    and without one (absent or 0) a pace [p] other than 0 gives the
    result of the speed [60 / p]. *)
Theorem generateGpx_speed_over_pace (lib : Library) (w : Ambient)
    (options : GPXGenerationOptions.t) :
  (truthy (GPXGenerationOptions.averageSpeedKmh options) = true ->
   forall pace,
     generateGpx lib w (withPace options pace) = generateGpx lib w options) /\
  (truthy (GPXGenerationOptions.averageSpeedKmh options) = false ->
   forall p,
     GPXGenerationOptions.averagePaceMinPerKm options = Some p -> p <> 0 ->
     generateGpx lib w options =
     generateGpx lib w (withAverageSpeed options (60 / p))).
Proof.
  split.
  - intros Hspeed pace. unfold generateGpx, withPace. cbv zeta.
    cbn [GPXGenerationOptions.name GPXGenerationOptions.description
         GPXGenerationOptions.activityType GPXGenerationOptions.coordinates
         GPXGenerationOptions.startTime GPXGenerationOptions.averageSpeedKmh
         GPXGenerationOptions.averagePaceMinPerKm
         GPXGenerationOptions.elevationGain GPXGenerationOptions.elevationProfile
         GPXGenerationOptions.addNoise GPXGenerationOptions.pauseDuration
         GPXGenerationOptions.useRealisticTiming
         GPXGenerationOptions.samplingRateSeconds
         GPXGenerationOptions.speedVariation GPXGenerationOptions.addElevation
         GPXGenerationOptions.useRealElevation].
    now rewrite Hspeed.
  - intros Hspeed p Hpace Hp. unfold generateGpx, withAverageSpeed. cbv zeta.
    cbn [GPXGenerationOptions.name GPXGenerationOptions.description
         GPXGenerationOptions.activityType GPXGenerationOptions.coordinates
         GPXGenerationOptions.startTime GPXGenerationOptions.averageSpeedKmh
         GPXGenerationOptions.averagePaceMinPerKm
         GPXGenerationOptions.elevationGain GPXGenerationOptions.elevationProfile
         GPXGenerationOptions.addNoise GPXGenerationOptions.pauseDuration
         GPXGenerationOptions.useRealisticTiming
         GPXGenerationOptions.samplingRateSeconds
         GPXGenerationOptions.speedVariation GPXGenerationOptions.addElevation
         GPXGenerationOptions.useRealElevation].
    rewrite Hspeed, Hpace.
    assert (Hq : 60 / p <> 0).
    { unfold Rdiv. apply Rmult_integral_contrapositive_currified; [lra |].
      now apply Rinv_neq_0_compat. }
    rewrite (truthy_Some p Hp), (truthy_Some (60 / p) Hq).
    reflexivity.
Qed.

Lemma generateGpx_speed_over_pace_witness :
  generateGpx unitLibrary quietWorld (withPace bareOptions (Some 5)) =
  generateGpx unitLibrary quietWorld
    (withAverageSpeed (withPace bareOptions (Some 5)) (60 / 5)).
Proof.
  apply (proj2 (generateGpx_speed_over_pace unitLibrary quietWorld
                  (withPace bareOptions (Some 5)))) .
  - reflexivity.
  - reflexivity.
  - lra.
Defined.

Open Scope string_scope.







Close Scope string_scope.


(** ** The elevation proxy *)

Lemma Rltb_false (x y : R) : Rltb x y = false <-> y <= x.
Proof. unfold Rltb. destruct (Rlt_dec x y); split; intros; congruence || lra. Qed.

Lemma Rltb_true (x y : R) : Rltb x y = true <-> x < y.
Proof. unfold Rltb. destruct (Rlt_dec x y); split; intros; congruence || lra. Qed.

(** A list of locations that passes the validation is the list of its
    positions, each a pair of numbers. *)
Lemma validateLocations_Valid (locations : list (option Location.t))
    (positions : list (R * R)) :
  ElevationRoute.validateLocations locations = Valid positions ->
  locations =
  map (fun '(latitude, longitude) =>
         Some {| Location.latitude := Some latitude;
                 Location.longitude := Some longitude |})
      positions.
Proof.
  revert positions. induction locations as [| [location |] rest IH];
    intros positions H; cbn [ElevationRoute.validateLocations] in H.
  - now injection H as <-.
  - destruct location as [[latitude |] [longitude |]];
      cbn [Location.latitude Location.longitude] in H; try discriminate.
    destruct (_ || _); [discriminate |].
    destruct (ElevationRoute.validateLocations rest) as [ps | |];
      try discriminate.
    injection H as <-. cbn [map]. now rewrite <- (IH ps).
  - discriminate.
Qed.

Lemma fallbackResults_shape (random : nat -> R) (positions : list (R * R)) :
  map (fun result =>
         (ElevationResult.latitude result, ElevationResult.longitude result))
      (ElevationRoute.fallbackResults random positions) = positions /\
  Forall (fun result =>
            isWhole (ElevationResult.elevation result) /\
            0 <= ElevationResult.elevation result)
         (ElevationRoute.fallbackResults random positions).
Proof.
  unfold ElevationRoute.fallbackResults.
  generalize 0%nat as start.
  induction positions as [| [latitude longitude] positions IH]; intros start.
  - split; [reflexivity | constructor].
  - destruct (IH (S start)) as [Hpos Hall].
    cbn [length seq combine map]. split.
    + now rewrite Hpos.
    + constructor; [| assumption].
      cbn [ElevationResult.elevation].
      unfold ElevationRoute.generateFallbackElevation. cbv zeta. split.
      * apply isWhole_Math_round.
      * apply Math_round_nonneg, Rmax_l.
Qed.

Lemma roundResults_shape (results : list (option ElevationResult.t))
    (rounded : list ElevationResult.t) :
  ElevationRoute.roundResults results = Some rounded ->
  length rounded = length results /\
  Forall (fun result => isWhole (ElevationResult.elevation result)) rounded.
Proof.
  revert rounded. induction results as [| [result |] rest IH]; intros rounded H;
    cbn [ElevationRoute.roundResults] in H.
  - injection H as <-. split; [reflexivity | constructor].
  - destruct (ElevationRoute.roundResults rest) as [tail |]; [| discriminate].
    injection H as <-. destruct (IH tail eq_refl) as [Hlen Hall].
    split; [simpl; now rewrite Hlen |].
    constructor; [apply isWhole_Math_round | assumption].
  - discriminate.
Qed.

(** X24. An answer of the proxy that carries results has one result per
    location of the request, a hundred at most, each with an elevation
    that is a whole number; when it is marked as a fallback the results
    are the locations of the request in their order, and no elevation is
    negative. *)
Theorem POST_results_shape (request : RequestBody) (upstream : UpstreamResult)
    (random : nat -> R) (results : list ElevationResult.t)
    (fallback : option bool) (message : option string) :
  ElevationRoute.POST request upstream random =
    ResultsResponse results fallback message ->
  exists locations,
    request = Body (Some locations) /\
    length results = length locations /\
    (length locations <= 100)%nat /\
    Forall (fun result => isWhole (ElevationResult.elevation result)) results /\
    (fallback = Some true ->
     map locationOf results = locations /\
     Forall (fun result => 0 <= ElevationResult.elevation result) results).
Proof.
  unfold ElevationRoute.POST. cbv zeta.
  destruct request as [| | [locations |]]; try discriminate.
  destruct (Nat.eqb_spec (length locations) 0) as [Hempty | Hsome].
  { intros H. injection H as <- <- <-.
    exists locations. destruct locations; [| discriminate].
    repeat split; try constructor; try discriminate. simpl. lia. }
  destruct (Nat.ltb_spec 100 (length locations)) as [Hmany | Hfew];
    [discriminate |].
  destruct (ElevationRoute.validateLocations locations) as [positions | |] eqn:Hvalid;
    try discriminate.
  apply validateLocations_Valid in Hvalid.
  destruct upstream as [| ok body]; [discriminate |].
  destruct ok; cbn [negb].
  - destruct body as [| [answers |]]; try discriminate.
    destruct (Nat.eqb_spec (length answers) (length locations)) as [Hlen | Hne];
      cbn [negb]; [| discriminate].
    destruct (ElevationRoute.roundResults answers) as [rounded |] eqn:Hrounded;
      [| discriminate].
    cbn [option_map]. intros H. injection H as <- <- <-.
    destruct (roundResults_shape answers rounded Hrounded) as [Hcount Hwhole].
    exists locations. repeat split; try assumption; try congruence; discriminate.
  - intros H. injection H as <- <- <-.
    destruct (fallbackResults_shape random positions) as [Hpos Hall].
    exists locations.
    assert (Hcount : length (ElevationRoute.fallbackResults random positions) =
                     length locations).
    { rewrite Hvalid, length_map.
      rewrite <- Hpos at 2. now rewrite length_map. }
    split; [reflexivity |]. split; [assumption |]. split; [assumption |].
    split.
    + eapply Forall_impl; [| exact Hall]. now intros result [Hw _].
    + intros _. split.
      * rewrite Hvalid. rewrite <- Hpos at 2. rewrite map_map.
        apply map_ext. now intros result.
      * eapply Forall_impl; [| exact Hall]. now intros result [_ Hn].
Qed.

Lemma validateLocations_equator :
  ElevationRoute.validateLocations
    [ Some {| Location.latitude := Some 0; Location.longitude := Some 0 |} ] =
  Valid [ (0, 0) ].
Proof.
  cbn [ElevationRoute.validateLocations Location.latitude Location.longitude].
  assert (H : Rltb 0 (-90) || Rltb 90 0 || Rltb 0 (-180) || Rltb 180 0 = false).
  { unfold Rltb.
    repeat match goal with |- context [Rlt_dec ?a ?b] => destruct (Rlt_dec a b) end;
      try reflexivity; lra. }
  now rewrite H.
Qed.

Lemma POST_equator_unavailable (body : UpstreamBody) (random : nat -> R) :
  ElevationRoute.POST equatorRequest (UpstreamResponse false body) random =
  ResultsResponse (ElevationRoute.fallbackResults random [ (0, 0) ]) (Some true)
    (Some "Using simulated elevation data due to API unavailability"%string).
Proof.
  unfold ElevationRoute.POST, equatorRequest. cbv zeta.
  cbn [length Nat.eqb Nat.ltb Nat.leb].
  now rewrite validateLocations_equator.
Qed.

Lemma POST_results_shape_witness :
  exists locations,
    equatorRequest = Body (Some locations) /\
    length (ElevationRoute.fallbackResults (fun _ => 1 / 2) [ (0, 0) ]) =
      length locations /\
    (length locations <= 100)%nat /\
    Forall (fun result => isWhole (ElevationResult.elevation result))
           (ElevationRoute.fallbackResults (fun _ => 1 / 2) [ (0, 0) ]) /\
    (Some true = Some true ->
     map locationOf (ElevationRoute.fallbackResults (fun _ => 1 / 2) [ (0, 0) ]) =
       locations /\
     Forall (fun result => 0 <= ElevationResult.elevation result)
            (ElevationRoute.fallbackResults (fun _ => 1 / 2) [ (0, 0) ])).
Proof.
  apply (POST_results_shape equatorRequest (UpstreamResponse false UpstreamNotJson)
           (fun _ => 1 / 2) _ (Some true)
           (Some "Using simulated elevation data due to API unavailability"%string)).
  apply POST_equator_unavailable.
Defined.


(** X25. A request that does not get as far as the lookup (its body
    cannot be read, its [locations] are missing, empty, more than a
    hundred, or do not pass the validation) is answered without regard
    to Open-Elevation and to the draws: with the empty results, or with
    an error of status 400 or 500. *)
Theorem POST_bad_request_skips_lookup (request : RequestBody)
    (upstream : UpstreamResult) (random : nat -> R) :
  reachesLookup request = false ->
  (forall upstream' random',
     ElevationRoute.POST request upstream random =
     ElevationRoute.POST request upstream' random') /\
  (ElevationRoute.POST request upstream random = ResultsResponse [] None None \/
   exists status error,
     ElevationRoute.POST request upstream random = ErrorResponse status error /\
     (status = 400%nat \/ status = 500%nat)).
Proof.
  unfold reachesLookup, ElevationRoute.POST. cbv zeta.
  destruct request as [| | [locations |]].
  - intros _. split; [reflexivity |]. right. do 2 eexists. split; [reflexivity |].
    now right.
  - intros _. split; [reflexivity |]. right. do 2 eexists. split; [reflexivity |].
    now right.
  - destruct (length locations =? 0)%nat.
    { intros _. split; [reflexivity |]. now left. }
    destruct (100 <? length locations)%nat.
    { intros _. split; [reflexivity |]. right. do 2 eexists.
      split; [reflexivity |]. now left. }
    destruct (ElevationRoute.validateLocations locations); cbn [negb andb].
    + discriminate.
    + intros _. split; [reflexivity |]. right. do 2 eexists.
      split; [reflexivity |]. now left.
    + intros _. split; [reflexivity |]. right. do 2 eexists.
      split; [reflexivity |]. now right.
  - intros _. split; [reflexivity |]. right. do 2 eexists. split; [reflexivity |].
    now left.
Qed.

Lemma POST_bad_request_skips_lookup_witness :
  ElevationRoute.POST (Body None) UpstreamRejects (fun _ => 0) =
  ElevationRoute.POST (Body None) (UpstreamResponse true UpstreamNotJson)
    (fun _ => 1 / 2).
Proof.
  apply (POST_bad_request_skips_lookup (Body None) UpstreamRejects (fun _ => 0)).
  reflexivity.
Defined.

Lemma roundResults_null (results : list (option ElevationResult.t)) :
  In None results -> ElevationRoute.roundResults results = None.
Proof.
  induction results as [| [result |] rest IH]; intros Hin;
    cbn [ElevationRoute.roundResults].
  - contradiction.
  - destruct Hin as [Hhead | Htail]; [discriminate |].
    now rewrite IH.
  - reflexivity.
Qed.

(** X26. For a request that gets as far as the lookup, every failure of
    the lookup is answered with status 500: a request to Open-Elevation
    that rejects or times out, an answer that is no JSON object, that
    has no [results] array, that has a wrong number of results or a
    [null] among them.  The simulated elevations are given for one case
    only, an answer of Open-Elevation whose status is not ok. *)
Theorem POST_lookup_failure_is_500 (locations : list (option Location.t))
    (random : nat -> R) :
  reachesLookup (Body (Some locations)) = true ->
  let request := Body (Some locations) in
  let failure := ErrorResponse 500 "Internal server error"%string in
  ElevationRoute.POST request UpstreamRejects random = failure /\
  ElevationRoute.POST request (UpstreamResponse true UpstreamNotJson) random =
    failure /\
  ElevationRoute.POST request (UpstreamResponse true (UpstreamJson None)) random =
    failure /\
  (forall results,
     length results <> length locations \/ In None results ->
     ElevationRoute.POST request
       (UpstreamResponse true (UpstreamJson (Some results))) random = failure) /\
  (forall body,
     exists results message,
       ElevationRoute.POST request (UpstreamResponse false body) random =
       ResultsResponse results (Some true) message).
Proof.
  unfold reachesLookup, ElevationRoute.POST. cbv zeta.
  destruct (length locations =? 0)%nat; [discriminate |].
  destruct (100 <? length locations)%nat; [discriminate |].
  destruct (ElevationRoute.validateLocations locations); try discriminate.
  intros _. cbn [negb].
  split; [reflexivity |]. split; [reflexivity |]. split; [reflexivity |].
  split.
  - intros results [Hlen | Hnull].
    + destruct (Nat.eqb_spec (length results) (length locations));
        [contradiction | reflexivity].
    + destruct (negb _); [reflexivity |].
      now rewrite roundResults_null.
  - intros body. now do 2 eexists.
Qed.

Lemma reachesLookup_equator : reachesLookup equatorRequest = true.
Proof.
  unfold reachesLookup, equatorRequest.
  now rewrite validateLocations_equator.
Qed.

Lemma POST_lookup_failure_is_500_witness :
  ElevationRoute.POST equatorRequest UpstreamRejects (fun _ => 0) =
  ErrorResponse 500 "Internal server error"%string.
Proof.
  apply (POST_lookup_failure_is_500 _ (fun _ => 0) reachesLookup_equator).
Defined.

(** ** The lookup of the client through the proxy *)

Lemma validateLocations_inRange (batch : list Point.t) :
  Forall inRange batch ->
  ElevationRoute.validateLocations
    (map (fun point =>
            Some {| Location.latitude := Some (Point.lat point);
                    Location.longitude := Some (Point.lng point) |})
         batch) =
  Valid (map pairOf batch).
Proof.
  induction 1 as [| point batch [Hlat Hlng] _ IH]; [reflexivity |].
  cbn [map ElevationRoute.validateLocations Location.latitude Location.longitude].
  assert (H : Rltb (Point.lat point) (-90) || Rltb 90 (Point.lat point) ||
              Rltb (Point.lng point) (-180) || Rltb 180 (Point.lng point) = false).
  { unfold Rltb.
    repeat match goal with |- context [Rlt_dec ?a ?b] => destruct (Rlt_dec a b) end;
      try reflexivity; lra. }
  now rewrite H, IH.
Qed.

Lemma validateLocations_outOfRange (batch : list Point.t) :
  Exists (fun point => ~ inRange point) batch ->
  ElevationRoute.validateLocations
    (map (fun point =>
            Some {| Location.latitude := Some (Point.lat point);
                    Location.longitude := Some (Point.lng point) |})
         batch) =
  Invalid.
Proof.
  induction batch as [| point batch IH]; intros Hex.
  - inversion Hex.
  - cbn [map ElevationRoute.validateLocations Location.latitude Location.longitude].
    destruct (Rltb (Point.lat point) (-90) || Rltb 90 (Point.lat point) ||
              Rltb (Point.lng point) (-180) || Rltb 180 (Point.lng point))
      eqn:Hcheck; [reflexivity |].
    apply orb_false_iff in Hcheck. destruct Hcheck as [Hcheck H4].
    apply orb_false_iff in Hcheck. destruct Hcheck as [Hcheck H3].
    apply orb_false_iff in Hcheck. destruct Hcheck as [H1 H2].
    apply Rltb_false in H1, H2, H3, H4.
    inversion Hex as [p l Hhead | p l Htail]; subst.
    + exfalso. apply Hhead. unfold inRange. lra.
    + now rewrite IH.
Qed.

Lemma roundedElevations_whole (points : list Point.t) (elevations : list R) :
  length elevations = length points ->
  Forall isWhole elevations ->
  map PointWithElevation.ele (roundedElevations points elevations) = elevations.
Proof.
  unfold roundedElevations. revert elevations.
  induction points as [| p points IH]; intros [| e elevations] Hlen Hwhole;
    simpl in Hlen; try discriminate; [reflexivity |].
  inversion Hwhole as [| x l [z Hz] Hrest]; subst.
  cbn [combine map PointWithElevation.ele].
  rewrite Math_round_IZR. f_equal. apply IH; [lia | assumption].
Qed.

(** X27. A batch [addElevationToPoints] cuts from a route, sent by
    [callOpenElevationAPI] to the proxy, is never too long for it.  When
    all its positions are within the ranges of latitude and longitude and
    Open-Elevation answers with a status that is not ok, the call
    resolves with the positions of the batch and the elevations the
    proxy simulated; when a position is out of range the proxy answers
    400 and the call rejects. *)
Theorem client_batch_through_proxy (points : list Point.t) (i : nat)
    (upstream : UpstreamResult) (random : nat -> R) (statusText : string) :
  (i < length points)%nat ->
  let batch := firstn BATCH_SIZE (skipn i points) in
  let answer :=
    received statusText
      (ElevationRoute.POST (requestBody batch) upstream random) in
  (Forall inRange batch ->
   forall body, upstream = UpstreamResponse false body ->
     exists out,
       callOpenElevationAPI answer batch = Resolved out /\
       map positionOfElevated out = batch /\
       map PointWithElevation.ele out =
       map ElevationResult.elevation
         (ElevationRoute.fallbackResults random (map pairOf batch))) /\
  (Exists (fun point => ~ inRange point) batch ->
   callOpenElevationAPI answer batch = Rejected (ProxyError 400 statusText)).
Proof.
  intros Hi batch answer.
  assert (Hlen : (1 <= length batch <= 100)%nat).
  { unfold batch, BATCH_SIZE. rewrite length_firstn, length_skipn. lia. }
  assert (Hsome : (length batch =? 0)%nat = false) by (apply Nat.eqb_neq; lia).
  assert (Hfew : (100 <? length batch)%nat = false) by (apply Nat.ltb_ge; lia).
  subst answer. unfold ElevationRoute.POST, requestBody. cbv zeta.
  rewrite length_map, Hsome, Hfew.
  split.
  - intros Hrange body ->.
    rewrite (validateLocations_inRange batch Hrange). cbn [negb received].
    destruct (fallbackResults_shape random (map pairOf batch)) as [Hpos Hall].
    set (results := ElevationRoute.fallbackResults random (map pairOf batch)) in *.
    assert (Hcount : length (map ElevationResult.elevation results) = length batch).
    { rewrite length_map.
      apply (f_equal (@length (R * R))) in Hpos.
      now rewrite !length_map in Hpos. }
    rewrite <- (map_map ElevationResult.elevation Some).
    rewrite callOpenElevationAPI_rounded by assumption.
    eexists. split; [reflexivity |]. split.
    + now apply roundedElevations_elevates.
    + apply roundedElevations_whole; [assumption |].
      apply Forall_map. eapply Forall_impl; [| exact Hall].
      now intros result [Hw _].
  - intros Hout.
    rewrite (validateLocations_outOfRange batch Hout).
    reflexivity.
Qed.

Lemma client_batch_through_proxy_witness :
  exists out,
    callOpenElevationAPI
      (received "Bad Gateway"
         (ElevationRoute.POST (requestBody eastward)
            (UpstreamResponse false UpstreamNotJson) (fun _ => 1 / 2)))
      eastward = Resolved out /\
    map positionOfElevated out = eastward /\
    map PointWithElevation.ele out =
    map ElevationResult.elevation
      (ElevationRoute.fallbackResults (fun _ => 1 / 2) (map pairOf eastward)).
Proof.
  apply (proj1 (client_batch_through_proxy eastward 0
                  (UpstreamResponse false UpstreamNotJson) (fun _ => 1 / 2)
                  "Bad Gateway" ltac:(simpl; lia)))
    with (body := UpstreamNotJson).
  - repeat constructor; simpl; lra.
  - reflexivity.
Defined.


(** ** How long the activity lasts *)

Section LegacyDuration.

Variable lib : Library.
Variable w : Ambient.
Variable coordinates : list Coordinate.
Variable startTime : Z.
Variable speedKmh : R.
Variable elevationGain : option R.
Variable elevationProfile : ElevationProfile.
Variable pauseDuration : R.

Hypothesis start_nonneg : (0 <= startTime)%Z.
Hypothesis speed_pos : 0 < speedKmh.
Hypothesis distance_nonneg : forall a b, 0 <= turf_distance lib a b.
Hypothesis no_pause : pauseDuration <= 0.

Local Abbreviation clockAt :=
  (legacyClock lib w coordinates startTime speedKmh elevationGain
               elevationProfile false pauseDuration).

Local Abbreviation travelledAt k :=
  (fold_left
     (fun total i =>
        total + calculateSegmentDistance lib (nth i coordinates (0, 0))
                                         (nth (i + 1) coordinates (0, 0)))
     (seq 0 k) 0).

(** Without noise and pauses the clock is the travel time so far, less
    than a millisecond lost at each point. *)
Lemma legacyClock_exact (k : nat) :
  (startTime <= clockAt k)%Z /\
  IZR startTime + travelledAt k / speedKmh * 3600 * 1000 - INR k
    <= IZR (clockAt k)
    <= IZR startTime + travelledAt k / speedKmh * 3600 * 1000.
Proof.
  induction k as [| k (IHstart & IHlo & IHhi)].
  - cbn [legacyClock seq fold_left INR]. split; [lia |].
    unfold Rdiv. lra.
  - rewrite seq_S, fold_left_app. cbn [fold_left].
    change (0 + k)%nat with k.
    set (travelled := fold_left _ (seq 0 k) 0) in *.
    change (calculateSegmentDistance lib (nth k coordinates (0, 0))
              (nth (k + 1) coordinates (0, 0)))
      with (legacySegmentDistance lib coordinates k).
    cbn [legacyClock].
    assert (Hspeed : legacySegmentSpeed lib w coordinates speedKmh elevationGain
                       elevationProfile false k = speedKmh) by reflexivity.
    assert (Hpause : legacyPauseMs w pauseDuration k = 0).
    { unfold legacyPauseMs. destruct (Rgt_dec pauseDuration 0); [lra | reflexivity]. }
    rewrite Hspeed, Hpause, Rplus_0_r.
    set (d := legacySegmentDistance lib coordinates k).
    assert (Hd : 0 <= d) by apply distance_nonneg.
    assert (Hseg : 0 <= d / speedKmh * 3600 * 1000).
    { assert (Hq : 0 <= d / speedKmh).
      { apply Rmult_le_pos; [assumption |]. left. now apply Rinv_0_lt_compat. }
      nra. }
    set (seg := d / speedKmh * 3600 * 1000) in *.
    assert (Hsplit : (travelled + d) / speedKmh * 3600 * 1000 =
                     travelled / speedKmh * 3600 * 1000 + seg).
    { unfold seg. field. lra. }
    rewrite Hsplit.
    assert (Hclock : 0 <= IZR (clockAt k)) by (apply IZR_le; lia).
    unfold TimeClip. rewrite ToInteger_nonneg by lra.
    pose proof (Zfloor_bound (IZR (clockAt k) + seg)) as [Hf1 Hf2].
    split.
    + apply le_IZR. 
      assert (H : IZR (clockAt k) <= IZR (Zfloor (IZR (clockAt k) + seg))).
      { apply IZR_le, Zfloor_lub. lra. }
      apply IZR_le in IHstart. lra.
    + rewrite S_INR. lra.
Qed.

End LegacyDuration.

(** X28. On the legacy path, with noise off and no pause, a positive
    speed and a start time from 1970 on, the activity lasts the distance
    of the route divided by the speed: the last timestamp is that long
    after the start time, less at most one millisecond for each point
    after the first, lost to the truncation of the dates. *)
Theorem legacy_duration_without_noise (lib : Library) (w : Ambient)
    (coordinates : list Coordinate) (startTime : Z) (speedKmh : R)
    (elevationGain : option R) (elevationProfile : option ElevationProfile)
    (pauseDuration : option R) :
  (2 <= length coordinates)%nat ->
  (0 <= startTime)%Z ->
  0 < speedKmh ->
  (forall a b, 0 <= turf_distance lib a b) ->
  withDefault pauseDuration 0 <= 0 ->
  let exact :=
    calculateCoordinatesDistance lib coordinates / speedKmh * 3600 * 1000 in
  exists last t,
    nth_error
      (generateTrackPoints lib w coordinates startTime speedKmh elevationGain
         elevationProfile (Some false) pauseDuration)
      (length coordinates - 1) = Some last /\
    GPXPoint.time last = Some t /\
    exact - INR (length coordinates - 1) <= IZR (t - startTime) <= exact.
Proof.
  intros Hn Hstart Hspeed Hdist Hpause exact. subst exact.
  do 2 eexists.
  split; [apply generateTrackPoints_nth_error; lia |].
  split; [reflexivity |].
  cbn [withDefault].
  destruct (legacyClock_exact lib w coordinates startTime speedKmh elevationGain
              (withDefault elevationProfile flat) (withDefault pauseDuration 0)
              Hstart Hspeed Hdist Hpause (length coordinates - 1))
    as (_ & Hlo & Hhi).
  rewrite minus_IZR. unfold calculateCoordinatesDistance. lra.
Qed.

Lemma legacy_duration_without_noise_witness :
  exists last t,
    nth_error
      (generateTrackPoints unitLibrary quietWorld threeCoordinates 0 10 None None
         (Some false) None)
      (length threeCoordinates - 1) = Some last /\
    GPXPoint.time last = Some t /\
    calculateCoordinatesDistance unitLibrary threeCoordinates / 10 * 3600 * 1000
      - INR (length threeCoordinates - 1)
      <= IZR (t - 0)
      <= calculateCoordinatesDistance unitLibrary threeCoordinates / 10 * 3600 * 1000.
Proof.
  apply (legacy_duration_without_noise unitLibrary quietWorld threeCoordinates 0 10
           None None None).
  - simpl. lia.
  - lia.
  - lra.
  - intros a b. simpl. lra.
  - simpl. lra.
Defined.

Section RealisticDuration.

Variable w : Ambient.
Variable points : list Point.t.
Variable avgSpeedKmh : R.
Variable startTime : Z.
Variable samplingRateSeconds : R.
Variable speedVariation : R.
Variable activityType : ActivityType.

Hypothesis enough_points : (2 <= length points)%nat.
Hypothesis speed_pos : 0 < avgSpeedKmh.
Hypothesis draws_positive : positiveDraws w.

Local Abbreviation clockAt :=
  (realisticClock w points avgSpeedKmh startTime samplingRateSeconds
                  speedVariation activityType).

Lemma realisticSpeed_upper (i : nat) :
  (i < length points)%nat ->
  0 < realisticSpeed w points avgSpeedKmh speedVariation activityType i
    <= 1.998 * avgSpeedKmh.
Proof.
  intros Hi. split; [now apply realisticSpeed_pos |].
  unfold realisticSpeed.
  pose proof (generatePacingCurve_pos (length points) activityType i
                enough_points Hi) as Hc.
  set (c := nth i _ 0) in *.
  assert (Hbase : 0 <= avgSpeedKmh * c) by nra.
  pose proof (addSpeedVariation_range (random_u1 w i) (random_u2 w i)
                (avgSpeedKmh * c) speedVariation (draws_positive i) Hbase) as Hs.
  nra.
Qed.

(** The clock runs at least as long as the way so far takes at 1.998
    times the average speed, a millisecond lost at each point. *)
Lemma realisticClock_lower (k : nat) :
  (k < length points)%nat ->
  IZR startTime +
  realisticTravelled points k / (1.998 * avgSpeedKmh) * 3600 * 1000 - INR k
    <= IZR (clockAt k).
Proof.
  induction k as [| k IH]; intros Hk.
  - cbn [realisticClock realisticTravelled INR]. unfold Rdiv. lra.
  - specialize (IH ltac:(lia)).
    cbn [realisticClock realisticTravelled].
    pose proof (TimeClip_advance (clockAt k)
                  (realisticActualMs w points avgSpeedKmh samplingRateSeconds
                     speedVariation activityType (S k))) as Hadv.
    apply IZR_le in Hadv. rewrite plus_IZR in Hadv.
    set (ms := realisticActualMs w points avgSpeedKmh samplingRateSeconds
                 speedVariation activityType (S k)) in *.
    pose proof (Zfloor_bound ms) as [_ Hfloor].
    set (d := realisticSegmentDistance points (S k)).
    assert (Hd : 0 <= d) by apply haversineDistance_nonneg.
    destruct (realisticSpeed_upper (S k) Hk) as [Hs1 Hs2].
    set (s := realisticSpeed w points avgSpeedKmh speedVariation activityType (S k))
      in *.
    assert (Hms : d / (1.998 * avgSpeedKmh) * 3600 * 1000 <= ms).
    { eapply Rle_trans; [| apply Rmax_l].
      fold d. fold s.
      assert (Hinv : / (1.998 * avgSpeedKmh) <= / s).
      { apply Rinv_le_contravar; assumption. }
      assert (Hq : d * / (1.998 * avgSpeedKmh) <= d * / s)
        by (apply Rmult_le_compat_l; assumption).
      unfold Rdiv. lra. }
    assert (Hsplit : (realisticTravelled points k + d) / (1.998 * avgSpeedKmh)
                       * 3600 * 1000 =
                     realisticTravelled points k / (1.998 * avgSpeedKmh)
                       * 3600 * 1000 +
                     d / (1.998 * avgSpeedKmh) * 3600 * 1000).
    { field. lra. }
    rewrite Hsplit, S_INR. lra.
Qed.

Lemma realisticTravelled_total :
  realisticTravelled points (length points - 1) = calculateRouteDistance points.
Proof.
  unfold calculateRouteDistance.
  induction (length points - 1)%nat as [| k IH]; [reflexivity |].
  rewrite seq_S, fold_left_app. cbn [fold_left realisticTravelled].
  now rewrite <- IH.
Qed.

End RealisticDuration.

(** X29. On the realistic-timing path, with a positive average speed, at
    least two points, consecutive positions that are measurable and
    first draws of [addSpeedVariation] other than 0 (so that the source
    computes numbers), the activity never lasts less than the route
    takes at 1.998 times the average speed, the fastest a segment can
    be: the last timestamp is at least that long after the start time,
    less at most one millisecond for each point after the first. *)
Theorem realistic_duration_lower_bound (w : Ambient) (points : list Point.t)
    (options : RealisticTimestampOptions.t) :
  (2 <= length points)%nat ->
  0 < RealisticTimestampOptions.avgSpeedKmh options ->
  positiveDraws w ->
  measurableRoute points ->
  exists out last,
    generateRealisticTimestamps w points options = Resolved out /\
    nth_error out (length points - 1) = Some last /\
    calculateRouteDistance points /
      (1.998 * RealisticTimestampOptions.avgSpeedKmh options) * 3600 * 1000
      - INR (length points - 1)
    <= IZR (TimestampedPoint.time last - RealisticTimestampOptions.startTime options).
Proof.
  intros Hn Havg Hdraws _.
  destruct (generateRealisticTimestamps_nth_error w points options Hn)
    as (out & Hout & Hnth).
  exists out. eexists.
  split; [exact Hout |].
  split; [apply Hnth; lia |].
  cbn [realisticPoint TimestampedPoint.time].
  pose proof (realisticClock_lower w points
                (RealisticTimestampOptions.avgSpeedKmh options)
                (RealisticTimestampOptions.startTime options)
                (withDefault (RealisticTimestampOptions.samplingRateSeconds options) 4)
                (withDefault (RealisticTimestampOptions.speedVariation options) 0.15)
                (withDefault (RealisticTimestampOptions.activityType options) Run)
                Hn Havg Hdraws (length points - 1) ltac:(lia)) as Hlower.
  rewrite realisticTravelled_total in Hlower.
  rewrite minus_IZR. lra.
Qed.

Lemma realistic_duration_lower_bound_witness :
  exists out last,
    generateRealisticTimestamps quietWorld eastward (plainOptions None) =
      Resolved out /\
    nth_error out (length eastward - 1) = Some last /\
    calculateRouteDistance eastward / (1.998 * 10) * 3600 * 1000
      - INR (length eastward - 1)
    <= IZR (TimestampedPoint.time last - 0).
Proof.
  apply (realistic_duration_lower_bound quietWorld eastward (plainOptions None)).
  - simpl. lia.
  - simpl. lra.
  - exact positiveDraws_quietWorld.
  - intros i Hi. destruct i as [| i]; [| simpl in Hi; lia].
    exact (proj1 measurable_equator).
Defined.


(** ** The legacy wrapper *)

(** X30. [generateGPX] always resolves, with a document of the legacy
    path at the default speed of the activity, on a flat profile without
    elevation.  Its activity is Walk unless the route says [running] or
    [cycling], so also for a route that says [Run] or [Bike]; the
    [points] of the route, when present, are the track and its
    [coordinates] are not read. *)
Theorem generateGPX_legacy_path (lib : Library) (w : Ambient)
    (route : LegacyRoute.t) :
  exists activityType coordinates,
    (LegacyRoute.activityType route <> "running"%string ->
     LegacyRoute.activityType route <> "cycling"%string ->
     activityType = Walk) /\
    (forall points,
       LegacyRoute.points route = Some points ->
       coordinates = map (fun p => (Point.lng p, Point.lat p)) points) /\
    generateGPX lib w route =
    Resolved
      (generateGPXXML lib (LegacyRoute.name route)
         (orString (LegacyRoute.description route)
            (String.append (ActivityType_name activityType) " activity"))
         (ActivityType_name activityType)
         (generateTrackPoints lib w coordinates
            (withDefault (LegacyRoute.createdAt route) (now w))
            (DEFAULT_SPEEDS activityType) None None None None)
         (withDefault (LegacyRoute.createdAt route) (now w))).
Proof.
  eexists. eexists. split; [| split]; [| | reflexivity].
  - intros Hrun Hbike.
    destruct (String.eqb_spec (LegacyRoute.activityType route) "running");
      [contradiction |].
    destruct (String.eqb_spec (LegacyRoute.activityType route) "cycling");
      [contradiction |].
    reflexivity.
  - intros points Hpoints.
    cbn [GPXGenerationOptions.coordinates]. now rewrite Hpoints.
Qed.

Lemma generateGPX_legacy_path_witness :
  exists activityType coordinates,
    activityType = Walk /\
    coordinates = map (fun p => (Point.lng p, Point.lat p)) eastward /\
    generateGPX unitLibrary quietWorld oldRoute =
    Resolved
      (generateGPXXML unitLibrary "Old"
         (String.append (ActivityType_name activityType) " activity")
         (ActivityType_name activityType)
         (generateTrackPoints unitLibrary quietWorld coordinates 0
            (DEFAULT_SPEEDS activityType) None None None None)
         0).
Proof.
  destruct (generateGPX_legacy_path unitLibrary quietWorld oldRoute)
    as (activityType & coordinates & Hwalk & Hpoints & Hdocument).
  exists activityType, coordinates.
  split; [apply Hwalk; discriminate |].
  split; [now apply Hpoints |].
  exact Hdocument.
Defined.
